(** * PhantomLinkedin: the polling / launch control loops

    The repository holds two Streamlit front ends for the same job, polling
    a PhantomBuster agent and re-launching it:

    - [Activator]  : the script with [get_phantom_status], [launch_phantom]
                     and [automation_loop] working on [st.session_state];
    - [Controller] : [app.py], the class [PhantomController] with
                     [check_status], [launch_phantom], [start_automation].

    Both are embedded over one small runtime: a clock, the shared state the
    worker thread and the UI script both touch, the button presses of the UI
    still to come, and the list of HTTP requests issued so far.  The remote
    service is an oracle giving the outcome of the n-th request. *)

From Stdlib Require Import ZArith String List Bool Lia.
Import ListNotations.
Set Warnings "-register-all".
Open Scope Z_scope.

(** ** Python values coming out of [response.json()] *)

Inductive pyval : Type :=
| PNone
| PBool (b : bool)
| PInt (n : Z)
| PFloat (repr : string)
| PStr (s : string)
| PList (items : list pyval)
| PDict (entries : list (string * pyval)).

(** Exceptions, by the classes the [except] clauses of the source tell
    apart.  Only subclasses of [Exception] are modelled. *)
Inductive exn : Type :=
| RequestException (detail : string)   (* requests.RequestException and below *)
| AttributeError (detail : string)
| ValueError (detail : string)
| OtherException (detail : string).

Definition is_request_exception (e : exn) : bool :=
  match e with RequestException _ => true | _ => false end.

Fixpoint dict_lookup (key : string) (entries : list (string * pyval)) : option pyval :=
  match entries with
  | [] => None
  | (k, v) :: rest => if String.eqb k key then Some v else dict_lookup key rest
  end.

(** [receiver.get(key, default)]: only a dict has the method. *)
Definition py_get (receiver : pyval) (key : string) (default : pyval) : exn + pyval :=
  match receiver with
  | PDict entries =>
      inr (match dict_lookup key entries with Some v => v | None => default end)
  | _ => inl (AttributeError "object has no attribute 'get'")
  end.

(** [v == s] for a string literal [s]. *)
Definition py_eq_str (v : pyval) (s : string) : bool :=
  match v with PStr x => String.eqb x s | _ => false end.

(** [v is None] *)
Definition py_is_none (v : pyval) : bool :=
  match v with PNone => true | _ => false end.

(** [v in [s1, s2, ...]] for a list of string literals. *)
Definition py_in_strs (v : pyval) (l : list string) : bool :=
  existsb (py_eq_str v) l.

(** ** HTTP as seen through [requests] *)

Inductive http_verb : Type := GET | POST.

Record http_call : Type := mkCall {
  issued_at : Z;
  verb : http_verb;
  url : string;
  key_header : string * string;
  timeout : option Z;
  payload : option string
}.

(** A response object: [r.status_code], [r.text] and what [r.json()] gives.
    For a body that is not JSON, [r.json()] raises; which class it raises
    (a [RequestException] in recent versions of requests, a plain
    [ValueError] in older ones) is left to the oracle. *)
Record response : Type := mkResponse {
  status_code : Z;
  text : string;
  json : exn + pyval
}.

(** What the network does with one request: how long the call blocks and
    whether it raises or returns a response. *)
Record net_reply : Type := mkReply {
  latency : nat;
  reply : exn + response
}.

Definition is_launch (c : http_call) : bool :=
  match verb c with POST => true | GET => false end.

(** ** The runtime shared by both programs *)

Record world (S E : Type) : Type := mkWorld {
  shared : S;                      (* state shared by worker and UI script *)
  clock : Z;                       (* seconds *)
  ui_pending : list (Z * E);       (* button presses to come, by time *)
  http_log : list http_call        (* requests issued so far, oldest first *)
}.
Arguments mkWorld {S E}.
Arguments shared {S E}.
Arguments clock {S E}.
Arguments ui_pending {S E}.
Arguments http_log {S E}.

Definition launches {S E} (w : world S E) : list http_call :=
  filter is_launch (http_log w).

(** Computations of the worker thread: they change the world and either
    return a value or raise. *)
Definition M (S E A : Type) : Type := world S E -> (exn + A) * world S E.

Section Runtime.
Context {S E : Type}.
(** [handle t e s]: the UI script handling button press [e] at time [t]. *)
Variable handle : Z -> E -> S -> S.
(** [net n]: the fate of the n-th request (counting from 0). *)
Variable net : nat -> net_reply.

Definition ret {A} (a : A) : M S E A := fun w => (inr a, w).

Definition bind {A B} (m : M S E A) (f : A -> M S E B) : M S E B :=
  fun w => match m w with
           | (inl e, w') => (inl e, w')
           | (inr a, w') => f a w'
           end.

Definition raise {A} (e : exn) : M S E A := fun w => (inl e, w).

(** [try: m  except <classes accepted by catches> as e: handler e] *)
Definition try_except {A} (m : M S E A) (catches : exn -> bool)
           (handler : exn -> M S E A) : M S E A :=
  fun w => match m w with
           | (inl e, w') => if catches e then handler e w' else (inl e, w')
           | r => r
           end.

Definition lift_result {A} (r : exn + A) : M S E A := fun w => (r, w).

Definition gets {A} (f : S -> A) : M S E A := fun w => (inr (f (shared w)), w).

Definition modify (f : S -> S) : M S E unit :=
  fun w => (inr tt, mkWorld (f (shared w)) (clock w) (ui_pending w) (http_log w)).

(** A write that needs the current time (a log line). *)
Definition modify_at (f : Z -> S -> S) : M S E unit :=
  fun w => (inr tt, mkWorld (f (clock w) (shared w)) (clock w) (ui_pending w) (http_log w)).

(** The UI script runs the handlers of every press that is due. *)
Fixpoint run_ui (now : Z) (pending : list (Z * E)) (s : S) : list (Z * E) * S :=
  match pending with
  | [] => ([], s)
  | (t, e) :: rest =>
      if t <=? now then run_ui now rest (handle t e s) else (pending, s)
  end.

(** The worker blocks for [d] seconds; meanwhile the UI script runs. *)
Definition advance (d : Z) (w : world S E) : world S E :=
  let now := clock w + d in
  let (pending, s) := run_ui now (ui_pending w) (shared w) in
  mkWorld s now pending (http_log w).

(** [time.sleep(d)] *)
Definition sleep (d : Z) : M S E unit :=
  if d <? 0 then raise (ValueError "sleep length must be non-negative")
  else fun w => (inr tt, advance d w).

(** [requests.get] / [requests.post]: the call is recorded, the worker
    blocks for the latency the oracle gives, then sees the outcome. *)
Definition request (v : http_verb) (u : string) (k : string * string)
           (tmo : option Z) (body : option string) : M S E response :=
  fun w =>
    let r := net (length (http_log w)) in
    let c := mkCall (clock w) v u k tmo body in
    let w1 := mkWorld (shared w) (clock w) (ui_pending w) (http_log w ++ [c]) in
    (reply r, advance (Z.of_nat (latency r)) w1).
End Runtime.

Declare Scope worker_scope.
Delimit Scope worker_scope with worker.
Notation "x <- m ;; k" := (bind m (fun x => k))
  (at level 61, m at next level, right associativity) : worker_scope.
Notation "m ;; k" := (bind m (fun _ => k))
  (at level 61, right associativity) : worker_scope.

(** The status request failed: it raised, or the answer is not a 200, or
    its body is not JSON. *)
Definition fetch_failed (r : net_reply) : bool :=
  match reply r with
  | inl _ => true
  | inr resp =>
      (negb (status_code resp =? 200)
       || match json resp with inl _ => true | inr _ => false end)%bool
  end.

(** The launch request was acknowledged with a 200. *)
Definition launcher_ok (r : net_reply) : bool :=
  match reply r with
  | inl _ => false
  | inr resp => status_code resp =? 200
  end.

(** The status requests among the requests issued. *)
Definition polls {S E} (w : world S E) : list http_call :=
  filter (fun c => negb (is_launch c)) (http_log w).

(** Where a [while] loop of a worker stands after at most [n] passes. *)
Inductive loop_status : Type :=
| Looping                  (* [n] passes done, the test not yet taken again *)
| Exited                   (* the test was false *)
| Faulted (e : exn).       (* the body raised *)

(** * The session-state script: [automation_loop] and its UI handlers *)

Module Activator.

(** The lines written by [log].  Each constructor is one of the f-strings
    of the script, holding the values interpolated into it; the text is
    given in the comment (the leading pictograph is left out). *)
Inductive log_msg : Type :=
| ThreadStarted                 (* "Automation thread started." *)
| FetchFailed (code : Z) (body : string)
                                (* "Failed to fetch status (HTTP {code}): {text[:200]}" *)
| FetchError (e : exn)          (* "Error fetching status: {e}" *)
| LaunchFailed (code : Z) (body : string)
                                (* "Launch failed (HTTP {code}): {text[:200]}" *)
| LaunchError (e : exn)         (* "Error launching phantom: {e}" *)
| Launching (next_idx run_count : Z) (status : pyval) (currently : bool)
                                (* "Launching Phantom (activation {next_idx}/{run_count})
                                    - status [currently] '{status}'." *)
| LaunchRequested               (* "Launch requested successfully." *)
| LaunchRequestFailed           (* "Launch request failed." *)
| Waiting                       (* "Phantom is running. Waiting..." *)
| UnexpectedError (e : exn)     (* "Unexpected error in automation loop: {e}" *)
| ThreadStopped                 (* "Automation thread stopped." *)
| LogsCleared                   (* "Logs cleared." *)
| StopRequested                 (* "Stop requested." *)
| AlreadyRunning                (* "Already running." *)
| AutomationStarted.            (* "Automation started." *)

(** One line of [st.session_state.logs]: "[{timestamp}] {msg}". *)
Definition log_line : Type := (Z * log_msg)%type.

Inductive thread_handle : Type := WorkerThread.

(** [st.session_state], with the keys [init_state] creates. *)
Record session_state : Type := mkSession {
  is_running : bool;
  stop_flag : bool;
  activations_done : Z;
  logs : list log_line;
  thread : option thread_handle
}.

Definition init_state : session_state :=
  mkSession false false 0 [] None.

Definition set_is_running (b : bool) (s : session_state) : session_state :=
  mkSession b (stop_flag s) (activations_done s) (logs s) (thread s).
Definition set_stop_flag (b : bool) (s : session_state) : session_state :=
  mkSession (is_running s) b (activations_done s) (logs s) (thread s).
Definition set_activations_done (n : Z) (s : session_state) : session_state :=
  mkSession (is_running s) (stop_flag s) n (logs s) (thread s).
Definition set_logs (l : list log_line) (s : session_state) : session_state :=
  mkSession (is_running s) (stop_flag s) (activations_done s) l (thread s).
Definition set_thread (t : option thread_handle) (s : session_state) : session_state :=
  mkSession (is_running s) (stop_flag s) (activations_done s) (logs s) t.

(** [st.session_state.activations_done += 1] *)
Definition count_one (s : session_state) : session_state :=
  set_activations_done (activations_done s + 1) s.

(** [log(msg)], called at time [now]. *)
Definition log_at (now : Z) (msg : log_msg) (s : session_state) : session_state :=
  set_logs (logs s ++ [(now, msg)]) s.

(** ** The button handlers of the script

    The script is rerun by Streamlit on every press; a press during a run
    is handled while the worker is blocked in a request or a sleep. *)
Inductive button : Type := ClearLogs | Stop.

(** [if clear_btn: ...] *)
Definition clear_logs (now : Z) (s : session_state) : session_state :=
  log_at now LogsCleared (set_activations_done 0 (set_logs [] s)).

(** [if stop_btn and st.session_state.is_running: ...] *)
Definition request_stop (now : Z) (s : session_state) : session_state :=
  if is_running s then log_at now StopRequested (set_stop_flag true s) else s.

Definition on_press (now : Z) (b : button) (s : session_state) : session_state :=
  match b with
  | ClearLogs => clear_logs now s
  | Stop => request_stop now s
  end.

(** What a press on start came to. *)
Inductive start_outcome : Type :=
| WasRunning        (* a run is on: only a log line *)
| Refused           (* credential or id empty: [st.error], nothing started *)
| Spawned.          (* a worker thread was created and started *)

(** [if start_btn: ...].  The line "Automation started." is written by the
    script right after [t.start()], so the first line of the worker may come
    before it; here it comes first.  A press on start is not among the
    presses handled during a run, where it would only log "Already
    running.". *)
Definition press_start (now : Z) (api_key_input phantom_id : string)
           (s : session_state) : start_outcome * session_state :=
  if is_running s then (WasRunning, log_at now AlreadyRunning s)
  else if (String.eqb api_key_input EmptyString || String.eqb phantom_id EmptyString)%bool
  then (Refused, s)
  else (Spawned,
        log_at now AutomationStarted
          (set_thread (Some WorkerThread)
             (set_activations_done 0
                (set_is_running true (set_stop_flag false s))))).

Definition W : Type := world session_state button.
Definition Worker : Type -> Type := M session_state button.

Definition log (msg : log_msg) : Worker unit := modify_at (fun now => log_at now msg).

Section Loop.
Variable net : nat -> net_reply.
Variable api_key phantom_id : string.
Variable run_count poll_seconds : Z.
Variable idle_only : bool.

Local Open Scope worker_scope.

Definition fetch_url : string :=
  ("https://api.phantombuster.com/api/v2/agents/fetch?id=" ++ phantom_id)%string.
Definition launch_url : string :=
  ("https://api.phantombuster.com/api/v2/agents/launch?id=" ++ phantom_id)%string.
Definition key1 : string * string := ("X-Phantombuster-Key-1"%string, api_key).

(** The two requests of the script, as issued in world [w]. *)
Definition fetch_call (w : W) : http_call :=
  mkCall (clock w) GET fetch_url key1 (Some 30) None.
Definition launch_call (w : W) : http_call :=
  mkCall (clock w) POST launch_url key1 (Some 30) None.

(** The body of the [try] of [get_phantom_status]. *)
Definition get_phantom_status_try : Worker pyval :=
  r <- request on_press net GET fetch_url key1 (Some 30) None ;;
  if status_code r =? 200 then
    data <- lift_result (json r) ;;
    inner <- lift_result (py_get data "data" (PDict [])) ;;
    lift_result (py_get inner "status" PNone)
  else
    log (FetchFailed (status_code r) (substring 0 200 (text r))) ;;
    ret PNone.

(** [get_phantom_status]: [PNone] stands for Python's [None]. *)
Definition get_phantom_status : Worker pyval :=
  try_except get_phantom_status_try is_request_exception
    (fun e => log (FetchError e) ;; ret PNone).

Definition launch_phantom : Worker bool :=
  try_except
    (r <- request on_press net POST launch_url key1 (Some 30) None ;;
     if status_code r =? 200 then ret true
     else
       log (LaunchFailed (status_code r) (substring 0 200 (text r))) ;;
       ret false)
    is_request_exception
    (fun e => log (LaunchError e) ;; ret false).

(** The launch block, which the loop has twice (once per policy) with
    the same statements; the two log texts differ by one word, kept in
    [currently]. *)
Definition launch_and_count (status : pyval) (currently : bool) : Worker unit :=
  done <- gets activations_done ;;
  let next_idx := done + 1 in
  log (Launching next_idx run_count status currently) ;;
  ok <- launch_phantom ;;
  if ok : bool then
    modify count_one ;;
    log LaunchRequested
  else
    log LaunchRequestFailed.

(** The inner [while slept < poll_seconds and not stop_flag]. The fuel is
    only there for the recursion: [sleep_between_polls] gives as much as
    the loop can use. *)
Fixpoint sleep_ticks (fuel : nat) (slept : Z) : Worker unit :=
  match fuel with
  | O => ret tt
  | Datatypes.S fuel' =>
      stop <- gets stop_flag ;;
      if ((slept <? poll_seconds) && negb stop)%bool then
        sleep on_press 1 ;;
        sleep_ticks fuel' (slept + 1)
      else ret tt
  end.

Definition sleep_between_polls : Worker unit :=
  sleep_ticks (Z.to_nat poll_seconds) 0.

(** The launch policy, applied to a status that is not [None]. *)
Definition apply_policy (status : pyval) : Worker unit :=
  if idle_only then
    if negb (py_eq_str status "running") then launch_and_count status true
    else log Waiting
  else launch_and_count status false.

(** One pass through the body of the outer [while]. *)
Definition loop_body : Worker unit :=
  status <- get_phantom_status ;;
  if py_is_none status then
    sleep on_press poll_seconds             (* then [continue] *)
  else
    apply_policy status ;;
    sleep_between_polls.

(** The test of the outer [while]. *)
Definition loop_test (s : session_state) : bool :=
  (negb (stop_flag s) && (activations_done s <? run_count))%bool.

Fixpoint while_loop (n : nat) (w : W) : loop_status * W :=
  match n with
  | O => (Looping, w)
  | Datatypes.S n' =>
      if loop_test (shared w) then
        match loop_body w with
        | (inl e, w') => (Faulted e, w')
        | (inr _, w') => while_loop n' w'
        end
      else (Exited, w)
  end.

(** The [finally] clause. *)
Definition finally_clause : Worker unit :=
  modify (set_is_running false) ;;
  modify (set_thread None) ;;
  log ThreadStopped.

(** [automation_loop], given fuel for [n] passes; [None] when the worker
    is still looping after [n] passes. *)
Definition automation_loop (n : nat) (w : W) : option W :=
  let w0 := snd (log ThreadStarted w) in
  match while_loop n w0 with
  | (Looping, _) => None
  | (Exited, w1) => Some (snd (finally_clause w1))
  | (Faulted e, w1) =>
      Some (snd ((log (UnexpectedError e) ;; finally_clause) w1))
  end.
End Loop.

(** ** Vocabulary for the invariants of the script *)

(** A property [P] of the session state is steady under the presses in
    [may] when neither a log line nor the handler of such a press breaks
    it. *)
Definition steady (P : session_state -> Prop) (may : button -> Prop) : Prop :=
  (forall t m s, P s -> P (log_at t m s))
  /\ (forall t b s, may b -> P s -> P (on_press t b s)).

(** [P] holds now and only presses in [may] are to come. *)
Definition holds (P : session_state -> Prop) (may : button -> Prop) (w : W) : Prop :=
  P (shared w) /\ Forall (fun p => may (snd p)) (ui_pending w).

(** Whether the policy asks for a launch on a status that is not [None]. *)
Definition policy_launches (idle_only : bool) (status : pyval) : bool :=
  if idle_only then negb (py_eq_str status "running") else true.

Definition any_button (b : button) : Prop := True.
Definition not_clear (b : button) : Prop := b <> ClearLogs.

End Activator.

(** * [app.py]: the class [PhantomController] *)

Module Controller.

(** What [st.error] is called with. *)
Inductive alert : Type :=
| StatusHttpError (code : Z)         (* "Error checking status: {code}" *)
| StatusError (e : exn)              (* "Error checking phantom status: {e}" *)
| LaunchHttpError (code : Z)         (* "Error launching phantom: {code}" *)
| LaunchError (e : exn).             (* "Error launching phantom: {e}" *)

Inductive thread_handle : Type := WorkerThread.

(** The attributes of a [PhantomController]; [headers] and [data] are
    functions of [api_key] and [agent_id]. *)
Record controller : Type := mkController {
  api_key : string;
  agent_id : string;
  is_active : bool;
  launch_count : Z;
  max_launches : Z;
  automation_running : bool;
  thread : option thread_handle;
  status_check_interval : Z
}.

(** [PhantomController(api_key, agent_id)] *)
Definition init (key id : string) : controller :=
  mkController key id false 0 0 false None 30.

Definition headers (c : controller) : string * string :=
  ("x-phantombuster-key"%string, api_key c).
Definition dquote : string := String (Ascii.ascii_of_nat 34) EmptyString.
Definition data (c : controller) : string :=
  ("{" ++ dquote ++ "id" ++ dquote ++ ":" ++ dquote ++ agent_id c ++ dquote ++ "}")%string.

Definition set_is_active (b : bool) (c : controller) : controller :=
  mkController (api_key c) (agent_id c) b (launch_count c) (max_launches c)
    (automation_running c) (thread c) (status_check_interval c).
Definition set_launch_count (n : Z) (c : controller) : controller :=
  mkController (api_key c) (agent_id c) (is_active c) n (max_launches c)
    (automation_running c) (thread c) (status_check_interval c).
Definition set_max_launches (n : Z) (c : controller) : controller :=
  mkController (api_key c) (agent_id c) (is_active c) (launch_count c) n
    (automation_running c) (thread c) (status_check_interval c).
Definition set_automation_running (b : bool) (c : controller) : controller :=
  mkController (api_key c) (agent_id c) (is_active c) (launch_count c) (max_launches c)
    b (thread c) (status_check_interval c).
Definition set_thread (t : option thread_handle) (c : controller) : controller :=
  mkController (api_key c) (agent_id c) (is_active c) (launch_count c) (max_launches c)
    (automation_running c) t (status_check_interval c).

(** What worker and UI script share: the controller kept in the session
    state, and the error boxes written to the page. *)
Record page : Type := mkPage {
  ctl : controller;
  alerts : list alert
}.

Definition on_ctl (f : controller -> controller) (p : page) : page :=
  mkPage (f (ctl p)) (alerts p).
Definition st_error (a : alert) (p : page) : page :=
  mkPage (ctl p) (alerts p ++ [a]).

(** The presses handled while the worker of [run_automation] is blocked in
    a request or a sleep.  Of the sidebar buttons only "Stop Automation" is
    among them.  "Launch Phantom Once" and "Check Status" call
    [launch_phantom] and [check_status] from the UI script, with a request
    of their own, and the first writes [is_active] and [launch_count];
    "Start Automation" acts only when [automation_running] is false and
    then rewrites [max_launches]; "Save Configuration" replaces the
    controller.  None of these four is a press here: what is stated below
    about [launch_count] over the passes of a run is stated for runs during
    which nothing is pressed, and only what holds of the writes of any
    handler ([steady]) is stated for any press. *)
Inductive button : Type := StopAutomation.

(** [stop_automation] *)
Definition stop_automation (c : controller) : controller :=
  set_automation_running false c.

(** [if st.button("Stop Automation") and controller.automation_running: ...] *)
Definition on_press (now : Z) (b : button) (p : page) : page :=
  match b with
  | StopAutomation =>
      if automation_running (ctl p) then on_ctl stop_automation p else p
  end.

Definition W : Type := world page button.
Definition Worker : Type -> Type := M page button.

Section Loop.
Variable net : nat -> net_reply.

Local Open Scope worker_scope.

Definition catch_all (e : exn) : bool := true.

Definition check_status : Worker bool :=
  try_except
    (c <- gets ctl ;;
     response <- request on_press net GET
       ("https://api.phantombuster.com/api/v2/agents/fetch?id=" ++ agent_id c)%string
       (headers c) None None ;;
     if status_code response =? 200 then
       agent_data <- lift_result (json response) ;;
       status <- lift_result (py_get agent_data "status" (PStr "unknown")) ;;
       modify (on_ctl (set_is_active
                         (py_in_strs status ["running"; "launching"; "waiting"]%string))) ;;
       gets (fun p => is_active (ctl p))
     else
       modify (st_error (StatusHttpError (status_code response))) ;;
       ret false)
    catch_all
    (fun e => modify (st_error (StatusError e)) ;; ret false).

Definition launch_phantom : Worker bool :=
  try_except
    (c <- gets ctl ;;
     response <- request on_press net POST
       "https://api.phantombuster.com/api/v2/agents/launch"
       (headers c) None (Some (data c)) ;;
     if status_code response =? 200 then
       modify (on_ctl (set_is_active true)) ;;
       modify (on_ctl (fun c => set_launch_count (launch_count c + 1) c)) ;;
       ret true
     else
       modify (st_error (LaunchHttpError (status_code response))) ;;
       ret false)
    catch_all
    (fun e => modify (st_error (LaunchError e)) ;; ret false).

(** The two requests of the class, as issued in world [w]. *)
Definition fetch_call (w : W) : http_call :=
  mkCall (clock w) GET
    ("https://api.phantombuster.com/api/v2/agents/fetch?id="
       ++ agent_id (ctl (shared w)))%string
    (headers (ctl (shared w))) None None.
Definition launch_call (w : W) : http_call :=
  mkCall (clock w) POST "https://api.phantombuster.com/api/v2/agents/launch"
    (headers (ctl (shared w))) None (Some (data (ctl (shared w)))).

(** The test of the [while] of [run_automation]. *)
Definition loop_test (c : controller) : bool :=
  (automation_running c &&
   ((max_launches c =? 0) || (launch_count c <? max_launches c)))%bool.

(** One pass through its body. *)
Definition loop_body : Worker unit :=
  current_status <- check_status ;;
  (if negb current_status then _ <- launch_phantom ;; ret tt else ret tt) ;;
  interval <- gets (fun p => status_check_interval (ctl p)) ;;
  sleep on_press interval.

Fixpoint while_loop (n : nat) (w : W) : loop_status * W :=
  match n with
  | O => (Looping, w)
  | Datatypes.S n' =>
      if loop_test (ctl (shared w)) then
        match loop_body w with
        | (inl e, w') => (Faulted e, w')
        | (inr _, w') => while_loop n' w'
        end
      else (Exited, w)
  end.

(** [run_automation], the thread body, given fuel for [n] passes: [None]
    when it is still looping after [n] passes; an exception leaving the
    loop would end the thread before the last assignment. *)
Definition run_automation (n : nat) (w : W) : option (exn + unit) * W :=
  match while_loop n w with
  | (Looping, w') => (None, w')
  | (Exited, w') =>
      (Some (inr tt), snd (modify (on_ctl (set_automation_running false)) w'))
  | (Faulted e, w') => (Some (inl e), w')
  end.

(** [start_automation(max_launches)] up to the creation of the thread. *)
Definition start_automation (n : Z) (c : controller) : controller :=
  set_thread (Some WorkerThread)
    (set_automation_running true (set_max_launches n c)).
End Loop.

(** ** Vocabulary for the invariants of the class *)

(** A property of the controller that the worker's own writes to
    [is_active] and [launch_count] and the handlers of the presses in [may]
    do not break. *)
Definition steady (P : controller -> Prop) (may : button -> Prop) : Prop :=
  (forall b c, P c -> P (set_is_active b c))
  /\ (forall n c, P c -> P (set_launch_count n c))
  /\ (forall t b p, may b -> P (ctl p) -> P (ctl (on_press t b p))).

Definition holds (P : controller -> Prop) (may : button -> Prop) (w : W) : Prop :=
  P (ctl (shared w)) /\ Forall (fun p => may (snd p)) (ui_pending w).

Definition any_button (b : button) : Prop := True.
Definition no_button (b : button) : Prop := False.

(** Running with no bound on the launches. *)
Definition unbounded_running (c : controller) : Prop :=
  max_launches c = 0 /\ automation_running c = true
  /\ 0 <= status_check_interval c.

End Controller.

(** * Concrete runs

    Replies of the remote service and starting worlds used to exercise the
    two programs. *)

Module Runs.

(** 200 with body [{"data": {"status": s}}]. *)
Definition reply_status (s : string) : net_reply :=
  mkReply 0 (inr (mkResponse 200 "(json)"
                    (inr (PDict [("data"%string, PDict [("status"%string, PStr s)])])))).

(** 200 with body [{"data": null}]. *)
Definition reply_null_data : net_reply :=
  mkReply 0 (inr (mkResponse 200 "(json)" (inr (PDict [("data"%string, PNone)])))).

(** 200 with body [{"data": {}}]. *)
Definition reply_no_status : net_reply :=
  mkReply 0 (inr (mkResponse 200 "(json)" (inr (PDict [("data"%string, PDict [])])))).

(** 200 with body [{"status": top, "data": {"status": inner}}]: the script
    reads the inner status, the class the top one. *)
Definition reply_two_level (top inner : string) : net_reply :=
  mkReply 0 (inr (mkResponse 200 "(json)"
                    (inr (PDict [("status"%string, PStr top);
                                 ("data"%string,
                                  PDict [("status"%string, PStr inner)])])))).

(** 200 acknowledging a launch. *)
Definition reply_ack : net_reply :=
  mkReply 0 (inr (mkResponse 200 "(json)" (inr (PDict [])))).

(** 500 with a body that is not JSON. *)
Definition reply_500 : net_reply :=
  mkReply 0 (inr (mkResponse 500 "Internal Server Error"
                    (inl (RequestException "Expecting value")))).

(** The agent is always found finished and every launch is acknowledged:
    status requests and launch requests alternate. *)
Definition net_finished_ack (n : nat) : net_reply :=
  if Nat.even n then reply_status "finished" else reply_ack.

(** The agent is reported waiting; launches are acknowledged. *)
Definition net_waiting_ack (n : nat) : net_reply :=
  if Nat.even n then reply_status "waiting" else reply_ack.

(** The agent is reported finished; launches are refused with a 500. *)
Definition net_finished_refused (n : nat) : net_reply :=
  if Nat.even n then reply_status "finished" else reply_500.

Definition net_running (n : nat) : net_reply := reply_status "running".
Definition net_500 (n : nat) : net_reply := reply_500.
Definition net_null_data (n : nat) : net_reply := reply_null_data.
Definition net_no_status (n : nat) : net_reply := reply_no_status.

(** [check_status] fails with a 500, the launch that follows is
    acknowledged. *)
Definition net_500_then_ack (n : nat) : net_reply :=
  if Nat.even n then reply_500 else reply_ack.

(** Running at the first status request, finished at the second, then the
    launch is acknowledged. *)
Definition net_running_then_finished (n : nat) : net_reply :=
  match n with
  | 0%nat => reply_status "running"
  | 1%nat => reply_status "finished"
  | _ => reply_ack
  end.

(** Two failed status requests (a 500, then a connection error), then
    finished, then the launch is acknowledged. *)
Definition net_unknown_twice_then_finished (n : nat) : net_reply :=
  match n with
  | 0%nat => reply_500
  | 1%nat => mkReply 0 (inl (RequestException "connection refused"))
  | 2%nat => reply_status "finished"
  | _ => reply_ack
  end.



(** Answers to a launch request that take 2 seconds to come: a 200, and a
    500. *)
Definition reply_ack_slow : net_reply :=
  mkReply 2 (inr (mkResponse 200 "(json)" (inr (PDict [])))).
Definition reply_500_slow : net_reply :=
  mkReply 2 (inr (mkResponse 500 "Internal Server Error"
                    (inl (RequestException "Expecting value")))).

(** The agent is found finished at once; the launch is answered after 2
    seconds, with a 200 or with a 500. *)
Definition net_finished_ack_slow (n : nat) : net_reply :=
  if Nat.even n then reply_status "finished" else reply_ack_slow.
Definition net_finished_refused_slow (n : nat) : net_reply :=
  if Nat.even n then reply_status "finished" else reply_500_slow.

(** The status request takes 1 second and finds the agent finished; the
    launch is acknowledged at once. *)
Definition net_slow_poll_finished_ack (n : nat) : net_reply :=
  if Nat.even n
  then mkReply 1 (inr (mkResponse 200 "(json)"
                         (inr (PDict [("data"%string,
                                       PDict [("status"%string, PStr "finished")])]))))
  else reply_ack.

(** The session state right after a press on start at second 0. *)
Definition session_started : Activator.session_state :=
  snd (Activator.press_start 0 "key" "id" Activator.init_state).

(** The world in which the worker of the script starts, with the presses
    [ui] to come. *)
Definition started (ui : list (Z * Activator.button)) : Activator.W :=
  mkWorld session_started 0 ui [].

(** A run of the script in which 2 launches have been counted, at a pass
    boundary, with the presses [ui] to come. *)
Definition counted_two (ui : list (Z * Activator.button)) : Activator.W :=
  mkWorld (Activator.set_activations_done 2 session_started) 0 ui [].

(** The world in which the worker of [app.py] starts after
    [start_automation(n)] on a fresh controller. *)
Definition controller_started (n : Z) (ui : list (Z * Controller.button)) : Controller.W :=
  mkWorld (Controller.mkPage
             (Controller.start_automation n (Controller.init "key" "agent")) [])
          0 ui [].

End Runs.

(** * The rest of the two scripts

    What surrounds the loops: the start of the script with [init_state],
    the status panel of the session-state script, and the buttons and the
    completion message of the dashboard of [app.py]. *)

(** [time.time()], in whole seconds. *)
Definition time_now {S E : Type} : M S E Z := fun w => (inr (clock w), w).

(** The truth value Python gives a value in [if v] and [v or ...]; for a
    float, [repr] is what Python prints for it. *)
Definition py_truthy (v : pyval) : bool :=
  match v with
  | PNone => false
  | PBool b => b
  | PInt n => negb (n =? 0)
  | PFloat repr => negb (String.eqb repr "0.0" || String.eqb repr "-0.0")
  | PStr s => negb (String.eqb s EmptyString)
  | PList items => match items with [] => false | _ => true end
  | PDict entries => match entries with [] => false | _ => true end
  end.

(** The launch requests among [calls], the [i]-th request of the run
    first, that the remote service acknowledged with a 200. *)
Fixpoint acknowledged_from (net : nat -> net_reply) (i : nat)
         (calls : list http_call) : Z :=
  match calls with
  | [] => 0
  | c :: rest =>
      (if (is_launch c && launcher_ok (net i))%bool then 1 else 0)
      + acknowledged_from net (Datatypes.S i) rest
  end.

Definition acknowledged (net : nat -> net_reply) (calls : list http_call) : Z :=
  acknowledged_from net 0 calls.

(** A list of requests made of passes: a status request alone, or a status
    request directly followed by one launch request. *)
Inductive poll_then_launch : list http_call -> Prop :=
| ptl_nil : poll_then_launch []
| ptl_poll (c : http_call) (rest : list http_call) :
    verb c = GET -> poll_then_launch rest -> poll_then_launch (c :: rest)
| ptl_launch (c1 c2 : http_call) (rest : list http_call) :
    verb c1 = GET -> verb c2 = POST -> poll_then_launch rest ->
    poll_then_launch (c1 :: c2 :: rest).

(** What [get_phantom_status] makes of the outcome of its request. *)
Definition status_answer (r : net_reply) : exn + pyval :=
  match reply r with
  | inl e => if is_request_exception e then inr PNone else inl e
  | inr resp =>
      if status_code resp =? 200 then
        match json resp with
        | inl e => if is_request_exception e then inr PNone else inl e
        | inr data =>
            match py_get data "data" (PDict []) with
            | inl e => inl e
            | inr inner => py_get inner "status" PNone
            end
        end
      else inr PNone
  end.


(** The remote service lets pass [k] of a run launch: asked for the status
    in request [first + 2k] it gives a status on which the policy launches,
    and it acknowledges the launch in request [first + 2k + 1]. *)
Definition lets_launch (net : nat -> net_reply) (idle_only : bool)
           (first k : nat) : Prop :=
  (exists v, status_answer (net (first + 2 * k)%nat) = inr v
             /\ py_is_none v = false
             /\ Activator.policy_launches idle_only v = true)
  /\ launcher_ok (net (first + 2 * k + 1)%nat) = true.

Module ActivatorPage.
Import Activator.

(** [st.session_state] as a rerun of the script finds it: any of the five
    keys may be absent. *)
Record raw_state : Type := mkRaw {
  raw_is_running : option bool;
  raw_stop_flag : option bool;
  raw_activations_done : option Z;
  raw_logs : option (list log_line);
  raw_thread : option (option thread_handle)
}.

(** [if key not in st.session_state: st.session_state.key = d] *)
Definition set_default {A : Type} (d : A) (o : option A) : option A :=
  match o with
  | Some _ => o
  | None => Some d
  end.

(** [init_state()] *)
Definition init_state_raw (r : raw_state) : raw_state :=
  mkRaw (set_default false (raw_is_running r))
        (set_default false (raw_stop_flag r))
        (set_default 0 (raw_activations_done r))
        (set_default [] (raw_logs r))
        (set_default None (raw_thread r)).

Definition no_keys : raw_state := mkRaw None None None None None.

(** The session state with all its keys, as the rest of the script reads
    it. *)
Definition of_session (s : session_state) : raw_state :=
  mkRaw (Some (is_running s)) (Some (stop_flag s)) (Some (activations_done s))
        (Some (logs s)) (Some (thread s)).

Definition to_session (r : raw_state) : option session_state :=
  match raw_is_running r, raw_stop_flag r, raw_activations_done r,
        raw_logs r, raw_thread r with
  | Some a, Some b, Some c, Some d, Some e => Some (mkSession a b c d e)
  | _, _, _, _, _ => None
  end.

(** No press at all is to come. *)
Definition nothing_pressed (b : button) : Prop := False.

Section Panel.
Variable net : nat -> net_reply.
Variable api_key_input phantom_id : string.

Local Open Scope worker_scope.

(** The attribute [last_status_check], absent until the first check:
    [getattr(st.session_state, "last_status_check", 0)]. *)
Definition last_or_zero (last : option Z) : Z :=
  match last with Some t => t | None => 0 end.

(** The test of the status panel. *)
Definition check_is_due (last : option Z) (now : Z) : bool :=
  ((last_or_zero last + 5 <? now)
   && negb (String.eqb api_key_input EmptyString)
   && negb (String.eqb phantom_id EmptyString))%bool.

(** "Show current status if user has provided creds": the status read
    for the panel and the new value of [last_status_check]. *)
Definition status_panel (last : option Z) : Worker (pyval * option Z) :=
  now <- time_now ;;
  if check_is_due last now then
    status <- get_phantom_status net api_key_input phantom_id ;;
    checked <- time_now ;;
    ret (status, Some checked)
  else ret (PNone, last).

(** [st.code(status or "unknown")] *)
Definition shown_status (status : pyval) : pyval :=
  if py_truthy status then status else PStr "unknown".
End Panel.

End ActivatorPage.

Module Dashboard.
Import Controller.

(** "Save Configuration": a new controller when both fields are filled. *)
Definition save_configuration (key id : string) : option controller :=
  if (negb (String.eqb key EmptyString) && negb (String.eqb id EmptyString))%bool
  then Some (init key id) else None.

(** [if st.button("Start Automation") and not controller.automation_running:
    controller.start_automation(max_launches)] *)
Definition press_start_automation (n : Z) (c : controller) : controller :=
  if automation_running c then c else start_automation n c.

(** The test under which the activity log says "All requested launches
    completed!". *)
Definition all_completed (c : controller) : bool :=
  (negb (automation_running c) && (0 <? max_launches c)
   && (max_launches c <=? launch_count c))%bool.

(** [check_status] could read a status: the request was answered with a
    200 whose body is a JSON object. *)
Definition status_readable (r : net_reply) : bool :=
  match reply r with
  | inl _ => false
  | inr resp =>
      ((status_code resp =? 200)
       && match json resp with inr (PDict _) => true | _ => false end)%bool
  end.

End Dashboard.

(** * Facts about the runtime *)

Section RuntimeFacts.
Context {S E : Type}.
Variable handle : Z -> E -> S -> S.

Lemma advance_http_log (d : Z) (w : world S E) :
  http_log (advance handle d w) = http_log w.
Proof.
  unfold advance. destruct (run_ui handle (clock w + d) (ui_pending w) (shared w)).
  reflexivity.
Qed.

Lemma advance_clock (d : Z) (w : world S E) :
  clock (advance handle d w) = clock w + d.
Proof.
  unfold advance. destruct (run_ui handle (clock w + d) (ui_pending w) (shared w)).
  reflexivity.
Qed.

Lemma advance_shared (d : Z) (w : world S E) :
  shared (advance handle d w) = snd (run_ui handle (clock w + d) (ui_pending w) (shared w)).
Proof.
  unfold advance. destruct (run_ui handle (clock w + d) (ui_pending w) (shared w)).
  reflexivity.
Qed.

Lemma advance_ui_pending (d : Z) (w : world S E) :
  ui_pending (advance handle d w)
  = fst (run_ui handle (clock w + d) (ui_pending w) (shared w)).
Proof.
  unfold advance. destruct (run_ui handle (clock w + d) (ui_pending w) (shared w)).
  reflexivity.
Qed.

(** A property of the shared state that the handlers of the presses in
    [may] keep is kept while the UI script runs, and the presses left over
    are still in [may]. *)
Lemma run_ui_keeps (P : S -> Prop) (may : E -> Prop) :
  (forall t e s, may e -> P s -> P (handle t e s)) ->
  forall now pending s,
    Forall (fun p => may (snd p)) pending -> P s ->
    P (snd (run_ui handle now pending s))
    /\ Forall (fun p => may (snd p)) (fst (run_ui handle now pending s)).
Proof.
  intros Hh now pending.
  induction pending as [|[t e] rest IH]; intros s Hall Hs; simpl.
  - split; [assumption | constructor].
  - inversion Hall as [|x l Hx Hrest]; subst; simpl in Hx.
    destruct (t <=? now).
    + apply IH; [assumption | apply Hh; assumption].
    + split; [assumption | constructor; assumption].
Qed.

Lemma run_ui_nil (now : Z) (s : S) : run_ui handle now [] s = ([], s).
Proof. reflexivity. Qed.


(** With every press still in the future nothing happens. *)
Lemma run_ui_future (now : Z) (pending : list (Z * E)) (s : S) :
  match pending with [] => True | (t, _) :: _ => now < t end ->
  run_ui handle now pending s = (pending, s).
Proof.
  destruct pending as [|[t e] rest]; simpl; intros H; [reflexivity|].
  destruct (Z.leb_spec t now); [lia | reflexivity].
Qed.
End RuntimeFacts.

(** *** Launch requests in the list of requests *)

Lemma launches_snoc_get (l : list http_call) (c : http_call) :
  verb c = GET -> filter is_launch (l ++ [c]) = filter is_launch l.
Proof.
  intros H. rewrite filter_app. simpl. unfold is_launch. rewrite H.
  apply app_nil_r.
Qed.

Lemma launches_snoc_post (l : list http_call) (c : http_call) :
  verb c = POST -> filter is_launch (l ++ [c]) = filter is_launch l ++ [c].
Proof.
  intros H. rewrite filter_app. simpl. unfold is_launch. rewrite H. reflexivity.
Qed.

Lemma snoc_neq {A} (l : list A) (a : A) : l ++ [a] <> l.
Proof.
  intros H. apply (f_equal (@length A)) in H. rewrite length_app in H.
  simpl in H. lia.
Qed.

Lemma launches_snoc_get_post (l : list http_call) (c1 c2 : http_call) :
  verb c1 = GET -> verb c2 = POST ->
  filter is_launch (l ++ [c1; c2]) = filter is_launch l ++ [c2].
Proof.
  intros H1 H2. rewrite filter_app. simpl. unfold is_launch.
  rewrite H1, H2. reflexivity.
Qed.

(** * Facts about the session-state script *)

Module ActivatorFacts.
Import Activator.

Section Facts.
Variable net : nat -> net_reply.
Variable api_key phantom_id : string.
Variable run_count poll_seconds : Z.
Variable idle_only : bool.

(** *** What each operation does to the list of requests *)

Lemma log_http_log (m : log_msg) (w : W) : http_log (snd (log m w)) = http_log w.
Proof. reflexivity. Qed.

Lemma sleep_http_log (d : Z) (w : W) :
  http_log (snd (sleep on_press d w)) = http_log w.
Proof.
  unfold sleep. destruct (d <? 0); simpl; [reflexivity | apply advance_http_log].
Qed.

Lemma sleep_ticks_http_log (fuel : nat) :
  forall (slept : Z) (w : W),
    http_log (snd (sleep_ticks poll_seconds fuel slept w)) = http_log w.
Proof.
  induction fuel as [|fuel IH]; intros slept w; [reflexivity|].
  simpl. unfold bind, gets. simpl.
  destruct ((slept <? poll_seconds) && negb (stop_flag (shared w)))%bool;
    [|reflexivity].
  unfold sleep. simpl. rewrite IH. apply advance_http_log.
Qed.

(** [sleep_between_polls] gives the inner loop all the fuel it can use:
    from there on more fuel changes nothing. *)
Lemma sleep_ticks_fuel (fuel : nat) :
  forall (slept : Z) (w : W),
    (Z.to_nat (poll_seconds - slept) <= fuel)%nat ->
    sleep_ticks poll_seconds (Datatypes.S fuel) slept w
    = sleep_ticks poll_seconds fuel slept w.
Proof.
  induction fuel as [|fuel IH]; intros slept w Hf.
  - simpl. unfold bind, gets. simpl.
    destruct (Z.ltb_spec slept poll_seconds); [lia | reflexivity].
  - change (sleep_ticks poll_seconds (Datatypes.S (Datatypes.S fuel)) slept w)
      with (bind (gets stop_flag)
              (fun stop : bool =>
                 if ((slept <? poll_seconds) && negb stop)%bool
                 then bind (sleep on_press 1)
                        (fun _ => sleep_ticks poll_seconds (Datatypes.S fuel)
                                    (slept + 1))
                 else ret tt) w).
    change (sleep_ticks poll_seconds (Datatypes.S fuel) slept w)
      with (bind (gets stop_flag)
              (fun stop : bool =>
                 if ((slept <? poll_seconds) && negb stop)%bool
                 then bind (sleep on_press 1)
                        (fun _ => sleep_ticks poll_seconds fuel (slept + 1))
                 else ret tt) w).
    unfold bind at 1 3. unfold gets.
    destruct ((slept <? poll_seconds) && negb (stop_flag (shared w)))%bool eqn:Ht;
      [|reflexivity].
    unfold bind. destruct (sleep on_press 1 w) as [[e|[]] w1]; [reflexivity|].
    apply IH. apply andb_prop in Ht. destruct Ht as [Ht _].
    apply Z.ltb_lt in Ht. lia.
Qed.

Lemma sleep_between_polls_fuel (extra : nat) (w : W) :
  sleep_ticks poll_seconds (Z.to_nat poll_seconds + extra) 0 w
  = sleep_between_polls poll_seconds w.
Proof.
  unfold sleep_between_polls. induction extra as [|extra IH].
  - rewrite Nat.add_0_r. reflexivity.
  - rewrite Nat.add_succ_r, sleep_ticks_fuel; [exact IH | lia].
Qed.

Lemma get_phantom_status_http_log (w : W) :
  http_log (snd (get_phantom_status net api_key phantom_id w))
  = http_log w ++ [fetch_call api_key phantom_id w].
Proof.
  unfold get_phantom_status, try_except, get_phantom_status_try, bind, request,
    lift_result, fetch_call.
  destruct (reply (net (length (http_log w)))) as [e|r].
  - destruct (is_request_exception e); simpl; apply advance_http_log.
  - destruct (status_code r =? 200).
    + destruct (json r) as [e|d].
      * destruct (is_request_exception e); simpl; apply advance_http_log.
      * destruct (py_get d "data" (PDict [])) as [e|inner].
        -- destruct (is_request_exception e); simpl; apply advance_http_log.
        -- destruct (py_get inner "status" PNone) as [e|v].
           ++ destruct (is_request_exception e); simpl; apply advance_http_log.
           ++ simpl. apply advance_http_log.
    + simpl. apply advance_http_log.
Qed.

Lemma launch_phantom_http_log (w : W) :
  http_log (snd (launch_phantom net api_key phantom_id w))
  = http_log w ++ [launch_call api_key phantom_id w].
Proof.
  unfold launch_phantom, try_except, bind, request, launch_call.
  destruct (reply (net (length (http_log w)))) as [e|r].
  - destruct (is_request_exception e); simpl; apply advance_http_log.
  - destruct (status_code r =? 200); simpl; apply advance_http_log.
Qed.

(** *** What each operation keeps of the session state *)

Section Steady.
Variable P : session_state -> Prop.
Variable may : button -> Prop.
Hypothesis P_steady : steady P may.

Lemma advance_holds (d : Z) (w : W) :
  holds P may w -> holds P may (advance on_press d w).
Proof.
  intros [HP Hui]. unfold holds.
  rewrite advance_shared, advance_ui_pending.
  apply run_ui_keeps; try assumption.
  intros t e s He Hs. apply (proj2 P_steady); assumption.
Qed.

Lemma log_holds (m : log_msg) (w : W) :
  holds P may w -> holds P may (snd (log m w)).
Proof.
  intros [HP Hui]. split; simpl; [apply (proj1 P_steady) |]; assumption.
Qed.

Lemma sleep_holds (d : Z) (w : W) :
  holds P may w -> holds P may (snd (sleep on_press d w)).
Proof.
  intros H. unfold sleep. destruct (d <? 0); simpl;
    [assumption | apply advance_holds; assumption].
Qed.

Lemma sleep_ticks_holds (fuel : nat) :
  forall (slept : Z) (w : W),
    holds P may w -> holds P may (snd (sleep_ticks poll_seconds fuel slept w)).
Proof.
  induction fuel as [|fuel IH]; intros slept w H; [assumption|].
  simpl. unfold bind, gets. simpl.
  destruct ((slept <? poll_seconds) && negb (stop_flag (shared w)))%bool;
    [|assumption].
  unfold sleep. simpl. apply IH. apply advance_holds. assumption.
Qed.

Lemma request_holds v u k tmo body (w : W) :
  holds P may w ->
  holds P may (snd (request on_press net v u k tmo body w)).
Proof.
  intros H. unfold request. simpl. apply advance_holds. exact H.
Qed.

Lemma get_phantom_status_holds (w : W) :
  holds P may w -> holds P may (snd (get_phantom_status net api_key phantom_id w)).
Proof.
  intros H.
  unfold get_phantom_status, try_except, get_phantom_status_try, bind, lift_result.
  pose proof (request_holds GET (fetch_url phantom_id) (key1 api_key) (Some 30) None w H)
    as Hr.
  destruct (request on_press net GET (fetch_url phantom_id) (key1 api_key)
              (Some 30) None w) as [[e|r] w1]; simpl in Hr.
  - destruct (is_request_exception e); simpl; [apply log_holds|]; assumption.
  - destruct (status_code r =? 200).
    + destruct (json r) as [e|d].
      * destruct (is_request_exception e); simpl; [apply log_holds|]; assumption.
      * destruct (py_get d "data" (PDict [])) as [e|inner].
        -- destruct (is_request_exception e); simpl; [apply log_holds|]; assumption.
        -- destruct (py_get inner "status" PNone) as [e|v].
           ++ destruct (is_request_exception e); simpl; [apply log_holds|]; assumption.
           ++ assumption.
    + simpl. apply log_holds. assumption.
Qed.

Lemma launch_phantom_holds (w : W) :
  holds P may w -> holds P may (snd (launch_phantom net api_key phantom_id w)).
Proof.
  intros H. unfold launch_phantom, try_except, bind.
  pose proof (request_holds POST (launch_url phantom_id) (key1 api_key) (Some 30) None w H)
    as Hr.
  destruct (request on_press net POST (launch_url phantom_id) (key1 api_key)
              (Some 30) None w) as [[e|r] w1]; simpl in Hr.
  - destruct (is_request_exception e); simpl; [apply log_holds|]; assumption.
  - destruct (status_code r =? 200); simpl; [|apply log_holds]; assumption.
Qed.
End Steady.


(** *** Results of the two requests *)

Lemma launch_phantom_result (w : W) :
  fst (launch_phantom net api_key phantom_id w)
  = match reply (net (length (http_log w))) with
    | inl e => if is_request_exception e then inr false else inl e
    | inr r => inr (status_code r =? 200)
    end.
Proof.
  unfold launch_phantom, try_except, bind, request.
  destruct (reply (net (length (http_log w)))) as [e|r].
  - destruct (is_request_exception e); reflexivity.
  - destruct (status_code r =? 200); reflexivity.
Qed.

Lemma launch_phantom_true (w : W) :
  fst (launch_phantom net api_key phantom_id w) = inr true
  <-> launcher_ok (net (length (http_log w))) = true.
Proof.
  rewrite launch_phantom_result. unfold launcher_ok.
  destruct (reply (net (length (http_log w)))) as [e|r].
  - destruct (is_request_exception e); split; discriminate.
  - split; intros H; [injection H as H; exact H | rewrite H; reflexivity].
Qed.

(** A failed status request gives [None] or an exception, never a status. *)
Lemma get_phantom_status_failed (w : W) :
  fetch_failed (net (length (http_log w))) = true ->
  fst (get_phantom_status net api_key phantom_id w) = inr PNone
  \/ exists e, fst (get_phantom_status net api_key phantom_id w) = inl e.
Proof.
  unfold fetch_failed, get_phantom_status, try_except, get_phantom_status_try,
    bind, request, lift_result.
  destruct (reply (net (length (http_log w)))) as [e|r].
  - intros _. destruct (is_request_exception e); simpl; eauto.
  - destruct (status_code r =? 200); simpl.
    + destruct (json r) as [e|d]; [|discriminate].
      intros _. destruct (is_request_exception e); simpl; eauto.
    + intros _. left. reflexivity.
Qed.

(** *** The launch block *)

Lemma launch_and_count_unfold (status : pyval) (currently : bool) (w : W) :
  launch_and_count net api_key phantom_id run_count status currently w
  = bind (launch_phantom net api_key phantom_id)
         (fun ok : bool =>
            if ok then bind (modify count_one) (fun _ => log LaunchRequested)
            else log LaunchRequestFailed)
         (snd (log (Launching (activations_done (shared w) + 1) run_count
                      status currently) w)).
Proof. reflexivity. Qed.

Lemma launch_and_count_http_log (status : pyval) (currently : bool) (w : W) :
  http_log (snd (launch_and_count net api_key phantom_id run_count status currently w))
  = http_log w ++ [launch_call api_key phantom_id w].
Proof.
  rewrite launch_and_count_unfold.
  set (w1 := snd (log (Launching (activations_done (shared w) + 1) run_count
                         status currently) w)).
  unfold bind at 1.
  pose proof (launch_phantom_http_log w1) as H.
  destruct (launch_phantom net api_key phantom_id w1) as [[e|[|]] w2];
    simpl in H |- *; exact H.
Qed.

(** The counter after the launch block: one more exactly when the launch
    request, the next request of the run, was acknowledged. *)
Lemma launch_and_count_counts (may : button -> Prop) (k : Z)
      (status : pyval) (currently : bool) (w : W) :
  steady (fun s => activations_done s = k) may ->
  holds (fun s => activations_done s = k) may w ->
  holds (fun s => activations_done s
                  = k + (if launcher_ok (net (length (http_log w))) then 1 else 0))
        may
        (snd (launch_and_count net api_key phantom_id run_count status currently w)).
Proof.
  intros Hst H.
  rewrite launch_and_count_unfold.
  set (w1 := snd (log (Launching (activations_done (shared w) + 1) run_count
                         status currently) w)).
  unfold bind at 1.
  assert (H1 : holds (fun s => activations_done s = k) may w1)
    by (apply log_holds; assumption).
  assert (Hlog : http_log w1 = http_log w) by reflexivity.
  pose proof (launch_phantom_holds _ _ Hst w1 H1) as H2.
  pose proof (launch_phantom_true w1) as Hok. rewrite Hlog in Hok.
  destruct (launch_phantom net api_key phantom_id w1) as [[e|ok] w2];
    simpl in H2, Hok |- *.
  - destruct (launcher_ok (net (length (http_log w)))).
    + destruct Hok as [_ Hok]. discriminate (Hok eq_refl).
    + destruct H2 as [H2 H2']. split; [simpl; lia | exact H2'].
  - destruct ok; simpl.
    + destruct Hok as [Hok _]. rewrite (Hok eq_refl).
      destruct H2 as [H2 H2']. split; simpl; [lia | exact H2'].
    + destruct (launcher_ok (net (length (http_log w)))).
      * destruct Hok as [_ Hok]. discriminate (Hok eq_refl).
      * destruct H2 as [H2 H2']. split; simpl; [lia | exact H2'].
Qed.

(** A property that counting one launch turns from [P] into [Q]. *)
Lemma launch_and_count_holds (P Q : session_state -> Prop) (may : button -> Prop)
      (status : pyval) (currently : bool) (w : W) :
  steady P may -> steady Q may ->
  (forall s, P s -> Q s) -> (forall s, P s -> Q (count_one s)) ->
  holds P may w ->
  holds Q may (snd (launch_and_count net api_key phantom_id run_count status currently w)).
Proof.
  intros HP HQ HPQ Hinc H.
  rewrite launch_and_count_unfold.
  set (w1 := snd (log (Launching (activations_done (shared w) + 1) run_count
                         status currently) w)).
  unfold bind at 1.
  assert (H1 : holds P may w1) by (apply log_holds; assumption).
  pose proof (launch_phantom_holds _ _ HP w1 H1) as [H2 H2'].
  destruct (launch_phantom net api_key phantom_id w1) as [[e|ok] w2];
    simpl in H2, H2' |- *.
  - split; [apply HPQ|]; assumption.
  - destruct ok; simpl.
    + split; simpl; [|assumption]. apply (proj1 HQ). apply Hinc. assumption.
    + split; simpl; [|assumption]. apply (proj1 HQ). apply HPQ. assumption.
Qed.

(** *** The policy and one pass of the loop *)

Lemma apply_policy_http_log (status : pyval) (w : W) :
  http_log (snd (apply_policy net api_key phantom_id run_count idle_only status w))
  = if policy_launches idle_only status
    then http_log w ++ [launch_call api_key phantom_id w]
    else http_log w.
Proof.
  unfold apply_policy, policy_launches.
  destruct idle_only; [destruct (py_eq_str status "running"); simpl|];
    try apply launch_and_count_http_log.
  reflexivity.
Qed.

Lemma apply_policy_holds (P Q : session_state -> Prop) (may : button -> Prop)
      (status : pyval) (w : W) :
  steady P may -> steady Q may ->
  (forall s, P s -> Q s) -> (forall s, P s -> Q (count_one s)) ->
  holds P may w ->
  holds Q may (snd (apply_policy net api_key phantom_id run_count idle_only status w)).
Proof.
  intros HP HQ HPQ Hinc H. unfold apply_policy.
  destruct idle_only; [destruct (py_eq_str status "running"); simpl|];
    try (apply (launch_and_count_holds P Q); assumption).
  apply log_holds; [assumption|].
  destruct H as [H H']. split; [apply HPQ|]; assumption.
Qed.

Lemma apply_policy_counts (may : button -> Prop) (k : Z) (status : pyval) (w : W) :
  steady (fun s => activations_done s = k) may ->
  holds (fun s => activations_done s = k) may w ->
  policy_launches idle_only status = true ->
  holds (fun s => activations_done s
                  = k + (if launcher_ok (net (length (http_log w))) then 1 else 0))
        may
        (snd (apply_policy net api_key phantom_id run_count idle_only status w)).
Proof.
  intros Hst H Hpol. unfold apply_policy. unfold policy_launches in Hpol.
  destruct idle_only; [destruct (py_eq_str status "running"); simpl in *|];
    try discriminate; apply launch_and_count_counts; assumption.
Qed.

Lemma loop_body_unfold (w : W) :
  loop_body net api_key phantom_id run_count poll_seconds idle_only w
  = bind (get_phantom_status net api_key phantom_id)
      (fun status =>
         if py_is_none status then sleep on_press poll_seconds
         else bind (apply_policy net api_key phantom_id run_count idle_only status)
                   (fun _ => sleep_between_polls poll_seconds))
      w.
Proof. reflexivity. Qed.

(** The requests of one pass: the status request, then the launch request
    when a status came back and the policy asks for a launch. *)
Lemma loop_body_http_log (w : W) :
  let r := get_phantom_status net api_key phantom_id w in
  http_log (snd (loop_body net api_key phantom_id run_count poll_seconds idle_only w))
  = match fst r with
    | inr v =>
        if (negb (py_is_none v) && policy_launches idle_only v)%bool
        then http_log w ++ [fetch_call api_key phantom_id w;
                            launch_call api_key phantom_id (snd r)]
        else http_log w ++ [fetch_call api_key phantom_id w]
    | inl _ => http_log w ++ [fetch_call api_key phantom_id w]
    end.
Proof.
  intros r. subst r. rewrite loop_body_unfold. unfold bind at 1.
  pose proof (get_phantom_status_http_log w) as Hg.
  destruct (get_phantom_status net api_key phantom_id w) as [[e|v] w1];
    simpl in Hg |- *; [exact Hg|].
  destruct (py_is_none v); simpl.
  - rewrite sleep_http_log. exact Hg.
  - unfold bind.
    pose proof (apply_policy_http_log v w1) as Ha.
    destruct (apply_policy net api_key phantom_id run_count idle_only v w1)
      as [[e|[]] w2]; simpl in Ha |- *.
    + rewrite Ha, Hg. destruct (policy_launches idle_only v);
        [rewrite <- app_assoc|]; reflexivity.
    + unfold sleep_between_polls. rewrite sleep_ticks_http_log, Ha, Hg.
      destruct (policy_launches idle_only v); [rewrite <- app_assoc|]; reflexivity.
Qed.

Lemma loop_body_launches (w : W) :
  let r := get_phantom_status net api_key phantom_id w in
  launches (snd (loop_body net api_key phantom_id run_count poll_seconds idle_only w))
  = match fst r with
    | inr v =>
        if (negb (py_is_none v) && policy_launches idle_only v)%bool
        then launches w ++ [launch_call api_key phantom_id (snd r)]
        else launches w
    | inl _ => launches w
    end.
Proof.
  intros r. unfold launches. rewrite loop_body_http_log. fold r.
  destruct (fst r) as [e|v].
  - apply launches_snoc_get. reflexivity.
  - destruct (negb (py_is_none v) && policy_launches idle_only v)%bool.
    + change (http_log w ++ [fetch_call api_key phantom_id w;
                             launch_call api_key phantom_id (snd r)])
        with (http_log w ++ [fetch_call api_key phantom_id w]
                         ++ [launch_call api_key phantom_id (snd r)]).
      rewrite app_assoc, launches_snoc_post by reflexivity.
      rewrite launches_snoc_get by reflexivity. reflexivity.
    + apply launches_snoc_get. reflexivity.
Qed.

Lemma loop_body_holds (P Q : session_state -> Prop) (may : button -> Prop) (w : W) :
  steady P may -> steady Q may ->
  (forall s, P s -> Q s) -> (forall s, P s -> Q (count_one s)) ->
  holds P may w ->
  holds Q may (snd (loop_body net api_key phantom_id run_count poll_seconds idle_only w)).
Proof.
  intros HP HQ HPQ Hinc H. rewrite loop_body_unfold. unfold bind at 1.
  pose proof (get_phantom_status_holds _ _ HP w H) as H1.
  assert (HPQ' : forall w', holds P may w' -> holds Q may w')
    by (intros w' [A B]; split; [apply HPQ|]; assumption).
  destruct (get_phantom_status net api_key phantom_id w) as [[e|v] w1];
    simpl in H1 |- *; [apply HPQ'; assumption|].
  destruct (py_is_none v).
  - apply sleep_holds; [assumption | apply HPQ'; assumption].
  - unfold bind.
    pose proof (apply_policy_holds P Q may v w1 HP HQ HPQ Hinc H1) as H2.
    destruct (apply_policy net api_key phantom_id run_count idle_only v w1)
      as [[e|[]] w2]; simpl in H2 |- *; [assumption|].
    apply sleep_ticks_holds; assumption.
Qed.

(** *** The counter *)

Lemma counter_steady (k : Z) : steady (fun s => activations_done s = k) not_clear.
Proof.
  split.
  - intros t m s H. exact H.
  - intros t b s Hb H. destruct b; [elim Hb; reflexivity|].
    simpl. unfold request_stop. destruct (is_running s); exact H.
Qed.

Lemma at_least_steady (k : Z) : steady (fun s => k <= activations_done s) not_clear.
Proof.
  split.
  - intros t m s H. exact H.
  - intros t b s Hb H. destruct b; [elim Hb; reflexivity|].
    simpl. unfold request_stop. destruct (is_running s); exact H.
Qed.

Lemma below_steady (k : Z) :
  steady (fun s => 0 <= activations_done s < k) any_button.
Proof.
  split.
  - intros t m s H. exact H.
  - intros t b s _ H. destruct b; simpl.
    + lia.
    + unfold request_stop. destruct (is_running s); exact H.
Qed.

Lemma within_steady (k : Z) :
  steady (fun s => 0 <= activations_done s <= k) any_button.
Proof.
  split.
  - intros t m s H. exact H.
  - intros t b s _ H. destruct b; simpl.
    + lia.
    + unfold request_stop. destruct (is_running s); exact H.
Qed.

Lemma all_any_button (l : list (Z * button)) :
  Forall (fun p => any_button (snd p)) l.
Proof. induction l; constructor; [exact I | assumption]. Qed.

(** Over one pass with no clear-logs press to come, the counter moves
    only in the launch block. *)
Lemma loop_body_counts (k : Z) (w : W) :
  holds (fun s => activations_done s = k) not_clear w ->
  let after := snd (loop_body net api_key phantom_id run_count poll_seconds idle_only w) in
  (launches after = launches w -> activations_done (shared after) = k)
  /\ (launches after <> launches w ->
      activations_done (shared after)
      = k + (if launcher_ok (net (Datatypes.S (length (http_log w)))) then 1 else 0)).
Proof.
  intros H after.
  pose proof (loop_body_launches w) as HL. fold after in HL. cbv zeta in HL.
  assert (Hafter : after = snd (loop_body net api_key phantom_id run_count
                                  poll_seconds idle_only w)) by reflexivity.
  clearbody after. rewrite loop_body_unfold in Hafter. unfold bind at 1 in Hafter.
  pose proof (get_phantom_status_holds _ _ (counter_steady k) w H) as H1.
  pose proof (get_phantom_status_http_log w) as Hg.
  destruct (get_phantom_status net api_key phantom_id w) as [[e|v] w1];
    simpl in H1, Hg, HL, Hafter.
  - subst after.
    split; [intros _; apply H1 | intros Hne; elim Hne; exact HL].
  - destruct (py_is_none v); simpl in HL, Hafter.
    + pose proof (sleep_holds _ _ (counter_steady k) poll_seconds w1 H1) as [H2 _].
      subst after.
      split; [intros _; exact H2 | intros Hne; elim Hne; exact HL].
    + unfold bind in Hafter.
      destruct (policy_launches idle_only v) eqn:Hpol.
      * pose proof (apply_policy_counts not_clear k v w1 (counter_steady k) H1 Hpol)
          as H2.
        assert (Hlen : length (http_log w1) = Datatypes.S (length (http_log w)))
          by (rewrite Hg, length_app; simpl; lia).
        rewrite Hlen in H2.
        split; [intros Heq; rewrite HL in Heq; elim (snoc_neq _ _ Heq)|].
        intros _.
        destruct (apply_policy net api_key phantom_id run_count idle_only v w1)
          as [[e|[]] w2]; simpl in H2, Hafter; subst after.
        -- apply H2.
        -- unfold sleep_between_polls.
           apply (sleep_ticks_holds _ _ (counter_steady _)). exact H2.
      * split; [|intros Hne; elim Hne; exact HL]. intros _.
        unfold apply_policy, policy_launches in *.
        destruct idle_only; [|discriminate].
        destruct (py_eq_str v "running"); [|discriminate]. simpl in Hafter.
        subst after. unfold sleep_between_polls.
        apply (sleep_ticks_holds _ _ (counter_steady k)).
        apply log_holds; [apply counter_steady | exact H1].
Qed.

(** Across the launch block the counter goes up by one exactly when the
    launch was acknowledged, counted from its value when [launch_phantom]
    returned. *)
Lemma launch_and_count_step (status : pyval) (currently : bool) (w : W) :
  let asked := snd (log (Launching (activations_done (shared w) + 1) run_count
                           status currently) w) in
  activations_done
    (shared (snd (launch_and_count net api_key phantom_id run_count status
                    currently w)))
  = activations_done (shared (snd (launch_phantom net api_key phantom_id asked)))
    + (if launcher_ok (net (length (http_log w))) then 1 else 0).
Proof.
  intros asked. rewrite launch_and_count_unfold. fold asked. unfold bind at 1.
  pose proof (launch_phantom_true asked) as Hok.
  change (http_log asked) with (http_log w) in Hok.
  destruct (launch_phantom net api_key phantom_id asked) as [[e|ok] w2];
    simpl in Hok |- *.
  - destruct (launcher_ok (net (length (http_log w)))); [|lia].
    destruct Hok as [_ Hok]. discriminate (Hok eq_refl).
  - destruct ok; simpl.
    + destruct Hok as [Hok _]. rewrite (Hok eq_refl). reflexivity.
    + destruct (launcher_ok (net (length (http_log w)))); [|lia].
      destruct Hok as [_ Hok]. discriminate (Hok eq_refl).
Qed.

(** *** The two sleeps *)

(** The sleep between polls looks at [stop_flag] before every one-second
    wait: with the flag set it ends at once. *)
Lemma sleep_ticks_stopped (fuel : nat) (slept : Z) (w : W) :
  stop_flag (shared w) = true ->
  sleep_ticks poll_seconds fuel slept w = (inr tt, w).
Proof.
  intros Hs. destruct fuel as [|fuel]; [reflexivity|].
  simpl. unfold bind, gets. rewrite Hs, andb_false_r. reflexivity.
Qed.

(** The sleep after a status read that gave [None] is one call of
    [time.sleep]: it lasts the whole interval whatever is pressed. *)
Lemma retry_sleep_whole_interval (w : W) :
  0 <= poll_seconds ->
  fst (sleep on_press poll_seconds w) = inr tt
  /\ clock (snd (sleep on_press poll_seconds w)) = clock w + poll_seconds.
Proof.
  intros Hp. unfold sleep.
  destruct (Z.ltb_spec poll_seconds 0); [lia|].
  simpl. split; [reflexivity | apply advance_clock].
Qed.

(** *** The outer loop *)

Lemma while_loop_unfold (n : nat) (w : W) :
  while_loop net api_key phantom_id run_count poll_seconds idle_only (Datatypes.S n) w
  = if loop_test run_count (shared w) then
      match loop_body net api_key phantom_id run_count poll_seconds idle_only w with
      | (inl e, w') => (Faulted e, w')
      | (inr _, w') =>
          while_loop net api_key phantom_id run_count poll_seconds idle_only n w'
      end
    else (Exited, w).
Proof. reflexivity. Qed.

Lemma while_loop_holds (P Q : session_state -> Prop) (may : button -> Prop) :
  steady P may -> steady Q may ->
  (forall s, P s -> Q s) -> (forall s, P s -> Q (count_one s)) ->
  (forall s, Q s -> loop_test run_count s = true -> P s) ->
  forall (n : nat) (w : W),
    holds Q may w ->
    holds Q may
      (snd (while_loop net api_key phantom_id run_count poll_seconds idle_only n w)).
Proof.
  intros HP HQ HPQ Hinc Htest.
  induction n as [|n IH]; intros w H; [exact H|].
  rewrite while_loop_unfold.
  destruct (loop_test run_count (shared w)) eqn:Ht; [|exact H].
  assert (H0 : holds P may w)
    by (destruct H as [A B]; split; [apply Htest|]; assumption).
  pose proof (loop_body_holds P Q may w HP HQ HPQ Hinc H0) as H1.
  destruct (loop_body net api_key phantom_id run_count poll_seconds idle_only w)
    as [[e|[]] w1]; simpl in H1 |- *; [exact H1|].
  apply IH. exact H1.
Qed.

(** The loop is left through its test only when the test is false. *)
Lemma while_loop_exited (n : nat) :
  forall (w : W),
    fst (while_loop net api_key phantom_id run_count poll_seconds idle_only n w) = Exited ->
    loop_test run_count
      (shared (snd (while_loop net api_key phantom_id run_count poll_seconds
                      idle_only n w))) = false.
Proof.
  induction n as [|n IH]; intros w H; [discriminate H|].
  rewrite while_loop_unfold in *.
  destruct (loop_test run_count (shared w)) eqn:Ht; [|exact Ht].
  destruct (loop_body net api_key phantom_id run_count poll_seconds idle_only w)
    as [[e|[]] w1]; [discriminate H|].
  apply IH. exact H.
Qed.

Lemma loop_test_false (s : session_state) :
  0 <= activations_done s <= run_count ->
  (loop_test run_count s = false
   <-> stop_flag s = true \/ activations_done s = run_count).
Proof.
  intros Hb. unfold loop_test.
  destruct (stop_flag s); simpl.
  - split; auto.
  - destruct (Z.ltb_spec (activations_done s) run_count); split; intros H';
      try discriminate; try (right; lia); try reflexivity.
    destruct H' as [H'|H']; [discriminate | lia].
Qed.
End Facts.
End ActivatorFacts.

(** * Facts about [PhantomController] *)

Module ControllerFacts.
Import Controller.

Section Facts.
Variable net : nat -> net_reply.

(** *** [check_status] and [launch_phantom] always return *)

Lemma try_catch_all_returns {A} (m : Worker A) (handler : exn -> Worker A) (w : W) :
  (forall e w', exists a w'', handler e w' = (inr a, w'')) ->
  exists a w', try_except m catch_all handler w = (inr a, w').
Proof.
  intros Hh. unfold try_except. destruct (m w) as [[e|a] w1].
  - simpl. apply Hh.
  - eauto.
Qed.

Lemma check_status_returns (w : W) :
  exists b w', check_status net w = (inr b, w').
Proof.
  unfold check_status. apply try_catch_all_returns.
  intros e w'. unfold bind, modify, ret. eauto.
Qed.

Lemma launch_phantom_returns (w : W) :
  exists b w', launch_phantom net w = (inr b, w').
Proof.
  unfold launch_phantom. apply try_catch_all_returns.
  intros e w'. unfold bind, modify, ret. eauto.
Qed.

(** *** Their results *)

Lemma check_status_result (w : W) :
  fst (check_status net w)
  = inr match reply (net (length (http_log w))) with
        | inl _ => false
        | inr r =>
            if status_code r =? 200 then
              match json r with
              | inl _ => false
              | inr agent_data =>
                  match py_get agent_data "status" (PStr "unknown") with
                  | inl _ => false
                  | inr status =>
                      py_in_strs status ["running"; "launching"; "waiting"]%string
                  end
              end
            else false
        end.
Proof.
  unfold check_status, try_except, bind, gets, request, lift_result, modify, ret.
  destruct (reply (net (length (http_log w)))) as [e|r]; [reflexivity|].
  destruct (status_code r =? 200); [|reflexivity].
  destruct (json r) as [e|d]; [reflexivity|].
  destruct (py_get d "status" (PStr "unknown")) as [e|v]; reflexivity.
Qed.

Lemma check_status_failed (w : W) :
  fetch_failed (net (length (http_log w))) = true ->
  fst (check_status net w) = inr false.
Proof.
  rewrite check_status_result. unfold fetch_failed.
  destruct (reply (net (length (http_log w)))) as [e|r]; [reflexivity|].
  destruct (status_code r =? 200); [|reflexivity].
  destruct (json r) as [e|d]; [reflexivity | discriminate].
Qed.

Lemma ctl_launch_phantom_result (w : W) :
  fst (launch_phantom net w) = inr (launcher_ok (net (length (http_log w)))).
Proof.
  unfold launch_phantom, try_except, bind, gets, request, modify, ret, launcher_ok.
  destruct (reply (net (length (http_log w)))) as [e|r]; [reflexivity|].
  destruct (status_code r =? 200); reflexivity.
Qed.

(** *** The requests they issue *)

Lemma check_status_http_log (w : W) :
  http_log (snd (check_status net w)) = http_log w ++ [fetch_call w].
Proof.
  unfold check_status, try_except, bind, gets, request, lift_result, modify, ret,
    fetch_call.
  destruct (reply (net (length (http_log w)))) as [e|r];
    [simpl; apply advance_http_log|].
  destruct (status_code r =? 200); [|simpl; apply advance_http_log].
  destruct (json r) as [e|d]; [simpl; apply advance_http_log|].
  destruct (py_get d "status" (PStr "unknown")) as [e|v];
    simpl; apply advance_http_log.
Qed.

Lemma ctl_launch_phantom_http_log (w : W) :
  http_log (snd (launch_phantom net w)) = http_log w ++ [launch_call w].
Proof.
  unfold launch_phantom, try_except, bind, gets, request, modify, ret, launch_call.
  destruct (reply (net (length (http_log w)))) as [e|r];
    [simpl; apply advance_http_log|].
  destruct (status_code r =? 200); simpl; apply advance_http_log.
Qed.

Lemma ctl_sleep_http_log (d : Z) (w : W) :
  http_log (snd (sleep on_press d w)) = http_log w.
Proof.
  unfold sleep. destruct (d <? 0); simpl; [reflexivity | apply advance_http_log].
Qed.

(** *** What they keep of the controller *)

Section Steady.
Variable P : controller -> Prop.
Variable may : button -> Prop.
Hypothesis P_steady : steady P may.

Lemma ctl_advance_holds (d : Z) (w : W) :
  holds P may w -> holds P may (advance on_press d w).
Proof.
  intros [HP Hui]. unfold holds.
  rewrite advance_shared, advance_ui_pending.
  apply (run_ui_keeps on_press (fun p => P (ctl p)) may); try assumption.
  intros t e s He Hs. apply (proj2 (proj2 P_steady)); assumption.
Qed.

Lemma ctl_sleep_holds (d : Z) (w : W) :
  holds P may w -> holds P may (snd (sleep on_press d w)).
Proof.
  intros H. unfold sleep. destruct (d <? 0); simpl;
    [assumption | apply ctl_advance_holds; assumption].
Qed.

Lemma check_status_holds (w : W) :
  holds P may w -> holds P may (snd (check_status net w)).
Proof.
  intros H.
  unfold check_status, try_except, bind, gets, request, lift_result, modify, ret.
  set (w1 := advance on_press _ _).
  assert (H1 : holds P may w1) by (apply ctl_advance_holds; exact H).
  clearbody w1. destruct H1 as [H1 H1'].
  destruct (reply (net (length (http_log w)))) as [e|r];
    [split; assumption|].
  destruct (status_code r =? 200); [|split; assumption].
  destruct (json r) as [e|d]; [split; assumption|].
  destruct (py_get d "status" (PStr "unknown")) as [e|v]; [split; assumption|].
  split; [|assumption]. simpl. apply (proj1 P_steady). assumption.
Qed.

Lemma ctl_launch_phantom_holds (w : W) :
  holds P may w -> holds P may (snd (launch_phantom net w)).
Proof.
  intros H.
  unfold launch_phantom, try_except, bind, gets, request, modify, ret.
  set (w1 := advance on_press _ _).
  assert (H1 : holds P may w1) by (apply ctl_advance_holds; exact H).
  clearbody w1. destruct H1 as [H1 H1'].
  destruct (reply (net (length (http_log w)))) as [e|r];
    [split; assumption|].
  destruct (status_code r =? 200); [|split; assumption].
  split; [|assumption]. simpl.
  apply (proj1 (proj2 P_steady)). apply (proj1 P_steady). assumption.
Qed.
End Steady.

(** *** One pass of [run_automation] *)

Lemma ctl_loop_body_unfold (w : W) :
  loop_body net w
  = bind (check_status net)
      (fun current_status : bool =>
         bind (if negb current_status
               then bind (launch_phantom net) (fun _ => ret tt)
               else ret tt)
           (fun _ =>
              bind (gets (fun p => status_check_interval (ctl p)))
                (fun interval => sleep on_press interval)))
      w.
Proof. reflexivity. Qed.

Lemma interval_steady (may : button -> Prop) :
  steady (fun c => 0 <= status_check_interval c) may.
Proof.
  split; [|split].
  - intros b c H. exact H.
  - intros n c H. exact H.
  - intros t b p _ H. destruct b. simpl.
    destruct (automation_running (ctl p)); exact H.
Qed.

Lemma ctl_loop_body_holds (P : controller -> Prop) (may : button -> Prop) (w : W) :
  steady P may -> holds P may w -> holds P may (snd (loop_body net w)).
Proof.
  intros HP H. rewrite ctl_loop_body_unfold. unfold bind at 1.
  pose proof (check_status_holds P may HP w H) as H1.
  destruct (check_status_returns w) as (b & w1 & Hc).
  rewrite Hc in *. simpl in H1.
  unfold bind at 1.
  destruct b; simpl.
  - unfold bind, gets. simpl. apply ctl_sleep_holds; assumption.
  - unfold bind at 1.
    pose proof (ctl_launch_phantom_holds P may HP w1 H1) as H2.
    destruct (launch_phantom_returns w1) as (b2 & w2 & Hl).
    rewrite Hl in *. simpl in H2 |- *.
    unfold bind, gets. simpl. apply ctl_sleep_holds; assumption.
Qed.

(** No exception leaves a pass: every failure of a request is turned into
    [False] inside the two methods, and the sleep is of a fixed length. *)
Lemma loop_body_returns (w : W) :
  0 <= status_check_interval (ctl (shared w)) ->
  exists w', loop_body net w = (inr tt, w').
Proof.
  intros Hi.
  assert (H : holds (fun c => 0 <= status_check_interval c) any_button w).
  { split; [exact Hi|]. induction (ui_pending w); constructor; [exact I | assumption]. }
  assert (Hsleep : forall w' : W,
             holds (fun c => 0 <= status_check_interval c) any_button w' ->
             exists w'', sleep on_press (status_check_interval (ctl (shared w'))) w'
                         = (inr tt, w'')).
  { intros w' [H' _]. unfold sleep.
    destruct (Z.ltb_spec (status_check_interval (ctl (shared w'))) 0); [lia|].
    eauto. }
  rewrite ctl_loop_body_unfold. unfold bind at 1.
  pose proof (check_status_holds _ _ (interval_steady any_button) w H) as H1.
  destruct (check_status_returns w) as (b & w1 & Hc).
  rewrite Hc in *. simpl in H1.
  unfold bind at 1.
  destruct b; simpl.
  - unfold bind, gets. simpl. apply Hsleep. exact H1.
  - unfold bind at 1.
    pose proof (ctl_launch_phantom_holds _ _ (interval_steady any_button) w1 H1) as H2.
    destruct (launch_phantom_returns w1) as (b2 & w2 & Hl).
    rewrite Hl in *. simpl in H2 |- *.
    unfold bind, gets. simpl. apply Hsleep. exact H2.
Qed.

(** The requests of one pass: always the status request, and the launch
    request exactly when [check_status] gave [False]. *)
Lemma ctl_loop_body_http_log (w : W) :
  http_log (snd (loop_body net w))
  = match fst (check_status net w) with
    | inr false => http_log w ++ [fetch_call w; launch_call (snd (check_status net w))]
    | _ => http_log w ++ [fetch_call w]
    end.
Proof.
  rewrite ctl_loop_body_unfold. unfold bind at 1.
  pose proof (check_status_http_log w) as Hg.
  destruct (check_status_returns w) as (b & w1 & Hc).
  rewrite Hc in *. simpl in Hg |- *.
  unfold bind at 1.
  destruct b; simpl.
  - unfold bind, gets. simpl. rewrite ctl_sleep_http_log. exact Hg.
  - unfold bind at 1.
    pose proof (ctl_launch_phantom_http_log w1) as Hl.
    destruct (launch_phantom_returns w1) as (b2 & w2 & Hl').
    rewrite Hl' in *. simpl in Hl |- *.
    unfold bind, gets. simpl. rewrite ctl_sleep_http_log, Hl, Hg, <- app_assoc.
    reflexivity.
Qed.

Lemma loop_body_polls (w : W) :
  length (polls (snd (loop_body net w))) = Datatypes.S (length (polls w)).
Proof.
  unfold polls. rewrite ctl_loop_body_http_log.
  destruct (fst (check_status net w)) as [e|[|]];
    rewrite filter_app, length_app; simpl; lia.
Qed.

Lemma loop_body_launches_on_failure (w : W) :
  fetch_failed (net (length (http_log w))) = true ->
  launches (snd (loop_body net w))
  = launches w ++ [launch_call (snd (check_status net w))].
Proof.
  intros Hf. unfold launches. rewrite ctl_loop_body_http_log.
  rewrite (check_status_failed w Hf).
  rewrite filter_app. reflexivity.
Qed.

(** *** The loop *)

Lemma ctl_while_loop_unfold (n : nat) (w : W) :
  while_loop net (Datatypes.S n) w
  = if loop_test (ctl (shared w)) then
      match loop_body net w with
      | (inl e, w') => (Faulted e, w')
      | (inr _, w') => while_loop net n w'
      end
    else (Exited, w).
Proof. reflexivity. Qed.

Lemma unbounded_running_steady : steady unbounded_running no_button.
Proof.
  split; [|split].
  - intros b c H. exact H.
  - intros n c H. exact H.
  - intros t b p Hb. elim Hb.
Qed.

Lemma unbounded_test (c : controller) :
  unbounded_running c -> loop_test c = true.
Proof.
  intros (Hm & Hr & _). unfold loop_test. rewrite Hr, Hm. reflexivity.
Qed.

(** With [max_launches = 0] and no stop press to come the loop never
    leaves: after [n] passes it is still looping and has polled [n] times. *)
Lemma while_loop_unbounded (n : nat) :
  forall w : W,
    holds unbounded_running no_button w ->
    fst (while_loop net n w) = Looping
    /\ length (polls (snd (while_loop net n w))) = (length (polls w) + n)%nat
    /\ holds unbounded_running no_button (snd (while_loop net n w)).
Proof.
  induction n as [|n IH]; intros w H.
  - simpl. repeat split; try apply H. lia.
  - rewrite ctl_while_loop_unfold, (unbounded_test _ (proj1 H)).
    pose proof (ctl_loop_body_holds _ _ w unbounded_running_steady H) as H1.
    pose proof (loop_body_polls w) as Hp.
    destruct (loop_body_returns w) as (w1 & Hb); [apply H|].
    rewrite Hb in *. simpl in H1, Hp.
    destruct (IH w1 H1) as (A & B & C).
    repeat split; try assumption; try apply C. rewrite B, Hp. lia.
Qed.

Lemma while_loop_stopped (n : nat) (w : W) :
  automation_running (ctl (shared w)) = false ->
  while_loop net (Datatypes.S n) w = (Exited, w).
Proof.
  intros H. rewrite ctl_while_loop_unfold. unfold loop_test. rewrite H. reflexivity.
Qed.

Lemma advance_launch_count (d : Z) (w : W) :
  launch_count (ctl (shared (advance on_press d w))) = launch_count (ctl (shared w)).
Proof.
  rewrite advance_shared.
  apply (run_ui_keeps on_press
           (fun p => launch_count (ctl p) = launch_count (ctl (shared w)))
           any_button).
  - intros t e s _ H. destruct e. simpl.
    destruct (automation_running (ctl s)); exact H.
  - induction (ui_pending w); constructor; [exact I | assumption].
  - reflexivity.
Qed.

(** [launch_phantom] counts a launch exactly when it answers [True]. *)
Lemma launch_phantom_counts (w : W) :
  launch_count (ctl (shared (snd (launch_phantom net w))))
  = launch_count (ctl (shared w))
    + (if launcher_ok (net (length (http_log w))) then 1 else 0).
Proof.
  unfold launch_phantom, try_except, bind, gets, request, modify, ret, launcher_ok.
  set (w1 := advance on_press _ _).
  assert (H1 : launch_count (ctl (shared w1)) = launch_count (ctl (shared w)))
    by (subst w1; rewrite advance_launch_count; reflexivity).
  clearbody w1.
  destruct (reply (net (length (http_log w)))) as [e|r]; simpl; [lia|].
  destruct (status_code r =? 200); simpl; lia.
Qed.



End Facts.
End ControllerFacts.

(** * The acknowledged launches and the counter of the script *)

Lemma acknowledged_from_app (net : nat -> net_reply) (l1 l2 : list http_call) :
  forall i : nat,
    acknowledged_from net i (l1 ++ l2)
    = acknowledged_from net i l1 + acknowledged_from net (i + length l1) l2.
Proof.
  induction l1 as [|c l1 IH]; intros i; simpl.
  - rewrite Nat.add_0_r. lia.
  - rewrite IH, Nat.add_succ_r. simpl. lia.
Qed.

Lemma acknowledged_poll (net : nat -> net_reply) (l : list http_call) (c : http_call) :
  verb c = GET -> acknowledged net (l ++ [c]) = acknowledged net l.
Proof.
  intros H. unfold acknowledged. rewrite acknowledged_from_app. simpl.
  unfold is_launch. rewrite H. simpl. lia.
Qed.

Lemma acknowledged_poll_launch (net : nat -> net_reply) (l : list http_call)
      (c1 c2 : http_call) :
  verb c1 = GET -> verb c2 = POST ->
  acknowledged net (l ++ [c1; c2])
  = acknowledged net l
    + (if launcher_ok (net (Datatypes.S (length l))) then 1 else 0).
Proof.
  intros H1 H2. unfold acknowledged. rewrite acknowledged_from_app. simpl.
  unfold is_launch. rewrite H1, H2. simpl.
  replace (Datatypes.S (length l)) with (Datatypes.S (0 + length l))%nat by lia.
  simpl. lia.
Qed.

Section CounterOfScript.
Import Activator ActivatorFacts.
Variable net : nat -> net_reply.
Variable api_key phantom_id : string.
Variable run_count poll_seconds : Z.
Variable idle_only : bool.

Lemma pass_counts_acknowledged (k : Z) (w : W) :
  holds (fun s => activations_done s = k) not_clear w ->
  let after := snd (loop_body net api_key phantom_id run_count poll_seconds
                      idle_only w) in
  activations_done (shared after) - k
  = acknowledged net (http_log after) - acknowledged net (http_log w)
  /\ Forall (fun p => not_clear (snd p)) (ui_pending after).
Proof.
  intros H after. split.
  - destruct (loop_body_counts net api_key phantom_id run_count poll_seconds
                idle_only k w H) as [Hsame Hmore].
    fold after in Hsame, Hmore.
    pose proof (loop_body_launches net api_key phantom_id run_count poll_seconds
                  idle_only w) as HL.
    pose proof (loop_body_http_log net api_key phantom_id run_count poll_seconds
                  idle_only w) as HH.
    fold after in HL, HH. cbv zeta in HL, HH.
    destruct (fst (get_phantom_status net api_key phantom_id w)) as [e|v].
    + rewrite HH, acknowledged_poll by reflexivity. rewrite (Hsame HL). lia.
    + destruct (negb (py_is_none v) && policy_launches idle_only v)%bool.
      * rewrite HH, acknowledged_poll_launch by reflexivity.
        rewrite Hmore; [lia|]. rewrite HL. apply snoc_neq.
      * rewrite HH, acknowledged_poll by reflexivity. rewrite (Hsame HL). lia.
  - apply (loop_body_holds net api_key phantom_id run_count poll_seconds idle_only
             (fun _ => True) (fun _ => True) not_clear w).
    + split; intros; exact I.
    + split; intros; exact I.
    + intros; exact I.
    + intros; exact I.
    + split; [exact I | apply H].
Qed.

Lemma loop_counts_acknowledged (n : nat) :
  forall (w : W),
    Forall (fun p => snd p <> ClearLogs) (ui_pending w) ->
    let after := snd (while_loop net api_key phantom_id run_count poll_seconds
                        idle_only n w) in
    activations_done (shared after) - activations_done (shared w)
    = acknowledged net (http_log after) - acknowledged net (http_log w).
Proof.
  induction n as [|n IH]; intros w Hnc after; subst after.
  - simpl. lia.
  - rewrite while_loop_unfold.
    destruct (loop_test run_count (shared w)); [|simpl; lia].
    destruct (pass_counts_acknowledged (activations_done (shared w)) w) as [Hc Hp];
      [split; [reflexivity | exact Hnc]|].
    destruct (loop_body net api_key phantom_id run_count poll_seconds idle_only w)
      as [[e|[]] w1]; simpl in Hc, Hp |- *; [exact Hc|].
    specialize (IH w1 Hp). cbv zeta in IH. lia.
Qed.
End CounterOfScript.

(** * The scenarios of the specification, run on the two programs *)

(** Three activations asked, the agent idle at each poll, every launch
    acknowledged: the thread stops with the counter at 3 after exactly 3
    launch requests. *)
Example scenario_three_activations :
  exists w',
    Activator.automation_loop Runs.net_finished_ack "key" "id" 3 5 true 4
      (Runs.started []) = Some w'
    /\ Activator.activations_done (shared w') = 3
    /\ Activator.is_running (shared w') = false
    /\ length (launches w') = 3%nat.
Proof. eexists. split; [vm_compute; reflexivity|]. repeat split. Qed.

(** Running at the first poll, idle at the second, one activation asked: no
    launch in the first pass, one in the second. *)
Example scenario_running_then_idle :
  let run := Activator.while_loop Runs.net_running_then_finished "key" "id" 1 5 true in
  launches (snd (run 1%nat (Runs.started []))) = []
  /\ map issued_at (launches (snd (run 2%nat (Runs.started [])))) = [5]
  /\ fst (run 3%nat (Runs.started [])) = Exited
  /\ Activator.activations_done (shared (snd (run 3%nat (Runs.started [])))) = 1.
Proof. repeat split. Qed.

(** Two failed status reads, then idle: no launch in the first two passes,
    one in the third. *)
Example scenario_unknown_twice :
  let run := Activator.while_loop Runs.net_unknown_twice_then_finished "key" "id" 1 5
               true in
  launches (snd (run 2%nat (Runs.started []))) = []
  /\ map issued_at (launches (snd (run 3%nat (Runs.started [])))) = [10].
Proof. repeat split. Qed.

(** No bound on the launches in [app.py], stop pressed after two
    acknowledged launches: the thread ends with [launch_count] at 2. *)
Example scenario_unbounded_then_stopped :
  let r := Controller.run_automation Runs.net_finished_ack 3
             (Runs.controller_started 0 [(45, Controller.StopAutomation)]) in
  fst r = Some (inr tt)
  /\ Controller.launch_count (Controller.ctl (shared (snd r))) = 2
  /\ Controller.automation_running (Controller.ctl (shared (snd r))) = false
  /\ length (launches (snd r)) = 2%nat.
Proof. repeat split. Qed.

(** * The claims *)

(** ** C1: no launch on an unknown status *)

(** C1, as amended.  In [automation_loop], a pass whose status request
    failed (it raised, the answer was not a 200, or the body was not JSON)
    or gave no status issues no launch request, whatever [idle_only] is.
    In [PhantomController], which has no unknown status, [check_status]
    answers [False] on every failure and the pass issues one launch
    request. *)
Theorem unknown_status_no_launch
        (net : nat -> net_reply) (api_key phantom_id : string)
        (run_count poll_seconds : Z) (idle_only : bool)
        (wa : Activator.W) (wc : Controller.W) :
  (fetch_failed (net (length (http_log wa))) = true
   \/ fst (Activator.get_phantom_status net api_key phantom_id wa) = inr PNone) ->
  fetch_failed (net (length (http_log wc))) = true ->
  launches (snd (Activator.loop_body net api_key phantom_id run_count
                   poll_seconds idle_only wa))
  = launches wa
  /\ exists c, verb c = POST
               /\ launches (snd (Controller.loop_body net wc)) = launches wc ++ [c].
Proof.
  intros Ha Hc. split.
  - rewrite ActivatorFacts.loop_body_launches. cbv zeta.
    assert (H : fst (Activator.get_phantom_status net api_key phantom_id wa)
                = inr PNone
                \/ exists e, fst (Activator.get_phantom_status net api_key
                                    phantom_id wa) = inl e).
    { destruct Ha as [Ha|Ha];
        [apply ActivatorFacts.get_phantom_status_failed; exact Ha | left; exact Ha]. }
    destruct H as [H|[e H]]; rewrite H; reflexivity.
  - eexists. split; [|apply ControllerFacts.loop_body_launches_on_failure; exact Hc].
    reflexivity.
Qed.

Lemma unknown_status_no_launch_witness :
  launches (snd (Activator.loop_body Runs.net_500 "key" "id" 3 5 false
                   (Runs.started [])))
  = launches (Runs.started [])
  /\ exists c, verb c = POST
               /\ launches (snd (Controller.loop_body Runs.net_500
                                   (Runs.controller_started 3 [])))
                  = launches (Runs.controller_started 3 []) ++ [c].
Proof.
  apply (unknown_status_no_launch Runs.net_500 "key" "id" 3 5 false
           (Runs.started []) (Runs.controller_started 3 [])).
  - left. reflexivity.
  - reflexivity.
Defined.

(** C1 as stated fails on [app.py]: the status request is answered with a
    500 and the same pass of [run_automation] issues a launch request. *)
Lemma controller_launches_on_failed_status :
  fetch_failed (Runs.net_500_then_ack (length (http_log (Runs.controller_started 3 []))))
  = true
  /\ launches (snd (Controller.loop_body Runs.net_500_then_ack
                      (Runs.controller_started 3 [])))
     <> launches (Runs.controller_started 3 []).
Proof. split; [reflexivity | discriminate]. Qed.

(** ** C2: the counter while the loop runs *)

(** C2, as amended.  Started with the counter between 0 and [run_count],
    after any number of passes of the loop of [automation_loop] the counter
    is still between 0 and [run_count]; it has not gone down if no
    clear-logs press was to come (such a press sets it back to 0); when the
    loop is left through its test, [stop_flag] is set or the counter equals
    [run_count], and with either of them the test ends the loop at once.
    The loop is also left when its body raises: on a 200 with body
    [{"data": null}] it is left in the first pass, with neither. *)
Theorem counter_bounded_and_kept
        (net : nat -> net_reply) (api_key phantom_id : string)
        (run_count poll_seconds : Z) (idle_only : bool)
        (n : nat) (w : Activator.W) :
  0 <= Activator.activations_done (shared w) <= run_count ->
  let r := Activator.while_loop net api_key phantom_id run_count poll_seconds
             idle_only n w in
  0 <= Activator.activations_done (shared (snd r)) <= run_count
  /\ (Forall (fun p => snd p <> Activator.ClearLogs) (ui_pending w) ->
      Activator.activations_done (shared w)
      <= Activator.activations_done (shared (snd r)))
  /\ (fst r = Exited ->
      Activator.stop_flag (shared (snd r)) = true
      \/ Activator.activations_done (shared (snd r)) = run_count)
  /\ (Activator.stop_flag (shared w) = true
      \/ Activator.activations_done (shared w) = run_count ->
      Activator.while_loop net api_key phantom_id run_count poll_seconds
        idle_only (Datatypes.S n) w = (Exited, w))
  /\ (let faulted := Activator.while_loop Runs.net_null_data "key" "id" 3 5 true 1
                        (Runs.started []) in
      fst faulted = Faulted (AttributeError "object has no attribute 'get'")
      /\ Activator.stop_flag (shared (snd faulted)) = false
      /\ Activator.activations_done (shared (snd faulted)) = 0).
Proof.
  intros Hb r.
  assert (Hin : 0 <= Activator.activations_done (shared (snd r)) <= run_count).
  { apply (ActivatorFacts.while_loop_holds net api_key phantom_id run_count
             poll_seconds idle_only
             (fun s => 0 <= Activator.activations_done s < run_count)
             (fun s => 0 <= Activator.activations_done s <= run_count)
             Activator.any_button).
    - apply ActivatorFacts.below_steady.
    - apply ActivatorFacts.within_steady.
    - intros s H. lia.
    - intros s H. simpl. lia.
    - intros s H Ht. unfold Activator.loop_test in Ht.
      apply andb_prop in Ht. destruct Ht as [_ Ht].
      apply Z.ltb_lt in Ht. lia.
    - split; [exact Hb | apply ActivatorFacts.all_any_button]. }
  split; [exact Hin|]. split; [|split; [|split]]; [| | |repeat split].
  - intros Hnc.
    apply (ActivatorFacts.while_loop_holds net api_key phantom_id run_count
             poll_seconds idle_only
             (fun s => Activator.activations_done (shared w)
                       <= Activator.activations_done s)
             (fun s => Activator.activations_done (shared w)
                       <= Activator.activations_done s)
             Activator.not_clear).
    + apply ActivatorFacts.at_least_steady.
    + apply ActivatorFacts.at_least_steady.
    + intros s H. exact H.
    + intros s H. simpl. lia.
    + intros s H _. exact H.
    + split; [lia | exact Hnc].
  - intros He.
    apply (ActivatorFacts.loop_test_false run_count _ Hin).
    apply ActivatorFacts.while_loop_exited. exact He.
  - intros Hs. rewrite ActivatorFacts.while_loop_unfold.
    apply (ActivatorFacts.loop_test_false run_count _ Hb) in Hs.
    rewrite Hs. reflexivity.
Qed.

Lemma counter_bounded_and_kept_witness :
  let r := Activator.while_loop Runs.net_finished_ack "key" "id" 3 5 true 5
             (Runs.started [(7, Activator.Stop)]) in
  0 <= Activator.activations_done (shared (snd r)) <= 3
  /\ 0 <= Activator.activations_done (shared (snd r))
  /\ (Activator.stop_flag (shared (snd r)) = true
      \/ Activator.activations_done (shared (snd r)) = 3).
Proof.
  pose proof (counter_bounded_and_kept Runs.net_finished_ack "key" "id" 3 5 true 5
                (Runs.started [(7, Activator.Stop)])) as H.
  assert (H0 : 0 <= Activator.activations_done
                      (shared (Runs.started [(7, Activator.Stop)])) <= 3)
    by (simpl; lia).
  destruct (H H0) as (A & B & C & _ & _).
  split; [exact A|]. split.
  - apply B. repeat constructor. simpl. discriminate.
  - apply C. reflexivity.
Defined.

(** C2 as stated fails: with the logs cleared at second 7 of a run for 3
    activations, the counter is 1 after the first pass and 0 after the
    second, the loop still running. *)
Lemma counter_drops_when_logs_cleared :
  let run := Activator.while_loop Runs.net_finished_ack "key" "id" 3 5 true in
  let w := Runs.started [(7, Activator.ClearLogs)] in
  fst (run 2%nat w) = Looping
  /\ ~ (Activator.activations_done (shared (snd (run 1%nat w)))
        <= Activator.activations_done (shared (snd (run 2%nat w)))).
Proof. split; [reflexivity | vm_compute; intros H; apply H; reflexivity]. Qed.

(** ** C3: the idle-only policy *)

(** C3, as amended.  In [automation_loop] with [idle_only] true, a pass
    that got a status launches exactly when the status is not "running":
    "running" alone counts as active there, "launching" and "waiting" are
    launched on.  On "running" the policy step only logs the waiting
    message.  In [PhantomController], [check_status] counts "running",
    "launching" and "waiting" as active, and a pass launches exactly when
    [check_status] answered [False]; no waiting message is written. *)
Theorem idle_only_launches_unless_running
        (net : nat -> net_reply) (api_key phantom_id : string)
        (run_count poll_seconds : Z)
        (w : Activator.W) (v : pyval) (wc : Controller.W)
        (r : response) (entries : list (string * pyval)) :
  fst (Activator.get_phantom_status net api_key phantom_id w) = inr v ->
  py_is_none v = false ->
  reply (net (length (http_log wc))) = inr r ->
  status_code r = 200 ->
  json r = inr (PDict entries) ->
  let after := snd (Activator.loop_body net api_key phantom_id run_count
                      poll_seconds true w) in
  (launches after <> launches w <-> py_eq_str v "running" = false)
  /\ (py_eq_str v "running" = true ->
      forall w1 : Activator.W,
        let w2 := snd (Activator.apply_policy net api_key phantom_id run_count
                         true v w1) in
        Activator.logs (shared w2)
        = Activator.logs (shared w1) ++ [(clock w1, Activator.Waiting)]
        /\ http_log w2 = http_log w1)
  /\ fst (Controller.check_status net wc)
     = inr (py_in_strs
              match dict_lookup "status" entries with
              | Some s => s
              | None => PStr "unknown"
              end
              ["running"; "launching"; "waiting"]%string)
  /\ (launches (snd (Controller.loop_body net wc)) <> launches wc
      <-> fst (Controller.check_status net wc) = inr false).
Proof.
  intros Hv Hn Hr Hcode Hjson after.
  split; [|split; [|split]].
  - subst after. rewrite ActivatorFacts.loop_body_launches. cbv zeta.
    rewrite Hv, Hn. unfold Activator.policy_launches. simpl.
    destruct (py_eq_str v "running"); simpl; split; intros H.
    + elim H. reflexivity.
    + discriminate H.
    + reflexivity.
    + apply snoc_neq.
  - intros Hrun w1 w2. subst w2. unfold Activator.apply_policy.
    rewrite Hrun. simpl. split; reflexivity.
  - rewrite ControllerFacts.check_status_result, Hr, Hcode, Hjson. reflexivity.
  - unfold launches. rewrite ControllerFacts.ctl_loop_body_http_log.
    destruct (ControllerFacts.check_status_returns net wc) as (b & w' & Hc).
    rewrite Hc. simpl. destruct b; split; intros H.
    + elim H. apply launches_snoc_get. reflexivity.
    + discriminate H.
    + reflexivity.
    + rewrite launches_snoc_get_post by reflexivity. apply snoc_neq.
Qed.

Lemma idle_only_launches_unless_running_witness :
  let net := fun _ : nat => Runs.reply_two_level "waiting" "running" in
  let after := snd (Activator.loop_body net "key" "id" 3 5 true (Runs.started [])) in
  (launches after <> launches (Runs.started [])
   <-> py_eq_str (PStr "running") "running" = false)
  /\ Activator.logs (shared (snd (Activator.apply_policy net "key" "id"
                                    3 true (PStr "running") (Runs.started []))))
     = [(0, Activator.AutomationStarted); (0, Activator.Waiting)]
  /\ fst (Controller.check_status net (Runs.controller_started 3 [])) = inr true.
Proof.
  intros net after.
  destruct (idle_only_launches_unless_running net "key" "id" 3 5
              (Runs.started []) (PStr "running") (Runs.controller_started 3 [])
              (mkResponse 200 "(json)"
                 (inr (PDict [("status"%string, PStr "waiting");
                              ("data"%string,
                               PDict [("status"%string, PStr "running")])])))
              [("status"%string, PStr "waiting");
               ("data"%string, PDict [("status"%string, PStr "running")])]
              eq_refl eq_refl eq_refl eq_refl eq_refl) as (A & B & C & _).
  split; [exact A|]. split.
  - exact (proj1 (B eq_refl (Runs.started []))).
  - exact C.
Defined.

(** C3 as stated fails on [automation_loop]: the status is "waiting", which
    the claim counts as active, and the pass launches. *)
Lemma waiting_status_is_launched_on :
  fst (Activator.get_phantom_status Runs.net_waiting_ack "key" "id" (Runs.started []))
  = inr (PStr "waiting")
  /\ launches (snd (Activator.loop_body Runs.net_waiting_ack "key" "id" 3 5 true
                      (Runs.started [])))
     <> launches (Runs.started []).
Proof. split; [reflexivity | discriminate]. Qed.

(** ** C4: the status request never raises *)

(** C4, on the code: [get_phantom_status] only catches
    [requests.RequestException].  On a 200 whose body is [{"data": null}]
    the second [.get] raises [AttributeError] past the function, which the
    loop then reports as an unexpected error and stops on; on a 200 whose
    body has no status it returns [None] without any log line. *)
Theorem get_phantom_status_raises_on_null_data :
  fst (Activator.get_phantom_status Runs.net_null_data "key" "id" (Runs.started []))
  = inl (AttributeError "object has no attribute 'get'")
  /\ (exists w',
        Activator.automation_loop Runs.net_null_data "key" "id" 3 5 true 1
          (Runs.started []) = Some w'
        /\ Activator.logs (shared w')
           = [(0, Activator.AutomationStarted);
              (0, Activator.ThreadStarted);
              (0, Activator.UnexpectedError
                    (AttributeError "object has no attribute 'get'"));
              (0, Activator.ThreadStopped)])
  /\ fst (Activator.get_phantom_status Runs.net_no_status "key" "id" (Runs.started []))
     = inr PNone
  /\ Activator.logs
       (shared (snd (Activator.get_phantom_status Runs.net_no_status "key" "id"
                       (Runs.started []))))
     = Activator.logs (shared (Runs.started [])).
Proof.
  split; [reflexivity|]. split; [eexists; split; reflexivity|].
  split; reflexivity.
Qed.

(** ** C5: a fault in the loop body *)





(** ** C6: a target of 0 *)

(** C6.  In [PhantomController] a [max_launches] of 0 makes the loop
    unbounded: the test of the loop is then [automation_running] alone,
    whatever [launch_count] has come to.  Running with nothing pressed, the
    loop is still on after any number of passes, each of which polled once,
    [run_automation] has not returned, and a pass launches exactly when
    [check_status] gave [False].  A press on stop makes the test false, and
    once [automation_running] is false the loop is left at its test. *)
Theorem max_launches_zero_is_unbounded
        (net : nat -> net_reply) (n : nat) (wc wc' : Controller.W)
        (c : Controller.controller) :
  Controller.max_launches (Controller.ctl (shared wc)) = 0 ->
  Controller.automation_running (Controller.ctl (shared wc)) = true ->
  0 <= Controller.status_check_interval (Controller.ctl (shared wc)) ->
  ui_pending wc = [] ->
  Controller.automation_running (Controller.ctl (shared wc')) = false ->
  Controller.max_launches c = 0 ->
  Controller.loop_test c = Controller.automation_running c
  /\ (fst (Controller.while_loop net n wc) = Looping
      /\ length (polls (snd (Controller.while_loop net n wc)))
         = (length (polls wc) + n)%nat
      /\ fst (Controller.run_automation net n wc) = None
      /\ Controller.loop_test
           (Controller.ctl (shared (snd (Controller.while_loop net n wc)))) = true)
  /\ (forall b : bool,
         fst (Controller.check_status net wc) = inr b ->
         launches (snd (Controller.loop_body net wc))
         = if b then launches wc
           else launches wc
                  ++ [Controller.launch_call (snd (Controller.check_status net wc))])
  /\ (forall (t : Z) (p : Controller.page),
         Controller.automation_running (Controller.ctl p) = true ->
         Controller.loop_test
           (Controller.ctl (Controller.on_press t Controller.StopAutomation p)) = false)
  /\ Controller.while_loop net (Datatypes.S n) wc' = (Exited, wc').
Proof.
  intros Hm Hr Hi Hui Hstop Hc. split; [|split; [|split; [|split]]].
  - unfold Controller.loop_test. rewrite Hc. simpl. apply andb_true_r.
  - assert (H : Controller.holds Controller.unbounded_running Controller.no_button wc).
    { split; [repeat split; assumption | rewrite Hui; constructor]. }
    destruct (ControllerFacts.while_loop_unbounded net n wc H) as (A & B & C).
    split; [exact A|]. split; [exact B|].
    split; [|apply ControllerFacts.unbounded_test; apply C].
    unfold Controller.run_automation.
    destruct (Controller.while_loop net n wc) as [st w2]. simpl in A. subst st.
    reflexivity.
  - intros b Hb. unfold launches.
    rewrite ControllerFacts.ctl_loop_body_http_log, Hb.
    destruct b.
    + apply launches_snoc_get. reflexivity.
    + apply launches_snoc_get_post; reflexivity.
  - intros t p Hp. simpl. rewrite Hp. reflexivity.
  - apply ControllerFacts.while_loop_stopped. exact Hstop.
Qed.

Lemma max_launches_zero_is_unbounded_witness :
  fst (Controller.while_loop Runs.net_500_then_ack 4 (Runs.controller_started 0 []))
  = Looping
  /\ length (polls (snd (Controller.while_loop Runs.net_500_then_ack 4
                           (Runs.controller_started 0 []))))
     = (length (polls (Runs.controller_started 0 [])) + 4)%nat
  /\ fst (Controller.run_automation Runs.net_500_then_ack 4
            (Runs.controller_started 0 [])) = None.
Proof.
  destruct (max_launches_zero_is_unbounded Runs.net_500_then_ack 4
              (Runs.controller_started 0 [])
              (mkWorld (Controller.mkPage (Controller.init "key" "agent") []) 0 [] [])
              (Controller.init "key" "agent")
              eq_refl eq_refl ltac:(simpl; lia) eq_refl eq_refl eq_refl)
    as (_ & (A & B & C & _) & _).
  split; [exact A | split; [exact B | exact C]].
Defined.

(** ** C7: stopping during a sleep *)

(** C7, on the code: after a failed status request the loop sleeps the
    whole interval in one [time.sleep(poll_seconds)].  With an interval of
    60 seconds and stop pressed at second 1 of that sleep, the thread stops
    at second 60.  The sleep after a pass that got a status is the one cut
    in one-second waits: in the same setting the thread stops at second 1. *)
Theorem stop_during_retry_sleep_waits_whole_interval :
  (exists w',
      Activator.automation_loop Runs.net_500 "key" "id" 5 60 true 2
        (Runs.started [(1, Activator.Stop)]) = Some w'
      /\ Activator.logs (shared w')
         = [(0, Activator.AutomationStarted);
            (0, Activator.ThreadStarted);
            (0, Activator.FetchFailed 500 "Internal Server Error");
            (1, Activator.StopRequested);
            (60, Activator.ThreadStopped)]
      /\ clock w' = 60)
  /\ (exists w',
         Activator.automation_loop Runs.net_running "key" "id" 5 60 true 2
           (Runs.started [(1, Activator.Stop)]) = Some w'
         /\ Activator.logs (shared w')
            = [(0, Activator.AutomationStarted);
               (0, Activator.ThreadStarted);
               (0, Activator.Waiting);
               (1, Activator.StopRequested);
               (1, Activator.ThreadStopped)]
         /\ clock w' = 1).
Proof.
  split; eexists; (split; [vm_compute; reflexivity|]); split; reflexivity.
Qed.

(** ** C8: what a launch does to the counter *)

(** C8, as amended.  In [automation_loop], over a pass that issued a launch
    request and during which no clear-logs press is handled, the counter
    goes up by exactly one when the launch was acknowledged with a 200,
    which is exactly when [launch_phantom] answers [True], and stays as it
    was otherwise.  Whatever is pressed, the counter after the launch block
    is its value when [launch_phantom] returned, plus one when the launch
    was acknowledged.  In [PhantomController], with nothing pressed,
    [launch_phantom] answers whether the launch was acknowledged and
    [launch_count] goes up by one when it was, by nothing when it was not. *)
Theorem launch_outcome_moves_counter
        (net : nat -> net_reply) (api_key phantom_id : string)
        (run_count poll_seconds : Z) (idle_only : bool)
        (w wl : Activator.W) (wc : Controller.W) :
  Forall (fun p => snd p <> Activator.ClearLogs) (ui_pending w) ->
  launches (snd (Activator.loop_body net api_key phantom_id run_count
                   poll_seconds idle_only w)) <> launches w ->
  ui_pending wc = [] ->
  Activator.activations_done
    (shared (snd (Activator.loop_body net api_key phantom_id run_count
                    poll_seconds idle_only w)))
  = Activator.activations_done (shared w)
    + (if launcher_ok (net (Datatypes.S (length (http_log w)))) then 1 else 0)
  /\ (fst (Activator.launch_phantom net api_key phantom_id wl) = inr true
      <-> launcher_ok (net (length (http_log wl))) = true)
  /\ (forall (status : pyval) (currently : bool),
        let asked :=
          snd (Activator.log
                 (Activator.Launching (Activator.activations_done (shared wl) + 1)
                    run_count status currently) wl) in
        Activator.activations_done
          (shared (snd (Activator.launch_and_count net api_key phantom_id run_count
                          status currently wl)))
        = Activator.activations_done
            (shared (snd (Activator.launch_phantom net api_key phantom_id asked)))
          + (if launcher_ok (net (length (http_log wl))) then 1 else 0))
  /\ fst (Controller.launch_phantom net wc)
     = inr (launcher_ok (net (length (http_log wc))))
  /\ Controller.launch_count
       (Controller.ctl (shared (snd (Controller.launch_phantom net wc))))
     = Controller.launch_count (Controller.ctl (shared wc))
       + (if launcher_ok (net (length (http_log wc))) then 1 else 0).
Proof.
  intros Hnc Hl _. split; [|split; [|split; [|split]]].
  - apply (ActivatorFacts.loop_body_counts net api_key phantom_id run_count
             poll_seconds idle_only (Activator.activations_done (shared w)) w).
    + split; [reflexivity | exact Hnc].
    + exact Hl.
  - apply ActivatorFacts.launch_phantom_true.
  - intros status currently. apply ActivatorFacts.launch_and_count_step.
  - apply ControllerFacts.ctl_launch_phantom_result.
  - apply ControllerFacts.launch_phantom_counts.
Qed.

Lemma launch_outcome_moves_counter_witness :
  let w := Runs.started [(2, Activator.Stop)] in
  Activator.activations_done
    (shared (snd (Activator.loop_body Runs.net_finished_refused "key" "id" 3 5 true w)))
  = Activator.activations_done (shared w)
    + (if launcher_ok (Runs.net_finished_refused (Datatypes.S (length (http_log w))))
       then 1 else 0).
Proof.
  intros w.
  assert (H1 : Forall (fun p => snd p <> Activator.ClearLogs) (ui_pending w))
    by (repeat constructor; discriminate).
  assert (H2 : launches (snd (Activator.loop_body Runs.net_finished_refused "key" "id"
                                3 5 true w)) <> launches w)
    by (vm_compute; discriminate).
  exact (proj1 (launch_outcome_moves_counter Runs.net_finished_refused "key" "id"
                  3 5 true w w (Runs.controller_started 3 []) H1 H2 eq_refl)).
Defined.

(** C8 as stated fails when the logs are cleared while the launch request
    is under way.  With 2 launches counted and a clear-logs press one second
    into a launch request that takes two, an acknowledged launch leaves the
    counter at 1, not 3, and a refused one leaves it at 0, not 2. *)
Lemma clear_during_launch_moves_counter :
  let w := Runs.counted_two [(1, Activator.ClearLogs)] in
  let acked := snd (Activator.loop_body Runs.net_finished_ack_slow "key" "id"
                      5 5 true w) in
  let refused := snd (Activator.loop_body Runs.net_finished_refused_slow "key" "id"
                        5 5 true w) in
  Activator.activations_done (shared w) = 2
  /\ (map verb (http_log acked) = [GET; POST]
      /\ launcher_ok (Runs.net_finished_ack_slow 1) = true
      /\ Activator.activations_done (shared acked) = 1)
  /\ (map verb (http_log refused) = [GET; POST]
      /\ launcher_ok (Runs.net_finished_refused_slow 1) = false
      /\ Activator.activations_done (shared refused) = 0).
Proof. vm_compute. repeat split. Qed.

(** ** C9: clearing the logs twice *)

(** C9, as amended.  Clearing the logs twice in a row gives the state that
    clearing them once, at the time of the second press, gives: the log
    holds one line, the notice of that press, and the counter is 0.  The
    log is not empty. *)
Theorem clear_logs_twice (t1 t2 : Z) (s : Activator.session_state) :
  Activator.clear_logs t2 (Activator.clear_logs t1 s) = Activator.clear_logs t2 s
  /\ Activator.logs (Activator.clear_logs t2 s) = [(t2, Activator.LogsCleared)]
  /\ Activator.activations_done (Activator.clear_logs t2 s) = 0.
Proof. repeat split. Qed.

(** C9 as stated fails: after two presses the log is not empty, and a second
    press one second after the first changes the state the first left. *)
Lemma clear_logs_twice_is_not_empty :
  Activator.logs (Activator.clear_logs 1 (Activator.clear_logs 0 Runs.session_started))
  <> []
  /\ Activator.clear_logs 1 (Activator.clear_logs 0 Runs.session_started)
     <> Activator.clear_logs 0 Runs.session_started.
Proof. split; discriminate. Qed.

(** ** C10: what clearing the logs does besides *)

Section ClearDuringRun.
Import Activator ActivatorFacts.
Variable net : nat -> net_reply.
Variable api_key phantom_id : string.
Variable run_count poll_seconds : Z.
Variable idle_only : bool.

(** Whatever is pressed, the launch block adds at most the acknowledged
    launch to the counter. *)
Lemma launch_and_count_at_most (k : Z) (status : pyval) (currently : bool) (w : W) :
  holds (fun s => 0 <= activations_done s <= k) any_button w ->
  holds (fun s => 0 <= activations_done s
                  <= k + (if launcher_ok (net (length (http_log w))) then 1 else 0))
        any_button
        (snd (launch_and_count net api_key phantom_id run_count status currently w)).
Proof.
  intros H.
  rewrite launch_and_count_unfold.
  set (w1 := snd (log (Launching (activations_done (shared w) + 1) run_count
                         status currently) w)).
  unfold bind at 1.
  assert (H1 : holds (fun s => 0 <= activations_done s <= k) any_button w1)
    by (apply log_holds; [apply within_steady | assumption]).
  assert (Hlog : http_log w1 = http_log w) by reflexivity.
  pose proof (launch_phantom_holds net api_key phantom_id _ _ (within_steady k) w1 H1)
    as [H2 H2'].
  pose proof (launch_phantom_true net api_key phantom_id w1) as Hok.
  rewrite Hlog in Hok.
  destruct (launch_phantom net api_key phantom_id w1) as [[e|ok] w2];
    simpl in H2, H2', Hok |- *.
  - split; [|exact H2'].
    destruct (launcher_ok (net (length (http_log w)))); lia.
  - destruct ok; simpl.
    + destruct Hok as [Hok _]. rewrite (Hok eq_refl).
      split; simpl; [lia | exact H2'].
    + destruct (launcher_ok (net (length (http_log w)))).
      * destruct Hok as [_ Hok]. discriminate (Hok eq_refl).
      * split; simpl; [lia | exact H2'].
Qed.

Lemma loop_body_at_most (k : Z) (w : W) :
  holds (fun s => 0 <= activations_done s <= k) any_button w ->
  let after := snd (loop_body net api_key phantom_id run_count poll_seconds
                      idle_only w) in
  holds (fun s => 0 <= activations_done s
                  <= k + (acknowledged net (http_log after)
                          - acknowledged net (http_log w)))
        any_button after.
Proof.
  intros H after.
  pose proof (loop_body_http_log net api_key phantom_id run_count poll_seconds
                idle_only w) as HH.
  fold after in HH. cbv zeta in HH.
  assert (Hafter : after = snd (loop_body net api_key phantom_id run_count
                                  poll_seconds idle_only w)) by reflexivity.
  clearbody after. rewrite loop_body_unfold in Hafter. unfold bind at 1 in Hafter.
  pose proof (get_phantom_status_holds net api_key phantom_id _ _ (within_steady k) w H)
    as H1.
  pose proof (get_phantom_status_http_log net api_key phantom_id w) as Hg.
  destruct (get_phantom_status net api_key phantom_id w) as [[e|v] w1];
    simpl in H1, Hg, HH, Hafter.
  - subst after. rewrite HH, acknowledged_poll by reflexivity.
    destruct H1 as [H1 H1']. split; [lia | exact H1'].
  - destruct (py_is_none v); simpl in HH, Hafter.
    + pose proof (sleep_holds _ _ (within_steady k) poll_seconds w1 H1) as [H2 H2'].
      rewrite <- Hafter in H2, H2'.
      rewrite HH, acknowledged_poll by reflexivity.
      split; [lia | exact H2'].
    + unfold bind in Hafter.
      destruct (policy_launches idle_only v) eqn:Hpol.
      * rewrite HH, acknowledged_poll_launch by reflexivity.
        assert (Hlen : length (http_log w1) = Datatypes.S (length (http_log w)))
          by (rewrite Hg, length_app; simpl; lia).
        assert (H2 : holds
                       (fun s => 0 <= activations_done s
                                 <= k + (if launcher_ok
                                              (net (Datatypes.S (length (http_log w))))
                                         then 1 else 0))
                       any_button
                       (snd (apply_policy net api_key phantom_id run_count idle_only
                               v w1))).
        { rewrite <- Hlen. unfold apply_policy. unfold policy_launches in Hpol.
          destruct idle_only; [destruct (py_eq_str v "running"); simpl in *|];
            try discriminate; apply launch_and_count_at_most; exact H1. }
        destruct (apply_policy net api_key phantom_id run_count idle_only v w1)
          as [[e|[]] w2]; simpl in H2, Hafter; subst after.
        -- destruct H2 as [H2 H2']. split; [lia | exact H2'].
        -- unfold sleep_between_polls.
           pose proof (sleep_ticks_holds poll_seconds _ _ (within_steady _)
                         (Z.to_nat poll_seconds) 0 w2 H2) as [H3 H3'].
           split; [lia | exact H3'].
      * rewrite HH, acknowledged_poll by reflexivity.
        unfold apply_policy, policy_launches in *.
        destruct idle_only; [|discriminate].
        destruct (py_eq_str v "running"); [|discriminate]. simpl in Hafter.
        subst after. unfold sleep_between_polls.
        pose proof (sleep_ticks_holds poll_seconds _ _ (within_steady k)
                      (Z.to_nat poll_seconds) 0 _
                      (log_holds _ _ (within_steady k) Waiting w1 H1)) as [H3 H3'].
        split; [simpl in H3 |- *; lia | exact H3'].
Qed.

Lemma while_loop_at_most (n : nat) :
  forall (k : Z) (w : W),
    holds (fun s => 0 <= activations_done s <= k) any_button w ->
    let after := snd (while_loop net api_key phantom_id run_count poll_seconds
                        idle_only n w) in
    0 <= activations_done (shared after)
    <= k + (acknowledged net (http_log after) - acknowledged net (http_log w)).
Proof.
  induction n as [|n IH]; intros k w H after; subst after.
  - simpl. destruct H as [H _]. lia.
  - rewrite while_loop_unfold.
    destruct (loop_test run_count (shared w)); [|simpl; destruct H as [H _]; lia].
    pose proof (loop_body_at_most k w H) as H1. cbv zeta in H1.
    destruct (loop_body net api_key phantom_id run_count poll_seconds idle_only w)
      as [[e|[]] w1]; simpl in H1 |- *; [destruct H1 as [H1 _]; lia|].
    specialize (IH _ w1 H1). cbv zeta in IH. lia.
Qed.

(** A press that is due by the time the next request returns is handled
    before anything else happens. *)
Lemma due_press_first (w : W) (t : Z) (b : button) (rest : list (Z * button))
      (v : http_verb) (u : string) (k : string * string) (tmo : option Z)
      (body : option string) :
  ui_pending w = (t, b) :: rest ->
  t <= clock w + Z.of_nat (latency (net (length (http_log w)))) ->
  request on_press net v u k tmo body w
  = request on_press net v u k tmo body
      (mkWorld (on_press t b (shared w)) (clock w) rest (http_log w)).
Proof.
  intros Hp Ht. unfold request, advance.
  cbn [clock ui_pending shared http_log].
  rewrite Hp. cbn [run_ui].
  destruct (Z.leb_spec t (clock w + Z.of_nat (latency (net (length (http_log w))))));
    [reflexivity | lia].
Qed.

Lemma loop_body_after_due_press (w : W) (t : Z) (b : button)
      (rest : list (Z * button)) :
  ui_pending w = (t, b) :: rest ->
  t <= clock w + Z.of_nat (latency (net (length (http_log w)))) ->
  loop_body net api_key phantom_id run_count poll_seconds idle_only w
  = loop_body net api_key phantom_id run_count poll_seconds idle_only
      (mkWorld (on_press t b (shared w)) (clock w) rest (http_log w)).
Proof.
  intros Hp Ht.
  unfold loop_body, get_phantom_status, get_phantom_status_try, try_except.
  unfold bind at 1. unfold bind at 1.
  rewrite (due_press_first w t b rest GET (fetch_url phantom_id) (key1 api_key)
             (Some 30) None Hp Ht).
  reflexivity.
Qed.

(** The bounds of the counter over the loop, whatever is pressed. *)
Lemma while_loop_within (n : nat) (w : W) :
  0 <= activations_done (shared w) <= run_count ->
  0 <= activations_done
         (shared (snd (while_loop net api_key phantom_id run_count poll_seconds
                         idle_only n w)))
    <= run_count.
Proof.
  intros Hb.
  apply (while_loop_holds net api_key phantom_id run_count poll_seconds idle_only
           (fun s => 0 <= activations_done s < run_count)
           (fun s => 0 <= activations_done s <= run_count) any_button).
  - apply below_steady.
  - apply within_steady.
  - intros s H. lia.
  - intros s H. simpl. lia.
  - intros s H Ht. unfold loop_test in Ht.
    apply andb_true_iff in Ht. destruct Ht as [_ Ht].
    apply Z.ltb_lt in Ht. lia.
  - split; [exact Hb | apply all_any_button].
Qed.

(** Left through its test with no stop requested, the loop has counted
    [run_count] launches. *)
Lemma exited_unstopped_counted (n : nat) (w : W) :
  0 <= activations_done (shared w) <= run_count ->
  let r := while_loop net api_key phantom_id run_count poll_seconds idle_only n w in
  fst r = Exited -> stop_flag (shared (snd r)) = false ->
  activations_done (shared (snd r)) = run_count.
Proof.
  intros Hb r He Hs. subst r.
  pose proof (while_loop_within n w Hb) as Hw.
  pose proof (while_loop_exited net api_key phantom_id run_count poll_seconds
                idle_only n w He) as Ht.
  apply (loop_test_false run_count _ Hw) in Ht.
  destruct Ht as [Ht|Ht]; [congruence | exact Ht].
Qed.
End ClearDuringRun.

(** C10, as amended.  The clear-logs handler sets the counter to 0 and
    leaves a log of one line, the cleared notice, so the log is not empty
    afterwards.  During a bounded run the counter restarts from 0.  When
    the press is handled at the start of a pass, before the status request
    of that pass returns, with [c] launches counted and acknowledged so
    far, the counter from then on is the number of launches acknowledged
    since, and the loop is left through its test, no stop requested, only
    when [c + run_count] launches have been acknowledged in all.  From any
    state the handler leaves, [run_count] further acknowledged launches are
    needed.  Whatever is pressed, the counter never rises by more than the
    launches acknowledged meanwhile. *)
Theorem clear_logs_resets_progress
        (net : nat -> net_reply) (api_key phantom_id : string)
        (run_count poll_seconds : Z) (idle_only : bool)
        (n : nat) (w : Activator.W) (t : Z) (rest : list (Z * Activator.button)) :
  0 <= Activator.activations_done (shared w) ->
  Activator.loop_test run_count (shared w) = true ->
  ui_pending w = (t, Activator.ClearLogs) :: rest ->
  t <= clock w + Z.of_nat (latency (net (length (http_log w)))) ->
  Forall (fun p => snd p <> Activator.ClearLogs) rest ->
  acknowledged net (http_log w) = Activator.activations_done (shared w) ->
  (forall (t' : Z) (s : Activator.session_state),
      Activator.activations_done (Activator.clear_logs t' s) = 0
      /\ Activator.logs (Activator.clear_logs t' s) = [(t', Activator.LogsCleared)]
      /\ Activator.logs (Activator.clear_logs t' s) <> [])
  /\ (Activator.activations_done
        (shared (snd (Activator.while_loop net api_key phantom_id run_count
                        poll_seconds idle_only (Datatypes.S n) w)))
      = acknowledged net
          (http_log (snd (Activator.while_loop net api_key phantom_id run_count
                            poll_seconds idle_only (Datatypes.S n) w)))
        - Activator.activations_done (shared w))
  /\ (fst (Activator.while_loop net api_key phantom_id run_count poll_seconds
             idle_only (Datatypes.S n) w) = Exited ->
      Activator.stop_flag
        (shared (snd (Activator.while_loop net api_key phantom_id run_count
                        poll_seconds idle_only (Datatypes.S n) w))) = false ->
      acknowledged net
        (http_log (snd (Activator.while_loop net api_key phantom_id run_count
                          poll_seconds idle_only (Datatypes.S n) w)))
      = Activator.activations_done (shared w) + run_count)
  /\ (forall (m : nat) (wz : Activator.W) (tz : Z) (s : Activator.session_state),
         shared wz = Activator.clear_logs tz s ->
         Forall (fun p => snd p <> Activator.ClearLogs) (ui_pending wz) ->
         0 <= run_count ->
         let r := Activator.while_loop net api_key phantom_id run_count
                    poll_seconds idle_only m wz in
         Activator.activations_done (shared (snd r))
         = acknowledged net (http_log (snd r)) - acknowledged net (http_log wz)
         /\ (fst r = Exited -> Activator.stop_flag (shared (snd r)) = false ->
             acknowledged net (http_log (snd r))
             = acknowledged net (http_log wz) + run_count))
  /\ (forall (m : nat) (w0 : Activator.W),
         0 <= Activator.activations_done (shared w0) ->
         let after := snd (Activator.while_loop net api_key phantom_id run_count
                             poll_seconds idle_only m w0) in
         0 <= Activator.activations_done (shared after)
         <= Activator.activations_done (shared w0)
            + (acknowledged net (http_log after) - acknowledged net (http_log w0))).
Proof.
  intros H0 Ht Hp Hdue Hrest Hack.
  assert (Hlt : Activator.activations_done (shared w) < run_count).
  { unfold Activator.loop_test in Ht. apply andb_true_iff in Ht.
    destruct Ht as [_ Ht]. apply Z.ltb_lt in Ht. exact Ht. }
  assert (Hstop : Activator.stop_flag (shared w) = false).
  { unfold Activator.loop_test in Ht. apply andb_true_iff in Ht.
    destruct Ht as [Ht _]. apply negb_true_iff in Ht. exact Ht. }
  set (wc := mkWorld (Activator.on_press t Activator.ClearLogs (shared w))
                     (clock w) rest (http_log w)).
  assert (Hsame : Activator.while_loop net api_key phantom_id run_count
                    poll_seconds idle_only (Datatypes.S n) w
                  = Activator.while_loop net api_key phantom_id run_count
                      poll_seconds idle_only (Datatypes.S n) wc).
  { rewrite !ActivatorFacts.while_loop_unfold. rewrite Ht.
    assert (Htc : Activator.loop_test run_count (shared wc) = true).
    { unfold Activator.loop_test. simpl. rewrite Hstop. simpl.
      apply Z.ltb_lt. lia. }
    rewrite Htc.
    rewrite (loop_body_after_due_press net api_key phantom_id run_count
               poll_seconds idle_only w t Activator.ClearLogs rest Hp Hdue).
    reflexivity. }
  assert (Hcount : forall (m : nat) (wz : Activator.W),
             Activator.activations_done (shared wz) = 0 ->
             Forall (fun p => snd p <> Activator.ClearLogs) (ui_pending wz) ->
             0 <= run_count ->
             let r := Activator.while_loop net api_key phantom_id run_count
                        poll_seconds idle_only m wz in
             Activator.activations_done (shared (snd r))
             = acknowledged net (http_log (snd r)) - acknowledged net (http_log wz)
             /\ (fst r = Exited -> Activator.stop_flag (shared (snd r)) = false ->
                 acknowledged net (http_log (snd r))
                 = acknowledged net (http_log wz) + run_count)).
  { intros m wz Hz Hnc Hrc r. subst r.
    pose proof (loop_counts_acknowledged net api_key phantom_id run_count
                  poll_seconds idle_only m wz Hnc) as Hc.
    cbv zeta in Hc. rewrite Hz in Hc.
    split; [lia|]. intros He Hs.
    pose proof (exited_unstopped_counted net api_key phantom_id run_count
                  poll_seconds idle_only m wz) as Hx.
    cbv zeta in Hx. rewrite Hz in Hx.
    specialize (Hx ltac:(lia) He Hs). lia. }
  split; [|split; [|split; [|split]]].
  - intros t' s. repeat split. discriminate.
  - rewrite Hsame.
    destruct (Hcount (Datatypes.S n) wc eq_refl Hrest ltac:(lia)) as [Hc _].
    rewrite Hc. simpl http_log at 2. lia.
  - rewrite Hsame. intros He Hs.
    destruct (Hcount (Datatypes.S n) wc eq_refl Hrest ltac:(lia)) as [_ Hc].
    rewrite (Hc He Hs). simpl http_log. lia.
  - intros m wz tz s Hs Hnc Hrc. apply Hcount; [rewrite Hs; reflexivity | | ];
      assumption.
  - intros m w0 Hw0 after. subst after.
    apply (while_loop_at_most net api_key phantom_id run_count poll_seconds
             idle_only m (Activator.activations_done (shared w0)) w0).
    split; [lia | apply ActivatorFacts.all_any_button].
Qed.

Lemma clear_logs_resets_progress_witness :
  let w := snd (Activator.while_loop Runs.net_slow_poll_finished_ack "key" "id" 2 5 true 1
                  (Runs.started [(7, Activator.ClearLogs)])) in
  ui_pending w = [(7, Activator.ClearLogs)]
  /\ Activator.activations_done (shared w) = 1
  /\ acknowledged Runs.net_slow_poll_finished_ack
       (http_log (snd (Activator.while_loop Runs.net_slow_poll_finished_ack "key" "id"
                         2 5 true 4 w)))
     = Activator.activations_done (shared w) + 2.
Proof.
  intros w.
  assert (H1 : 0 <= Activator.activations_done (shared w))
    by (vm_compute; discriminate).
  assert (H2 : Activator.loop_test 2 (shared w) = true) by (vm_compute; reflexivity).
  assert (H3 : ui_pending w = [(7, Activator.ClearLogs)]) by (vm_compute; reflexivity).
  assert (H4 : 7 <= clock w + Z.of_nat (latency (Runs.net_slow_poll_finished_ack
                                                  (length (http_log w)))))
    by (vm_compute; discriminate).
  assert (H5 : acknowledged Runs.net_slow_poll_finished_ack (http_log w)
               = Activator.activations_done (shared w))
    by (vm_compute; reflexivity).
  split; [exact H3|]. split; [vm_compute; reflexivity|].
  destruct (clear_logs_resets_progress Runs.net_slow_poll_finished_ack "key" "id" 2 5
              true 3 w 7 [] H1 H2 H3 H4 (Forall_nil _) H5) as (_ & _ & A & _).
  apply A; vm_compute; reflexivity.
Defined.

(** C10 as stated fails for a press that comes before the first counted
    launch: in a run for 2 activations in which every launch is
    acknowledged, with the logs cleared at second 0, the handler runs while
    the run is on and the loop issues 2 launch requests, none beyond the
    target.  Cleared at second 7, after the first launch was counted, the
    same run issues 3. *)
Lemma clear_before_first_launch_adds_none :
  (exists w',
      Activator.automation_loop Runs.net_finished_ack "key" "id" 2 5 true 5
        (Runs.started [(0, Activator.ClearLogs)]) = Some w'
      /\ Activator.is_running Runs.session_started = true
      /\ In (0, Activator.LogsCleared) (Activator.logs (shared w'))
      /\ length (launches w') = 2%nat
      /\ Activator.activations_done (shared w') = 2)
  /\ (exists w',
         Activator.automation_loop Runs.net_slow_poll_finished_ack "key" "id" 2 5 true 5
           (Runs.started [(7, Activator.ClearLogs)]) = Some w'
         /\ length (launches w') = 3%nat
         /\ Activator.activations_done (shared w') = 2).
Proof.
  split; eexists; (split; [vm_compute; reflexivity|]).
  - split; [reflexivity|]. split; [simpl; auto|]. split; reflexivity.
  - split; reflexivity.
Qed.

(** * Further properties of the two programs *)

(** ** Lists of requests *)

Lemma poll_then_launch_app (a b : list http_call) :
  poll_then_launch a -> poll_then_launch b -> poll_then_launch (a ++ b).
Proof.
  intros Ha Hb. induction Ha; simpl.
  - exact Hb.
  - apply ptl_poll; assumption.
  - apply ptl_launch; assumption.
Qed.

Lemma poll_then_launch_counts (l : list http_call) :
  poll_then_launch l ->
  (length (filter is_launch l)
   <= length (filter (fun c => negb (is_launch c)) l))%nat.
Proof.
  intros H. induction H; simpl.
  - lia.
  - assert (Hc : is_launch c = false) by (unfold is_launch; rewrite H; reflexivity).
    rewrite Hc. simpl. lia.
  - assert (Hc1 : is_launch c1 = false)
      by (unfold is_launch; rewrite H; reflexivity).
    assert (Hc2 : is_launch c2 = true)
      by (unfold is_launch; rewrite H0; reflexivity).
    rewrite Hc1, Hc2. simpl. lia.
Qed.

(** ** The requests of a run *)

Lemma activator_pass_requests
      (net : nat -> net_reply) (api_key phantom_id : string)
      (run_count poll_seconds : Z) (idle_only : bool) (w : Activator.W) :
  exists added,
    http_log (snd (Activator.loop_body net api_key phantom_id run_count
                     poll_seconds idle_only w)) = http_log w ++ added
    /\ poll_then_launch added
    /\ length (filter (fun c => negb (is_launch c)) added) = 1%nat.
Proof.
  rewrite ActivatorFacts.loop_body_http_log. cbv zeta.
  destruct (fst (Activator.get_phantom_status net api_key phantom_id w)) as [e|v].
  - eexists. split; [reflexivity|]. split; [|reflexivity].
    apply ptl_poll; [reflexivity | apply ptl_nil].
  - destruct (negb (py_is_none v) && Activator.policy_launches idle_only v)%bool.
    + eexists. split; [reflexivity|]. split; [|reflexivity].
      apply ptl_launch; [reflexivity | reflexivity | apply ptl_nil].
    + eexists. split; [reflexivity|]. split; [|reflexivity].
      apply ptl_poll; [reflexivity | apply ptl_nil].
Qed.

Lemma controller_pass_requests (net : nat -> net_reply) (w : Controller.W) :
  exists added,
    http_log (snd (Controller.loop_body net w)) = http_log w ++ added
    /\ poll_then_launch added
    /\ length (filter (fun c => negb (is_launch c)) added) = 1%nat.
Proof.
  rewrite ControllerFacts.ctl_loop_body_http_log.
  destruct (fst (Controller.check_status net w)) as [e|[|]].
  - eexists. split; [reflexivity|]. split; [|reflexivity].
    apply ptl_poll; [reflexivity | apply ptl_nil].
  - eexists. split; [reflexivity|]. split; [|reflexivity].
    apply ptl_poll; [reflexivity | apply ptl_nil].
  - eexists. split; [reflexivity|]. split; [|reflexivity].
    apply ptl_launch; [reflexivity | reflexivity | apply ptl_nil].
Qed.

(** X1.  In both programs the requests of a run come in passes: whatever
    the remote service answers and whatever is pressed, the requests issued
    over any number of passes of the loop are a sequence of status requests,
    each followed by at most one launch request.  So a launch is never
    issued without a status read just before it, two launches never follow
    each other, and [n] passes poll at most [n] times. *)
Theorem requests_come_in_passes
        (net : nat -> net_reply) (api_key phantom_id : string)
        (run_count poll_seconds : Z) (idle_only : bool) (n : nat)
        (wa : Activator.W) (wc : Controller.W) :
  (exists added,
      http_log (snd (Activator.while_loop net api_key phantom_id run_count
                       poll_seconds idle_only n wa)) = http_log wa ++ added
      /\ poll_then_launch added
      /\ (length (filter (fun c => negb (is_launch c)) added) <= n)%nat
      /\ (length (filter is_launch added)
          <= length (filter (fun c => negb (is_launch c)) added))%nat)
  /\ (exists added,
         http_log (snd (Controller.while_loop net n wc)) = http_log wc ++ added
         /\ poll_then_launch added
         /\ (length (filter (fun c => negb (is_launch c)) added) <= n)%nat
         /\ (length (filter is_launch added)
             <= length (filter (fun c => negb (is_launch c)) added))%nat).
Proof.
  split.
  - revert wa. induction n as [|n IH]; intros wa.
    + exists []. simpl. rewrite app_nil_r. repeat split; [apply ptl_nil | lia | lia].
    + rewrite ActivatorFacts.while_loop_unfold.
      destruct (Activator.loop_test run_count (shared wa)).
      * destruct (activator_pass_requests net api_key phantom_id run_count
                    poll_seconds idle_only wa) as (a & Ha & Hp & Hl).
        destruct (Activator.loop_body net api_key phantom_id run_count
                    poll_seconds idle_only wa) as [[e|[]] w1]; simpl in Ha |- *.
        -- exists a. split; [exact Ha|]. split; [exact Hp|].
           split; [lia | apply poll_then_launch_counts; exact Hp].
        -- destruct (IH w1) as (b & Hb & Hpb & Hlb & _).
           exists (a ++ b). rewrite Hb, Ha, app_assoc.
           split; [reflexivity|].
           assert (Hab : poll_then_launch (a ++ b))
             by (apply poll_then_launch_app; assumption).
           split; [exact Hab|].
           split; [rewrite filter_app, length_app; lia
                  | apply poll_then_launch_counts; exact Hab].
      * exists []. simpl. rewrite app_nil_r.
        repeat split; [apply ptl_nil | lia | lia].
  - revert wc. induction n as [|n IH]; intros wc.
    + exists []. simpl. rewrite app_nil_r. repeat split; [apply ptl_nil | lia | lia].
    + rewrite ControllerFacts.ctl_while_loop_unfold.
      destruct (Controller.loop_test (Controller.ctl (shared wc))).
      * destruct (controller_pass_requests net wc) as (a & Ha & Hp & Hl).
        destruct (Controller.loop_body net wc) as [[e|[]] w1]; simpl in Ha |- *.
        -- exists a. split; [exact Ha|]. split; [exact Hp|].
           split; [lia | apply poll_then_launch_counts; exact Hp].
        -- destruct (IH w1) as (b & Hb & Hpb & Hlb & _).
           exists (a ++ b). rewrite Hb, Ha, app_assoc.
           split; [reflexivity|].
           assert (Hab : poll_then_launch (a ++ b))
             by (apply poll_then_launch_app; assumption).
           split; [exact Hab|].
           split; [rewrite filter_app, length_app; lia
                  | apply poll_then_launch_counts; exact Hab].
      * exists []. simpl. rewrite app_nil_r.
        repeat split; [apply ptl_nil | lia | lia].
Qed.

(** ** The counters and the acknowledged launches *)

Section CounterOfClass.
Import Controller ControllerFacts.
Variable net : nat -> net_reply.

Lemma check_status_launch_count (w : W) :
  launch_count (ctl (shared (snd (check_status net w))))
  = launch_count (ctl (shared w)).
Proof.
  unfold check_status, try_except, bind, gets, request, lift_result, modify, ret.
  set (w1 := advance on_press _ _).
  assert (H1 : launch_count (ctl (shared w1)) = launch_count (ctl (shared w)))
    by (subst w1; rewrite advance_launch_count; reflexivity).
  clearbody w1.
  destruct (reply (net (length (http_log w)))) as [e|r]; [exact H1|].
  destruct (status_code r =? 200); [|exact H1].
  destruct (json r) as [e|d]; [exact H1|].
  destruct (py_get d "status" (PStr "unknown")) as [e|v]; exact H1.
Qed.

Lemma sleep_launch_count (d : Z) (w : W) :
  launch_count (ctl (shared (snd (sleep on_press d w))))
  = launch_count (ctl (shared w)).
Proof.
  unfold sleep. destruct (d <? 0); simpl;
    [reflexivity | apply advance_launch_count].
Qed.

Lemma ctl_pass_counts_acknowledged (w : W) :
  let after := snd (loop_body net w) in
  launch_count (ctl (shared after)) - launch_count (ctl (shared w))
  = acknowledged net (http_log after) - acknowledged net (http_log w).
Proof.
  intros after.
  pose proof (ctl_loop_body_http_log net w) as HH. fold after in HH.
  assert (Hafter : after = snd (loop_body net w)) by reflexivity.
  clearbody after. rewrite ctl_loop_body_unfold in Hafter.
  unfold bind at 1 in Hafter.
  pose proof (check_status_launch_count w) as Hc.
  pose proof (check_status_http_log net w) as Hg.
  destruct (check_status_returns net w) as (b & w1 & Hcs).
  rewrite Hcs in *. simpl in Hc, Hg, HH, Hafter.
  unfold bind at 1 in Hafter.
  destruct b; simpl in Hafter, HH.
  - unfold bind, gets in Hafter. simpl in Hafter. subst after.
    rewrite sleep_launch_count, Hc, HH, acknowledged_poll by reflexivity. lia.
  - unfold bind at 1 in Hafter.
    pose proof (launch_phantom_counts net w1) as Hl.
    destruct (launch_phantom_returns net w1) as (b2 & w2 & Hl').
    rewrite Hl' in *. simpl in Hl, Hafter.
    unfold bind, gets in Hafter. simpl in Hafter. subst after.
    rewrite sleep_launch_count, Hl, Hc, HH, acknowledged_poll_launch by reflexivity.
    rewrite Hg, length_app. simpl.
    replace (length (http_log w) + 1)%nat with (Datatypes.S (length (http_log w)))
      by lia.
    lia.
Qed.

Lemma ctl_loop_counts_acknowledged (n : nat) :
  forall (w : W),
    let after := snd (while_loop net n w) in
    launch_count (ctl (shared after)) - launch_count (ctl (shared w))
    = acknowledged net (http_log after) - acknowledged net (http_log w).
Proof.
  induction n as [|n IH]; intros w after; subst after.
  - simpl. lia.
  - rewrite ctl_while_loop_unfold.
    destruct (loop_test (ctl (shared w))); [|simpl; lia].
    pose proof (ctl_pass_counts_acknowledged w) as Hc. cbv zeta in Hc.
    destruct (loop_body net w) as [[e|[]] w1]; simpl in Hc |- *; [exact Hc|].
    specialize (IH w1). cbv zeta in IH. lia.
Qed.
End CounterOfClass.

(** X2.  The two counters count the acknowledged launches.  Over any number
    of passes of the loop of the script, with no clear-logs press to come,
    [activations_done] rises by the number of launch requests of these
    passes that were acknowledged with a 200; over any number of passes of
    the loop of [PhantomController] during which nothing is pressed,
    [launch_count] rises by that number. *)
Theorem counters_count_acknowledged_launches
        (net : nat -> net_reply) (api_key phantom_id : string)
        (run_count poll_seconds : Z) (idle_only : bool) (n : nat)
        (wa : Activator.W) (wc : Controller.W) :
  Forall (fun p => snd p <> Activator.ClearLogs) (ui_pending wa) ->
  ui_pending wc = [] ->
  (let after := snd (Activator.while_loop net api_key phantom_id run_count
                       poll_seconds idle_only n wa) in
   Activator.activations_done (shared after)
   = Activator.activations_done (shared wa)
     + (acknowledged net (http_log after) - acknowledged net (http_log wa)))
  /\ (let after := snd (Controller.while_loop net n wc) in
      Controller.launch_count (Controller.ctl (shared after))
      = Controller.launch_count (Controller.ctl (shared wc))
        + (acknowledged net (http_log after) - acknowledged net (http_log wc))).
Proof.
  intros Hnc _. split; intros after.
  - pose proof (loop_counts_acknowledged net api_key phantom_id run_count
                  poll_seconds idle_only n wa Hnc) as H.
    cbv zeta in H. subst after. lia.
  - pose proof (ctl_loop_counts_acknowledged net n wc) as H.
    cbv zeta in H. subst after. lia.
Qed.

Lemma counters_count_acknowledged_launches_witness :
  let wa := Runs.started [(7, Activator.Stop)] in
  let wc := Runs.controller_started 3 [] in
  let after := snd (Activator.while_loop Runs.net_finished_refused "key" "id" 3 5 true
                      4 wa) in
  Activator.activations_done (shared after)
  = Activator.activations_done (shared wa)
    + (acknowledged Runs.net_finished_refused (http_log after)
       - acknowledged Runs.net_finished_refused (http_log wa))
  /\ (let after := snd (Controller.while_loop Runs.net_finished_refused 4 wc) in
      Controller.launch_count (Controller.ctl (shared after))
      = Controller.launch_count (Controller.ctl (shared wc))
        + (acknowledged Runs.net_finished_refused (http_log after)
           - acknowledged Runs.net_finished_refused (http_log wc))).
Proof.
  intros wa wc after.
  assert (H : Forall (fun p => snd p <> Activator.ClearLogs) (ui_pending wa))
    by (repeat constructor; discriminate).
  exact (counters_count_acknowledged_launches Runs.net_finished_refused
           "key" "id" 3 5 true 4 wa wc H eq_refl).
Defined.

(** ** Stopping during the sleep between polls *)

Section StopDuringSleep.
Import Activator ActivatorFacts.
Variable poll_seconds : Z.

Lemma stop_flag_sticky : steady (fun s => stop_flag s = true) any_button.
Proof.
  split.
  - intros t m s H. exact H.
  - intros t b s _ H. destruct b; simpl.
    + exact H.
    + unfold request_stop. destruct (is_running s); [reflexivity | exact H].
Qed.

Lemma advance_quiet (d : Z) (w : W) (t : Z) (b : button) (rest : list (Z * button)) :
  ui_pending w = (t, b) :: rest -> clock w + d < t ->
  advance on_press d w = mkWorld (shared w) (clock w + d) (ui_pending w) (http_log w).
Proof.
  intros Hp Ht. unfold advance.
  rewrite (run_ui_future on_press (clock w + d) (ui_pending w) (shared w)).
  - reflexivity.
  - rewrite Hp. exact Ht.
Qed.

Lemma advance_onto_stop (d : Z) (w : W) (t : Z) (rest : list (Z * button)) :
  ui_pending w = (t, Stop) :: rest -> t <= clock w + d ->
  is_running (shared w) = true ->
  stop_flag (shared (advance on_press d w)) = true.
Proof.
  intros Hp Ht Hr. rewrite advance_shared, Hp. simpl.
  destruct (Z.leb_spec t (clock w + d)); [|lia].
  apply (run_ui_keeps on_press (fun s => stop_flag s = true) any_button).
  - intros t' e s _ Hs. apply (proj2 stop_flag_sticky); [exact I | exact Hs].
  - apply all_any_button.
  - unfold request_stop. rewrite Hr. reflexivity.
Qed.

Lemma sleep_ticks_until_stop (T : Z) (rest : list (Z * button)) (fuel : nat) :
  forall (slept : Z) (w : W),
    is_running (shared w) = true ->
    stop_flag (shared w) = false ->
    ui_pending w = (T, Stop) :: rest ->
    clock w < T ->
    T - clock w <= poll_seconds - slept ->
    (Z.to_nat (T - clock w) <= fuel)%nat ->
    let r := sleep_ticks poll_seconds fuel slept w in
    fst r = inr tt /\ clock (snd r) = T /\ stop_flag (shared (snd r)) = true.
Proof.
  induction fuel as [|fuel IH]; intros slept w Hr Hs Hp Hc Hroom Hf r; subst r.
  - lia.
  - simpl. unfold bind, gets. simpl. rewrite Hs.
    destruct (Z.ltb_spec slept poll_seconds); [|lia]. simpl.
    destruct (Z.le_gt_cases T (clock w + 1)) as [Hnow|Hlater].
    + assert (Hset : stop_flag (shared (advance on_press 1 w)) = true)
        by (apply (advance_onto_stop 1 w T rest); assumption).
      rewrite (sleep_ticks_stopped poll_seconds fuel (slept + 1) _ Hset). simpl.
      split; [reflexivity|]. split; [|exact Hset].
      rewrite advance_clock. lia.
    + rewrite (advance_quiet 1 w T Stop rest Hp) by lia.
      apply IH; simpl; try assumption; lia.
Qed.
End StopDuringSleep.

(** X3.  The sleep between polls is cut by a stop: with a run on, the stop
    flag not yet set and the next press to come a stop at second [T] of the
    sleep, the sleep ends at second [T] itself, with the flag set, instead
    of after [poll_seconds]. *)
Theorem stop_cuts_sleep_between_polls
        (poll_seconds T : Z) (rest : list (Z * Activator.button)) (w : Activator.W) :
  Activator.is_running (shared w) = true ->
  Activator.stop_flag (shared w) = false ->
  ui_pending w = (T, Activator.Stop) :: rest ->
  clock w < T <= clock w + poll_seconds ->
  let r := Activator.sleep_between_polls poll_seconds w in
  fst r = inr tt
  /\ clock (snd r) = T
  /\ Activator.stop_flag (shared (snd r)) = true.
Proof.
  intros Hr Hs Hp Ht. unfold Activator.sleep_between_polls.
  apply (sleep_ticks_until_stop poll_seconds T rest); try assumption; lia.
Qed.

Lemma stop_cuts_sleep_between_polls_witness :
  let w := Runs.started [(7, Activator.Stop); (9, Activator.ClearLogs)] in
  let r := Activator.sleep_between_polls 60 w in
  fst r = inr tt
  /\ clock (snd r) = 7
  /\ Activator.stop_flag (shared (snd r)) = true.
Proof.
  intros w.
  apply (stop_cuts_sleep_between_polls 60 7 [(9, Activator.ClearLogs)] w).
  - reflexivity.
  - reflexivity.
  - reflexivity.
  - simpl. lia.
Defined.

(** ** The sleep after a failed status read *)

(** X4.  A pass of the loop of the script whose status read gave [None]
    goes on for the whole interval: it ends exactly [poll_seconds] after
    the read returned, without a launch, whatever is pressed meanwhile (a
    stop included) and whatever the stop flag already says. *)
Theorem failed_read_pass_lasts_whole_interval
        (net : nat -> net_reply) (api_key phantom_id : string)
        (run_count poll_seconds : Z) (idle_only : bool) (w : Activator.W) :
  fst (Activator.get_phantom_status net api_key phantom_id w) = inr PNone ->
  0 <= poll_seconds ->
  let read := snd (Activator.get_phantom_status net api_key phantom_id w) in
  let r := Activator.loop_body net api_key phantom_id run_count poll_seconds
             idle_only w in
  fst r = inr tt
  /\ clock (snd r) = clock read + poll_seconds
  /\ launches (snd r) = launches w.
Proof.
  intros Hnone Hp read r. subst read r.
  split; [|split].
  - rewrite ActivatorFacts.loop_body_unfold. unfold bind.
    destruct (Activator.get_phantom_status net api_key phantom_id w) as [res w1].
    simpl in Hnone. subst res. simpl.
    apply (ActivatorFacts.retry_sleep_whole_interval poll_seconds w1 Hp).
  - rewrite ActivatorFacts.loop_body_unfold. unfold bind.
    destruct (Activator.get_phantom_status net api_key phantom_id w) as [res w1].
    simpl in Hnone. subst res. simpl.
    apply (ActivatorFacts.retry_sleep_whole_interval poll_seconds w1 Hp).
  - rewrite ActivatorFacts.loop_body_launches. cbv zeta. rewrite Hnone. reflexivity.
Qed.

Lemma failed_read_pass_lasts_whole_interval_witness :
  let w := Runs.started [(1, Activator.Stop)] in
  let r := Activator.loop_body Runs.net_500 "key" "id" 5 60 true w in
  fst r = inr tt
  /\ clock (snd r)
     = clock (snd (Activator.get_phantom_status Runs.net_500 "key" "id" w)) + 60
  /\ launches (snd r) = launches w.
Proof.
  intros w.
  apply (failed_read_pass_lasts_whole_interval Runs.net_500 "key" "id" 5 60 true w).
  - reflexivity.
  - lia.
Defined.

(** ** The log of a run *)

Section LogOfRun.
Import Activator ActivatorFacts.
Variable net : nat -> net_reply.
Variable api_key phantom_id : string.
Variable run_count poll_seconds : Z.
Variable idle_only : bool.

Lemma grows_from_steady (l0 : list log_line) :
  steady (fun s => exists added, logs s = l0 ++ added) not_clear.
Proof.
  split.
  - intros t m s [added H]. exists (added ++ [(t, m)]).
    simpl. rewrite H, app_assoc. reflexivity.
  - intros t b s Hb [added H]. destruct b; [elim Hb; reflexivity|].
    simpl. unfold request_stop. destruct (is_running s).
    + exists (added ++ [(t, StopRequested)]). simpl. rewrite H, app_assoc.
      reflexivity.
    + exists added. exact H.
Qed.

Lemma while_loop_log_grows (n : nat) (w : W) :
  Forall (fun p => snd p <> ClearLogs) (ui_pending w) ->
  exists added,
    logs (shared (snd (while_loop net api_key phantom_id run_count poll_seconds
                         idle_only n w)))
    = logs (shared w) ++ added.
Proof.
  intros Hnc.
  apply (while_loop_holds net api_key phantom_id run_count poll_seconds idle_only
           (fun s => exists added, logs s = logs (shared w) ++ added)
           (fun s => exists added, logs s = logs (shared w) ++ added)
           not_clear).
  - apply grows_from_steady.
  - apply grows_from_steady.
  - intros s H. exact H.
  - intros s H. exact H.
  - intros s H _. exact H.
  - split; [exists []; rewrite app_nil_r; reflexivity | exact Hnc].
Qed.
End LogOfRun.

(** X5.  With no clear-logs press to come the log only grows during a run
    of the script: after any number of passes the log at the start is a
    prefix of the log, and when [automation_loop] returns, the log is the
    log it found, then the thread-started line, then the lines of the
    passes, and last the thread-stopped line, written at the time the
    thread ends. *)
Theorem log_only_grows_without_clear
        (net : nat -> net_reply) (api_key phantom_id : string)
        (run_count poll_seconds : Z) (idle_only : bool) (n : nat)
        (w w' : Activator.W) :
  Forall (fun p => snd p <> Activator.ClearLogs) (ui_pending w) ->
  Activator.automation_loop net api_key phantom_id run_count poll_seconds
    idle_only n w = Some w' ->
  (exists added,
      Activator.logs
        (shared (snd (Activator.while_loop net api_key phantom_id run_count
                        poll_seconds idle_only n w)))
      = Activator.logs (shared w) ++ added)
  /\ (exists middle,
         Activator.logs (shared w')
         = Activator.logs (shared w)
             ++ [(clock w, Activator.ThreadStarted)]
             ++ middle
             ++ [(clock w', Activator.ThreadStopped)]).
Proof.
  intros Hnc Hrun. split.
  - apply while_loop_log_grows. exact Hnc.
  - unfold Activator.automation_loop in Hrun.
    destruct (while_loop_log_grows net api_key phantom_id run_count poll_seconds
                idle_only n (snd (Activator.log Activator.ThreadStarted w)) Hnc)
      as [added Hadd].
    destruct (Activator.while_loop net api_key phantom_id run_count poll_seconds
                idle_only n (snd (Activator.log Activator.ThreadStarted w)))
      as [[| |e] w1]; simpl in Hadd; [discriminate Hrun| |];
      injection Hrun as Hrun; subst w'; simpl; rewrite Hadd.
    + exists added. rewrite <- !app_assoc. reflexivity.
    + exists (added ++ [(clock w1, Activator.UnexpectedError e)]).
      rewrite <- !app_assoc. reflexivity.
Qed.

Lemma log_only_grows_without_clear_witness :
  exists middle,
    Activator.logs
      (shared (snd (Activator.finally_clause
                      (snd (Activator.while_loop Runs.net_finished_ack "key" "id" 1 5
                              true 2
                              (snd (Activator.log Activator.ThreadStarted
                                      (Runs.started [(3, Activator.Stop)]))))))))
    = Activator.logs (shared (Runs.started [(3, Activator.Stop)]))
        ++ [(0, Activator.ThreadStarted)] ++ middle
        ++ [(3, Activator.ThreadStopped)].
Proof.
  assert (H : Forall (fun p => snd p <> Activator.ClearLogs)
                (ui_pending (Runs.started [(3, Activator.Stop)])))
    by (repeat constructor; discriminate).
  exact (proj2 (log_only_grows_without_clear Runs.net_finished_ack "key" "id" 1 5
                  true 2 (Runs.started [(3, Activator.Stop)]) _ H eq_refl)).
Defined.

(** ** The two requests of the script *)

Section RequestsOfScript.
Import Activator ActivatorFacts.
Variable net : nat -> net_reply.
Variable api_key phantom_id : string.

Lemma advance_no_press (d : Z) (w : W) :
  ui_pending w = [] ->
  advance on_press d w = mkWorld (shared w) (clock w + d) [] (http_log w).
Proof. intros H. unfold advance. rewrite H. reflexivity. Qed.

(** What [get_phantom_status] answers, read off the outcome of its
    request. *)
Lemma get_phantom_status_answer (w : W) :
  fst (get_phantom_status net api_key phantom_id w)
  = match reply (net (length (http_log w))) with
    | inl e => if is_request_exception e then inr PNone else inl e
    | inr r =>
        if status_code r =? 200 then
          match json r with
          | inl e => if is_request_exception e then inr PNone else inl e
          | inr data =>
              match py_get data "data" (PDict []) with
              | inl e => inl e
              | inr inner => py_get inner "status" PNone
              end
          end
        else inr PNone
    end.
Proof.
  unfold get_phantom_status, try_except, get_phantom_status_try, bind, request,
    lift_result.
  destruct (reply (net (length (http_log w)))) as [e|r].
  - destruct (is_request_exception e); reflexivity.
  - destruct (status_code r =? 200); [|reflexivity].
    destruct (json r) as [e|d].
    + destruct (is_request_exception e); reflexivity.
    + destruct d; simpl; try reflexivity.
      destruct (dict_lookup "data" entries) as [inner|]; simpl; [|reflexivity].
      destruct inner; reflexivity.
Qed.

(** With nothing pressed, a read that returns a status writes nothing. *)
Lemma get_phantom_status_silent (w : W) (v : pyval) :
  ui_pending w = [] ->
  fst (get_phantom_status net api_key phantom_id w) = inr v ->
  py_is_none v = false ->
  shared (snd (get_phantom_status net api_key phantom_id w)) = shared w.
Proof.
  intros Hui.
  unfold get_phantom_status, try_except, get_phantom_status_try, bind, request,
    lift_result.
  rewrite advance_no_press by exact Hui.
  destruct (reply (net (length (http_log w)))) as [e|r].
  - destruct (is_request_exception e); simpl; intros H Hn;
      [injection H as H; subst v; discriminate Hn | discriminate H].
  - destruct (status_code r =? 200).
    + destruct (json r) as [e|d].
      * destruct (is_request_exception e); simpl; intros H Hn;
          [injection H as H; subst v; discriminate Hn | discriminate H].
      * destruct (py_get d "data" (PDict [])) as [e|inner].
        -- destruct (is_request_exception e); simpl; intros H Hn;
             [injection H as H; subst v; discriminate Hn | discriminate H].
        -- destruct (py_get inner "status" PNone) as [e|v'].
           ++ destruct (is_request_exception e); simpl; intros H Hn;
                [injection H as H; subst v; discriminate Hn | discriminate H].
           ++ simpl. intros _ _. reflexivity.
    + simpl. intros H Hn. injection H as H. subst v. discriminate Hn.
Qed.
End RequestsOfScript.

(** X6.  [get_phantom_status] returns a status (a value other than
    [None]) exactly when its request was answered with a 200 whose body is
    a JSON object holding, under "data", an object that holds that value
    under "status"; and then, with nothing pressed meanwhile, it has
    written no log line and changed nothing of the session state. *)
Theorem status_only_from_well_formed_200
        (net : nat -> net_reply) (api_key phantom_id : string)
        (w : Activator.W) (v : pyval) :
  py_is_none v = false ->
  (fst (Activator.get_phantom_status net api_key phantom_id w) = inr v
   <-> exists r top inner,
         reply (net (length (http_log w))) = inr r
         /\ status_code r = 200
         /\ json r = inr (PDict top)
         /\ dict_lookup "data" top = Some (PDict inner)
         /\ dict_lookup "status" inner = Some v)
  /\ (ui_pending w = [] ->
      fst (Activator.get_phantom_status net api_key phantom_id w) = inr v ->
      shared (snd (Activator.get_phantom_status net api_key phantom_id w))
      = shared w).
Proof.
  intros Hn. split.
  - rewrite get_phantom_status_answer. split.
    + destruct (reply (net (length (http_log w)))) as [e|r].
      * destruct (is_request_exception e); intros H;
          [injection H as H; subst v; discriminate Hn | discriminate H].
      * destruct (Z.eqb_spec (status_code r) 200) as [Hc|Hc];
          [|intros H; injection H as H; subst v; discriminate Hn].
        destruct (json r) as [e|d] eqn:Hj.
        -- destruct (is_request_exception e); intros H;
             [injection H as H; subst v; discriminate Hn | discriminate H].
        -- destruct d; simpl; try discriminate.
           destruct (dict_lookup "data" entries) as [inner|] eqn:Hd; simpl.
           ++ destruct inner; simpl; try discriminate.
              destruct (dict_lookup "status" entries0) as [s|] eqn:Hs; intros H;
                injection H as H; subst v; [|discriminate Hn].
              exists r, entries, entries0.
              split; [reflexivity|]. split; [exact Hc|]. split; [exact Hj|].
              split; [exact Hd | exact Hs].
           ++ intros H. injection H as H. subst v. discriminate Hn.
    + intros (r & top & inner & Hr & Hc & Hj & Hd & Hs).
      rewrite Hr, Hc, Hj. simpl. rewrite Hd. simpl. rewrite Hs. reflexivity.
  - intros Hui Hv.
    apply (get_phantom_status_silent net api_key phantom_id w v Hui Hv Hn).
Qed.

Lemma status_only_from_well_formed_200_witness :
  fst (Activator.get_phantom_status Runs.net_running "key" "id" (Runs.started []))
  = inr (PStr "running")
  /\ shared (snd (Activator.get_phantom_status Runs.net_running "key" "id"
                    (Runs.started [])))
     = shared (Runs.started []).
Proof.
  destruct (status_only_from_well_formed_200 Runs.net_running "key" "id"
              (Runs.started []) (PStr "running") eq_refl) as [[_ Hback] Hsilent].
  assert (Hv : fst (Activator.get_phantom_status Runs.net_running "key" "id"
                      (Runs.started [])) = inr (PStr "running")).
  { apply Hback.
    exists (mkResponse 200 "(json)"
              (inr (PDict [("data"%string,
                            PDict [("status"%string, PStr "running")])]))),
      [("data"%string, PDict [("status"%string, PStr "running")])],
      [("status"%string, PStr "running")].
    repeat split. }
  split; [exact Hv | exact (Hsilent eq_refl Hv)].
Defined.

(** X7.  [launch_phantom] of the script issues exactly one request, a POST
    to the launch address of the agent with the key header and a timeout of
    30 seconds.  It answers [True] exactly when that request was
    acknowledged with a 200, and then (nothing being pressed meanwhile)
    leaves the session state as it was; when it answers [False] it has
    written exactly one log line; an exception that is not a
    [RequestException] leaves it unlogged. *)
Theorem launch_phantom_one_request_one_line
        (net : nat -> net_reply) (api_key phantom_id : string) (w : Activator.W) :
  ui_pending w = [] ->
  let r := Activator.launch_phantom net api_key phantom_id w in
  http_log (snd r) = http_log w ++ [Activator.launch_call api_key phantom_id w]
  /\ (fst r = inr true <-> launcher_ok (net (length (http_log w))) = true)
  /\ match fst r with
     | inr true => shared (snd r) = shared w
     | inr false =>
         exists line,
           shared (snd r) = Activator.log_at (clock (snd r)) line (shared w)
     | inl e => is_request_exception e = false /\ shared (snd r) = shared w
     end.
Proof.
  intros Hui r. subst r. split; [|split].
  - apply ActivatorFacts.launch_phantom_http_log.
  - apply ActivatorFacts.launch_phantom_true.
  - unfold Activator.launch_phantom, try_except, bind, request.
    rewrite advance_no_press by exact Hui.
    destruct (reply (net (length (http_log w)))) as [e|resp].
    + destruct (is_request_exception e) eqn:He; simpl.
      * eexists. reflexivity.
      * split; [exact He | reflexivity].
    + destruct (status_code resp =? 200); simpl.
      * reflexivity.
      * eexists. reflexivity.
Qed.

Lemma launch_phantom_one_request_one_line_witness :
  let r := Activator.launch_phantom Runs.net_500 "key" "id" (Runs.started []) in
  http_log (snd r)
  = http_log (Runs.started [])
      ++ [Activator.launch_call "key" "id" (Runs.started [])]
  /\ (fst r = inr true
      <-> launcher_ok (Runs.net_500 (length (http_log (Runs.started [])))) = true).
Proof.
  intros r.
  destruct (launch_phantom_one_request_one_line Runs.net_500 "key" "id"
              (Runs.started []) eq_refl) as (A & B & _).
  split; [exact A | exact B].
Defined.

(** ** Starting again after a run *)

(** X8.  When [automation_loop] has returned, however it ended, a stop
    pressed afterwards changes nothing (no stale stop flag is left for the
    next run), and a press on start with a credential and an id spawns a
    new worker on a state with [is_running] set, the stop flag cleared and
    the counter at 0, the log kept and extended by one line: the test of
    the new loop only depends on [run_count].  Without a credential or an
    id the press is refused and the state is left as it was. *)
Theorem finished_run_can_be_started_again
        (net : nat -> net_reply) (api_key phantom_id : string)
        (run_count poll_seconds : Z) (idle_only : bool) (n : nat)
        (w w' : Activator.W) (t : Z) (key id : string) :
  Activator.automation_loop net api_key phantom_id run_count poll_seconds
    idle_only n w = Some w' ->
  key <> EmptyString -> id <> EmptyString ->
  Activator.on_press t Activator.Stop (shared w') = shared w'
  /\ (let started := Activator.press_start t key id (shared w') in
      fst started = Activator.Spawned
      /\ Activator.is_running (snd started) = true
      /\ Activator.stop_flag (snd started) = false
      /\ Activator.activations_done (snd started) = 0
      /\ Activator.logs (snd started)
         = Activator.logs (shared w') ++ [(t, Activator.AutomationStarted)]
      /\ forall rc : Z, Activator.loop_test rc (snd started) = (0 <? rc))
  /\ Activator.press_start t EmptyString id (shared w')
     = (Activator.Refused, shared w')
  /\ Activator.press_start t key EmptyString (shared w')
     = (Activator.Refused, shared w').
Proof.
  intros Hrun Hkey Hid.
  assert (Hstopped : Activator.is_running (shared w') = false).
  { unfold Activator.automation_loop in Hrun.
    destruct (Activator.while_loop net api_key phantom_id run_count poll_seconds
                idle_only n (snd (Activator.log Activator.ThreadStarted w)))
      as [[| |e] w1]; [discriminate Hrun| |];
      injection Hrun as Hrun; subst w'; reflexivity. }
  apply String.eqb_neq in Hkey. apply String.eqb_neq in Hid.
  split; [|split; [|split]].
  - simpl. unfold Activator.request_stop. rewrite Hstopped. reflexivity.
  - unfold Activator.press_start. rewrite Hstopped, Hkey, Hid. simpl.
    repeat split.
  - unfold Activator.press_start. rewrite Hstopped. reflexivity.
  - unfold Activator.press_start. rewrite Hstopped, Hkey. reflexivity.
Qed.

Lemma finished_run_can_be_started_again_witness :
  exists w',
    Activator.automation_loop Runs.net_running "key" "id" 5 60 true 2
      (Runs.started [(1, Activator.Stop)]) = Some w'
    /\ Activator.stop_flag (shared w') = true
    /\ fst (Activator.press_start 70 "key" "id" (shared w')) = Activator.Spawned
    /\ Activator.stop_flag (snd (Activator.press_start 70 "key" "id" (shared w')))
       = false.
Proof.
  eexists. split; [reflexivity|]. split; [reflexivity|].
  assert (Hk : "key"%string <> EmptyString) by discriminate.
  assert (Hi : "id"%string <> EmptyString) by discriminate.
  destruct (finished_run_can_be_started_again Runs.net_running "key" "id" 5 60 true 2
              (Runs.started [(1, Activator.Stop)]) _ 70 "key" "id" eq_refl Hk Hi)
    as (_ & (A & _ & B & _) & _).
  split; [exact A | exact B].
Defined.

(** ** The start of the script *)

(** [init_state], which every rerun of the script calls first, only
    adds the keys that are missing: on a session state that has its five
    keys it changes nothing (so a rerun during a run resets neither the
    flags, the counter, the log nor the thread), calling it twice is
    calling it once, after it all five keys are there, and on an empty
    session state it gives the defaults. *)
Theorem init_state_only_adds_missing_keys
        (r : ActivatorPage.raw_state) (s : Activator.session_state) :
  ActivatorPage.init_state_raw (ActivatorPage.of_session s)
  = ActivatorPage.of_session s
  /\ ActivatorPage.init_state_raw (ActivatorPage.init_state_raw r)
     = ActivatorPage.init_state_raw r
  /\ (exists s', ActivatorPage.to_session (ActivatorPage.init_state_raw r) = Some s')
  /\ ActivatorPage.to_session (ActivatorPage.init_state_raw ActivatorPage.no_keys)
     = Some Activator.init_state
  /\ ActivatorPage.to_session
       (ActivatorPage.init_state_raw
          (ActivatorPage.mkRaw None None (Some (Activator.activations_done s))
             (Some (Activator.logs s)) None))
     = Some (Activator.mkSession false false (Activator.activations_done s)
               (Activator.logs s) None).
Proof.
  split; [reflexivity|]. split; [|split; [|split; reflexivity]].
  - destruct r as [[a|] [b|] [c|] [d|] [e|]]; reflexivity.
  - destruct r as [[a|] [b|] [c|] [d|] [e|]]; eexists; reflexivity.
Qed.

(** ** The status panel of the script *)

(** X9.  The status panel is throttled only after a status read that
    returned.  A render for which the check is due issues exactly one
    status request; when the read returns, the render records the time at
    which it returned, and every render up to 5 seconds after that time
    issues no request and gets no status (the panel then shows "unknown");
    so does any render for which the check is not due, and the check is
    never due without a credential or without an id.  When the read raises,
    the render raises with it and [last_status_check] keeps the value it
    had: every later render is due again and issues a request of its own,
    however soon it comes. *)
Theorem status_panel_is_throttled
        (net : nat -> net_reply) (key id : string) (last last' last3 : option Z)
        (w w2 w3 : Activator.W) (v : pyval) :
  ActivatorPage.check_is_due key id last (clock w) = true ->
  fst (ActivatorPage.status_panel net key id last w) = inr (v, last') ->
  clock w2 <= clock (snd (ActivatorPage.status_panel net key id last w)) + 5 ->
  ActivatorPage.check_is_due key id last3 (clock w3) = false ->
  http_log (snd (ActivatorPage.status_panel net key id last w))
  = http_log w ++ [Activator.fetch_call key id w]
  /\ last' = Some (clock (snd (ActivatorPage.status_panel net key id last w)))
  /\ ActivatorPage.status_panel net key id last' w2 = (inr (PNone, last'), w2)
  /\ ActivatorPage.status_panel net key id last3 w3 = (inr (PNone, last3), w3)
  /\ ActivatorPage.shown_status PNone = PStr "unknown"
  /\ (forall (l : option Z) (now : Z),
         ActivatorPage.check_is_due EmptyString id l now = false
         /\ ActivatorPage.check_is_due key EmptyString l now = false)
  /\ (forall (l : option Z) (w4 w5 : Activator.W) (e : exn),
         ActivatorPage.check_is_due key id l (clock w4) = true ->
         fst (Activator.get_phantom_status net key id w4) = inl e ->
         clock w4 <= clock w5 ->
         fst (ActivatorPage.status_panel net key id l w4) = inl e
         /\ http_log (snd (ActivatorPage.status_panel net key id l w4))
            = http_log w4 ++ [Activator.fetch_call key id w4]
         /\ ActivatorPage.check_is_due key id l (clock w5) = true
         /\ http_log (snd (ActivatorPage.status_panel net key id l w5))
            = http_log w5 ++ [Activator.fetch_call key id w5]).
Proof.
  intros Hdue Hret Hsoon Hnot.
  assert (Hskip : forall (l : option Z) (w0 : Activator.W),
             ActivatorPage.check_is_due key id l (clock w0) = false ->
             ActivatorPage.status_panel net key id l w0 = (inr (PNone, l), w0)).
  { intros l w0 H. unfold ActivatorPage.status_panel, bind, time_now.
    rewrite H. reflexivity. }
  assert (Hread : forall (l : option Z) (w0 : Activator.W),
             ActivatorPage.check_is_due key id l (clock w0) = true ->
             http_log (snd (ActivatorPage.status_panel net key id l w0))
             = http_log w0 ++ [Activator.fetch_call key id w0]).
  { intros l w0 H.
    pose proof (ActivatorFacts.get_phantom_status_http_log net key id w0) as Hl.
    unfold ActivatorPage.status_panel, bind, time_now. rewrite H.
    destruct (Activator.get_phantom_status net key id w0) as [[e|v0] w1];
      simpl in Hl |- *; exact Hl. }
  split; [apply Hread; exact Hdue|].
  assert (Hlast : last' = Some (clock (snd (ActivatorPage.status_panel net key id
                                              last w)))).
  { unfold ActivatorPage.status_panel, bind, time_now in Hret |- *.
    rewrite Hdue in *.
    destruct (Activator.get_phantom_status net key id w) as [[e|v0] w1];
      simpl in Hret |- *; [discriminate Hret|].
    injection Hret as Hv Hl. subst last'. reflexivity. }
  split; [exact Hlast|]. split; [|split; [|split; [|split]]].
  - apply Hskip. rewrite Hlast. unfold ActivatorPage.check_is_due. simpl.
    destruct (Z.ltb_spec
                (clock (snd (ActivatorPage.status_panel net key id last w)) + 5)
                (clock w2)); [lia | reflexivity].
  - apply Hskip. exact Hnot.
  - reflexivity.
  - intros l now. unfold ActivatorPage.check_is_due. simpl.
    split.
    + rewrite andb_false_r. reflexivity.
    + apply andb_false_r.
  - intros l w4 w5 e Hd He Hlater.
    assert (Hd5 : ActivatorPage.check_is_due key id l (clock w5) = true).
    { unfold ActivatorPage.check_is_due in Hd |- *.
      apply andb_true_iff in Hd. destruct Hd as [Hd Hid].
      apply andb_true_iff in Hd. destruct Hd as [Hd Hkey].
      rewrite Hid, Hkey, !andb_true_r.
      apply Z.ltb_lt in Hd. apply Z.ltb_lt. lia. }
    split; [|split; [apply Hread; exact Hd | split; [exact Hd5 | apply Hread; exact Hd5]]].
    unfold ActivatorPage.status_panel, bind, time_now. rewrite Hd.
    destruct (Activator.get_phantom_status net key id w4) as [[e0|v0] w1];
      simpl in He |- *; [injection He as He; subst e0; reflexivity | discriminate He].
Qed.

Lemma status_panel_is_throttled_witness :
  let w := mkWorld Runs.session_started 100 [] [] in
  let first := ActivatorPage.status_panel Runs.net_running "key" "id" None w in
  http_log (snd first) = http_log w ++ [Activator.fetch_call "key" "id" w]
  /\ ActivatorPage.status_panel Runs.net_running "key" "id" (Some 100) (snd first)
     = (inr (PNone, Some 100), snd first).
Proof.
  intros w first.
  destruct (status_panel_is_throttled Runs.net_running "key" "id" None (Some 100)
              (Some 100) w (snd first) w (PStr "running")
              eq_refl eq_refl ltac:(simpl; lia) eq_refl)
    as (A & _ & B & _).
  split; [exact A | exact B].
Defined.

(** With a body [{"data": null}] the read raises: renders at seconds 100
    and 101 both issue a status request. *)
Example status_panel_not_throttled_after_fault :
  let w := mkWorld Runs.session_started 100 [] [] in
  let first := ActivatorPage.status_panel Runs.net_null_data "key" "id" None w in
  let again := ActivatorPage.status_panel Runs.net_null_data "key" "id" None
                 (mkWorld (shared (snd first)) 101 [] (http_log (snd first))) in
  fst first = inl (AttributeError "object has no attribute 'get'")
  /\ map issued_at (http_log (snd first)) = [100]
  /\ map issued_at (http_log (snd again)) = [100; 101].
Proof. vm_compute. repeat split. Qed.

(** ** [check_status], [launch_phantom] and the dashboard *)

Section MethodsOfClass.
Import Controller ControllerFacts.
Variable net : nat -> net_reply.

Lemma advance_display (d : Z) (w : W) :
  alerts (shared (advance on_press d w)) = alerts (shared w)
  /\ is_active (ctl (shared (advance on_press d w))) = is_active (ctl (shared w)).
Proof.
  rewrite advance_shared.
  apply (run_ui_keeps on_press
           (fun p => alerts p = alerts (shared w)
                     /\ is_active (ctl p) = is_active (ctl (shared w)))
           any_button).
  - intros t e s _ H. destruct e. simpl.
    destruct (automation_running (ctl s)); exact H.
  - induction (ui_pending w); constructor; [exact I | assumption].
  - split; reflexivity.
Qed.

Lemma advance_clock_of_request (v : http_verb) (u : string) (k : string * string)
      (tmo : option Z) (body : option string) (w : W) :
  clock (snd (request on_press net v u k tmo body w))
  = clock w + Z.of_nat (latency (net (length (http_log w)))).
Proof. unfold request. simpl. rewrite advance_clock. reflexivity. Qed.

Lemma check_status_clock (w : W) :
  clock (snd (check_status net w))
  = clock w + Z.of_nat (latency (net (length (http_log w)))).
Proof.
  unfold check_status, try_except, bind, gets, request, lift_result, modify, ret.
  set (w1 := advance on_press _ _).
  assert (H1 : clock w1 = clock w + Z.of_nat (latency (net (length (http_log w)))))
    by (subst w1; rewrite advance_clock; reflexivity).
  clearbody w1.
  destruct (reply (net (length (http_log w)))) as [e|r]; [exact H1|].
  destruct (status_code r =? 200); [|exact H1].
  destruct (json r) as [e|d]; [exact H1|].
  destruct (py_get d "status" (PStr "unknown")) as [e|v]; exact H1.
Qed.

Lemma launch_phantom_clock (w : W) :
  clock (snd (launch_phantom net w))
  = clock w + Z.of_nat (latency (net (length (http_log w)))).
Proof.
  unfold launch_phantom, try_except, bind, gets, request, modify, ret.
  set (w1 := advance on_press _ _).
  assert (H1 : clock w1 = clock w + Z.of_nat (latency (net (length (http_log w)))))
    by (subst w1; rewrite advance_clock; reflexivity).
  clearbody w1.
  destruct (reply (net (length (http_log w)))) as [e|r]; [exact H1|].
  destruct (status_code r =? 200); exact H1.
Qed.
End MethodsOfClass.

(** X10.  What the two methods of [PhantomController] leave on the
    dashboard.  When [check_status] could read a status (a 200 whose body is
    a JSON object) it writes no error box and [is_active] is its answer;
    otherwise it answers [False], writes exactly one error box and leaves
    [is_active] as it was, so the dashboard keeps the status of the last
    successful read.  [launch_phantom], when acknowledged, sets [is_active]
    and writes no error box; otherwise it writes exactly one and leaves
    [is_active] as it was. *)
Theorem methods_and_the_dashboard (net : nat -> net_reply) (w : Controller.W) :
  (let r := Controller.check_status net w in
   if Dashboard.status_readable (net (length (http_log w)))
   then Controller.alerts (shared (snd r)) = Controller.alerts (shared w)
        /\ fst r = inr (Controller.is_active (Controller.ctl (shared (snd r))))
   else fst r = inr false
        /\ Controller.is_active (Controller.ctl (shared (snd r)))
           = Controller.is_active (Controller.ctl (shared w))
        /\ exists box,
             Controller.alerts (shared (snd r))
             = Controller.alerts (shared w) ++ [box])
  /\ (let r := Controller.launch_phantom net w in
      if launcher_ok (net (length (http_log w)))
      then Controller.alerts (shared (snd r)) = Controller.alerts (shared w)
           /\ Controller.is_active (Controller.ctl (shared (snd r))) = true
      else Controller.is_active (Controller.ctl (shared (snd r)))
           = Controller.is_active (Controller.ctl (shared w))
           /\ exists box,
                Controller.alerts (shared (snd r))
                = Controller.alerts (shared w) ++ [box]).
Proof.
  split; intros r; subst r.
  - unfold Dashboard.status_readable, Controller.check_status, try_except, bind,
      gets, request, lift_result, modify, ret.
    set (w1 := advance Controller.on_press _ _).
    assert (H1 : Controller.alerts (shared w1) = Controller.alerts (shared w)
                 /\ Controller.is_active (Controller.ctl (shared w1))
                    = Controller.is_active (Controller.ctl (shared w)))
      by (subst w1;
          match goal with
          | |- context [advance _ ?d ?w0] => exact (advance_display d w0)
          end).
    clearbody w1. destruct H1 as [Ha Hi].
    destruct (reply (net (length (http_log w)))) as [e|resp]; simpl.
    + split; [reflexivity|]. split; [exact Hi|]. eexists. rewrite Ha. reflexivity.
    + destruct (status_code resp =? 200); simpl.
      * destruct (json resp) as [e|d]; simpl.
        -- split; [reflexivity|]. split; [exact Hi|].
           eexists. rewrite Ha. reflexivity.
        -- destruct d; simpl;
             try (split; [reflexivity|]; split; [exact Hi|];
                  eexists; rewrite Ha; reflexivity).
           split; [exact Ha | reflexivity].
      * split; [reflexivity|]. split; [exact Hi|].
        eexists. rewrite Ha. reflexivity.
  - unfold launcher_ok, Controller.launch_phantom, try_except, bind, gets, request,
      modify, ret.
    set (w1 := advance Controller.on_press _ _).
    assert (H1 : Controller.alerts (shared w1) = Controller.alerts (shared w)
                 /\ Controller.is_active (Controller.ctl (shared w1))
                    = Controller.is_active (Controller.ctl (shared w)))
      by (subst w1;
          match goal with
          | |- context [advance _ ?d ?w0] => exact (advance_display d w0)
          end).
    clearbody w1. destruct H1 as [Ha Hi].
    destruct (reply (net (length (http_log w)))) as [e|resp]; simpl.
    + split; [exact Hi|]. eexists. rewrite Ha. reflexivity.
    + destruct (status_code resp =? 200); simpl.
      * split; [exact Ha | reflexivity].
      * split; [exact Hi|]. eexists. rewrite Ha. reflexivity.
Qed.

(** ** A bounded run of [PhantomController] *)

Section BoundedRun.
Import Controller ControllerFacts.
Variable net : nat -> net_reply.

Lemma ctl_while_loop_holds (P : controller -> Prop) (may : button -> Prop) :
  steady P may ->
  forall (n : nat) (w : W),
    holds P may w -> holds P may (snd (while_loop net n w)).
Proof.
  intros HP. induction n as [|n IH]; intros w H; [exact H|].
  rewrite ctl_while_loop_unfold.
  destruct (loop_test (ctl (shared w))); [|exact H].
  pose proof (ctl_loop_body_holds net P may w HP H) as H1.
  destruct (loop_body net w) as [[e|[]] w1]; simpl in H1 |- *; [exact H1|].
  apply IH. exact H1.
Qed.

Lemma max_launches_steady (m : Z) : steady (fun c => max_launches c = m) any_button.
Proof.
  split; [|split].
  - intros b c H. exact H.
  - intros k c H. exact H.
  - intros t b p _ H. destruct b. simpl.
    destruct (automation_running (ctl p)); exact H.
Qed.

Lemma still_running_steady :
  steady (fun c => automation_running c = true) no_button.
Proof.
  split; [|split].
  - intros b c H. exact H.
  - intros k c H. exact H.
  - intros t b p Hb. elim Hb.
Qed.

Lemma all_any (l : list (Z * button)) : Forall (fun p => any_button (snd p)) l.
Proof. induction l; constructor; [exact I | assumption]. Qed.

(** Over one pass [launch_count] stays or goes up by one. *)
Lemma ctl_pass_step (w : W) :
  let after := snd (loop_body net w) in
  launch_count (ctl (shared after)) = launch_count (ctl (shared w))
  \/ launch_count (ctl (shared after)) = launch_count (ctl (shared w)) + 1.
Proof.
  intros after.
  pose proof (ctl_pass_counts_acknowledged net w) as Hc.
  pose proof (ctl_loop_body_http_log net w) as HH.
  fold after in Hc, HH. cbv zeta in Hc.
  destruct (fst (check_status net w)) as [e|[|]];
    rewrite HH in Hc;
    try (rewrite acknowledged_poll in Hc by reflexivity; left; lia).
  rewrite acknowledged_poll_launch in Hc by reflexivity.
  destruct (launcher_ok (net (Datatypes.S (length (http_log w)))));
    [right | left]; lia.
Qed.

Lemma ctl_while_bounded (m lo : Z) (n : nat) :
  forall w : W,
    max_launches (ctl (shared w)) = m -> 0 < m ->
    lo <= launch_count (ctl (shared w)) <= m ->
    let r := while_loop net n w in
    lo <= launch_count (ctl (shared (snd r))) <= m
    /\ max_launches (ctl (shared (snd r))) = m
    /\ (fst r = Exited -> loop_test (ctl (shared (snd r))) = false).
Proof.
  induction n as [|n IH]; intros w Hm Hpos Hb r; subst r.
  - simpl. split; [exact Hb|]. split; [exact Hm | discriminate].
  - rewrite ctl_while_loop_unfold.
    destruct (loop_test (ctl (shared w))) eqn:Ht;
      [|simpl; split; [exact Hb|]; split; [exact Hm | intros _; exact Ht]].
    assert (Hlt : launch_count (ctl (shared w)) < m).
    { unfold loop_test in Ht. apply andb_prop in Ht. destruct Ht as [_ Ht].
      rewrite Hm in Ht. destruct (Z.eqb_spec m 0); [lia|]. simpl in Ht.
      apply Z.ltb_lt in Ht. exact Ht. }
    pose proof (ctl_pass_step w) as Hstep. cbv zeta in Hstep.
    pose proof (ctl_loop_body_holds net _ _ w (max_launches_steady m)
                  (conj Hm (all_any (ui_pending w)))) as [Hm1 _].
    destruct (loop_body net w) as [[e|[]] w1]; simpl in Hstep, Hm1 |- *.
    + split; [lia|]. split; [exact Hm1 | discriminate].
    + apply IH; [exact Hm1 | exact Hpos | lia].
Qed.
End BoundedRun.

(** X11.  A bounded run of [PhantomController] during which nothing is
    pressed counts up to its target.  Started running with
    [max_launches = m > 0] and [launch_count] between 0 and [m], after any
    number of passes [launch_count] is where it started plus the launches
    acknowledged since, and not above [m]; while the loop is on
    [automation_running] is true; the loop is left only at
    [launch_count = m]; and when [run_automation] has returned, the
    dashboard reports "All requested launches completed!" with
    [launch_count = m]. *)
Theorem bounded_run_counts_up_to_its_target
        (net : nat -> net_reply) (n : nat) (w : Controller.W) (m : Z) :
  0 < m ->
  Controller.max_launches (Controller.ctl (shared w)) = m ->
  0 <= Controller.launch_count (Controller.ctl (shared w)) <= m ->
  ui_pending w = [] ->
  Controller.automation_running (Controller.ctl (shared w)) = true ->
  let r := Controller.while_loop net n w in
  let final := snd (Controller.run_automation net n w) in
  Controller.launch_count (Controller.ctl (shared w))
  <= Controller.launch_count (Controller.ctl (shared (snd r))) <= m
  /\ Controller.launch_count (Controller.ctl (shared (snd r)))
     = Controller.launch_count (Controller.ctl (shared w))
       + (acknowledged net (http_log (snd r)) - acknowledged net (http_log w))
  /\ Controller.automation_running (Controller.ctl (shared (snd r))) = true
  /\ (fst r = Exited ->
      Controller.launch_count (Controller.ctl (shared (snd r))) = m)
  /\ (fst r = Exited ->
      Controller.launch_count (Controller.ctl (shared final)) = m
      /\ Controller.automation_running (Controller.ctl (shared final)) = false
      /\ Dashboard.all_completed (Controller.ctl (shared final)) = true).
Proof.
  intros Hpos Hm Hb Hui Hrun r final.
  destruct (ctl_while_bounded net m
              (Controller.launch_count (Controller.ctl (shared w))) n w Hm Hpos)
    as (Hin & Hmax & Hexit); [lia|]. fold r in Hin, Hmax, Hexit.
  assert (Hstill : Controller.holds
                     (fun c => Controller.automation_running c = true)
                     Controller.no_button (snd r)).
  { apply (ctl_while_loop_holds net _ _ still_running_steady).
    split; [exact Hrun | rewrite Hui; constructor]. }
  destruct Hstill as [Hon _].
  assert (Hleft : fst r = Exited ->
                  Controller.launch_count (Controller.ctl (shared (snd r))) = m).
  { intros He. specialize (Hexit He). unfold Controller.loop_test in Hexit.
    rewrite Hon, Hmax in Hexit. simpl in Hexit.
    destruct (Z.eqb_spec m 0); [lia|]. simpl in Hexit.
    apply Z.ltb_ge in Hexit. lia. }
  split; [exact Hin|]. split; [|split; [exact Hon|]; split; [exact Hleft|]].
  - pose proof (ctl_loop_counts_acknowledged net n w) as Hc. cbv zeta in Hc.
    fold r in Hc. lia.
  - intros He. specialize (Hleft He).
    subst final. unfold Controller.run_automation. fold r.
    destruct r as [st w1]. simpl in He, Hin, Hmax, Hleft |- *. subst st. simpl.
    split; [exact Hleft|]. split; [reflexivity|].
    unfold Dashboard.all_completed. simpl. rewrite Hmax, Hleft.
    destruct (Z.ltb_spec 0 m); [|lia]. simpl.
    apply Z.leb_le. lia.
Qed.

Lemma bounded_run_counts_up_to_its_target_witness :
  let w := Runs.controller_started 2 [] in
  let r := Controller.while_loop Runs.net_finished_ack 3 w in
  Controller.launch_count (Controller.ctl (shared w))
  <= Controller.launch_count (Controller.ctl (shared (snd r))) <= 2
  /\ Controller.launch_count (Controller.ctl (shared (snd r))) = 2.
Proof.
  intros w r.
  destruct (bounded_run_counts_up_to_its_target Runs.net_finished_ack 3 w 2
              ltac:(lia) eq_refl ltac:(simpl; lia) eq_refl eq_refl)
    as (A & _ & _ & B & _).
  split; [exact A|]. exact (B eq_refl).
Defined.

(** X12.  [start_automation] does not reset [launch_count]: it is only 0
    on the fresh controller that saving the configuration creates.  So a
    run started, with nothing running, for a target [m > 0] that is not
    above the launches already counted (by an earlier run or by manual
    launches) ends at its first test: [run_automation] returns without a
    single request and the dashboard reports the launches as completed. *)
Theorem launch_count_is_kept_across_runs
        (net : nat -> net_reply) (n : nat) (w : Controller.W)
        (c : Controller.controller) (m : Z) :
  Controller.ctl (shared w) = Dashboard.press_start_automation m c ->
  Controller.automation_running c = false ->
  0 < m <= Controller.launch_count c ->
  let r := Controller.run_automation net (Datatypes.S n) w in
  Controller.launch_count (Controller.ctl (shared w)) = Controller.launch_count c
  /\ Controller.automation_running (Controller.ctl (shared w)) = true
  /\ fst r = Some (inr tt)
  /\ http_log (snd r) = http_log w
  /\ clock (snd r) = clock w
  /\ Dashboard.all_completed (Controller.ctl (shared (snd r))) = true
  /\ (forall (key id : string) (fresh : Controller.controller),
         Dashboard.save_configuration key id = Some fresh ->
         Controller.launch_count fresh = 0).
Proof.
  intros Hc Hoff Hm r.
  assert (Hctl : Controller.ctl (shared w) = Controller.start_automation m c)
    by (rewrite Hc; unfold Dashboard.press_start_automation; rewrite Hoff;
        reflexivity).
  assert (Htest : Controller.loop_test (Controller.ctl (shared w)) = false).
  { rewrite Hctl. unfold Controller.loop_test. simpl.
    destruct (Z.eqb_spec m 0); [lia|].
    destruct (Z.ltb_spec (Controller.launch_count c) m); [lia | reflexivity]. }
  subst r. unfold Controller.run_automation.
  rewrite ControllerFacts.ctl_while_loop_unfold, Htest. simpl.
  split; [rewrite Hctl; reflexivity|]. split; [rewrite Hctl; reflexivity|].
  split; [reflexivity|]. split; [reflexivity|]. split; [reflexivity|]. split.
  - unfold Dashboard.all_completed. simpl. rewrite Hctl. simpl.
    destruct (Z.ltb_spec 0 m); [|lia].
    destruct (Z.leb_spec m (Controller.launch_count c)); [reflexivity | lia].
  - intros key id fresh. unfold Dashboard.save_configuration.
    destruct (negb (String.eqb key EmptyString)
              && negb (String.eqb id EmptyString))%bool; intros H;
      [injection H as H; subst fresh; reflexivity | discriminate H].
Qed.

Lemma launch_count_is_kept_across_runs_witness :
  let c := Controller.ctl
             (shared (snd (Controller.run_automation Runs.net_finished_ack 3
                             (Runs.controller_started 2 [])))) in
  let w := mkWorld (Controller.mkPage (Dashboard.press_start_automation 1 c) [])
                   100 [] [] in
  let r := Controller.run_automation Runs.net_finished_ack 1 w in
  Controller.launch_count (Controller.ctl (shared w)) = Controller.launch_count c
  /\ fst r = Some (inr tt)
  /\ http_log (snd r) = http_log w
  /\ Dashboard.all_completed (Controller.ctl (shared (snd r))) = true.
Proof.
  intros c w r.
  destruct (launch_count_is_kept_across_runs Runs.net_finished_ack 0 w c 1
              eq_refl eq_refl ltac:(vm_compute; split; [reflexivity | discriminate]))
    as (A & _ & B & C & _ & D & _).
  repeat split; assumption.
Defined.

(** ** The length of a pass of [run_automation] *)

Section LengthOfPass.
Import Controller ControllerFacts.
Variable net : nat -> net_reply.

Lemma interval_kept (i : Z) (may : button -> Prop) :
  steady (fun c => status_check_interval c = i) may.
Proof.
  split; [|split].
  - intros b c H. exact H.
  - intros k c H. exact H.
  - intros t b p _ H. destruct b. simpl.
    destruct (automation_running (ctl p)); exact H.
Qed.

Lemma sleep_clock (d : Z) (w : W) :
  0 <= d -> sleep on_press d w = (inr tt, advance on_press d w).
Proof.
  intros Hd. unfold sleep. destruct (Z.ltb_spec d 0); [lia | reflexivity].
Qed.

Lemma ctl_pass_clock (w : W) :
  0 <= status_check_interval (ctl (shared w)) ->
  fst (loop_body net w) = inr tt
  /\ clock (snd (loop_body net w))
     = clock w
       + Z.of_nat (latency (net (length (http_log w))))
       + match fst (check_status net w) with
         | inr false =>
             Z.of_nat (latency (net (Datatypes.S (length (http_log w)))))
         | _ => 0
         end
       + status_check_interval (ctl (shared w)).
Proof.
  intros Hi.
  assert (H : holds (fun c => status_check_interval c
                              = status_check_interval (ctl (shared w)))
                any_button w)
    by (split; [reflexivity | apply all_any]).
  pose proof (check_status_holds net _ _ (interval_kept _ any_button) w H) as H1.
  pose proof (check_status_clock net w) as Hc.
  pose proof (check_status_http_log net w) as Hg.
  destruct (check_status_returns net w) as (b & w1 & Hcs).
  rewrite Hcs in *. simpl in H1, Hc, Hg |- *.
  assert (Hgoal : exists w',
             loop_body net w = (inr tt, w')
             /\ clock w'
                = clock w
                  + Z.of_nat (latency (net (length (http_log w))))
                  + (if b then 0
                     else Z.of_nat (latency (net (Datatypes.S (length (http_log w))))))
                  + status_check_interval (ctl (shared w))).
  { rewrite ctl_loop_body_unfold. unfold bind at 1. rewrite Hcs.
    unfold bind at 1.
    destruct b; cbn [negb].
    - unfold ret at 1. unfold bind, gets. destruct H1 as [H1 _].
      cbn [shared]. rewrite H1, (sleep_clock _ w1 Hi).
      eexists. split; [reflexivity|]. rewrite advance_clock, Hc. lia.
    - unfold bind at 1.
      pose proof (ctl_launch_phantom_holds net _ _ (interval_kept _ any_button) w1 H1)
        as [H2 _].
      pose proof (launch_phantom_clock net w1) as Hl.
      destruct (launch_phantom_returns net w1) as (b2 & w2 & Hl').
      rewrite Hl' in *. simpl in H2, Hl. unfold ret at 1. unfold bind, gets.
      cbn [shared]. rewrite H2, (sleep_clock _ w2 Hi).
      eexists. split; [reflexivity|].
      rewrite advance_clock, Hl, Hc, Hg, length_app. simpl.
      replace (length (http_log w) + 1)%nat with (Datatypes.S (length (http_log w)))
        by lia.
      lia. }
  destruct Hgoal as (w' & Hbody & Hclock). rewrite Hbody. simpl.
  split; [reflexivity|]. rewrite Hclock. destruct b; reflexivity.
Qed.
End LengthOfPass.

(** X13.  A pass of [run_automation] always runs to its end: it returns
    without an exception and lasts the time of its status request, plus the
    time of its launch request when [check_status] answered [False], plus
    the whole [status_check_interval], whatever is pressed meanwhile.  A
    stop pressed during a pass is therefore only seen at the next test of
    the loop, after the sleep, and does not keep that pass from
    launching. *)
Theorem pass_of_run_automation_runs_to_its_end
        (net : nat -> net_reply) (w : Controller.W) :
  0 <= Controller.status_check_interval (Controller.ctl (shared w)) ->
  fst (Controller.loop_body net w) = inr tt
  /\ clock (snd (Controller.loop_body net w))
     = clock w
       + Z.of_nat (latency (net (length (http_log w))))
       + match fst (Controller.check_status net w) with
         | inr false =>
             Z.of_nat (latency (net (Datatypes.S (length (http_log w)))))
         | _ => 0
         end
       + Controller.status_check_interval (Controller.ctl (shared w))
  /\ (launches (snd (Controller.loop_body net w)) <> launches w
      <-> fst (Controller.check_status net w) = inr false).
Proof.
  intros Hi. destruct (ctl_pass_clock net w Hi) as [A B].
  split; [exact A|]. split; [exact B|].
  unfold launches. rewrite ControllerFacts.ctl_loop_body_http_log.
  destruct (ControllerFacts.check_status_returns net w) as (b & w' & Hc).
  rewrite Hc. simpl. destruct b; split; intros H.
  - elim H. apply launches_snoc_get. reflexivity.
  - discriminate H.
  - reflexivity.
  - rewrite launches_snoc_get_post by reflexivity. apply snoc_neq.
Qed.

Lemma pass_of_run_automation_runs_to_its_end_witness :
  let w := Runs.controller_started 3 [(0, Controller.StopAutomation)] in
  fst (Controller.loop_body Runs.net_finished_ack w) = inr tt
  /\ clock (snd (Controller.loop_body Runs.net_finished_ack w)) = 30
  /\ Controller.automation_running
       (Controller.ctl (shared (snd (Controller.loop_body Runs.net_finished_ack w))))
     = false
  /\ length (launches (snd (Controller.loop_body Runs.net_finished_ack w))) = 1%nat.
Proof.
  intros w.
  destruct (pass_of_run_automation_runs_to_its_end Runs.net_finished_ack w
              ltac:(simpl; lia)) as (A & B & _).
  split; [exact A|]. split; [exact B|]. split; reflexivity.
Defined.

(** ** A run on an idle agent *)

Section IdleAgent.
Import Activator ActivatorFacts.
Variable net : nat -> net_reply.
Variable api_key phantom_id : string.
Variable run_count poll_seconds : Z.
Variable idle_only : bool.

Lemma get_phantom_status_is_status_answer (w : W) :
  fst (get_phantom_status net api_key phantom_id w)
  = status_answer (net (length (http_log w))).
Proof. apply get_phantom_status_answer. Qed.

Lemma sleep_ticks_returns (fuel : nat) :
  forall (slept : Z) (w : W),
    fst (sleep_ticks poll_seconds fuel slept w) = inr tt.
Proof.
  induction fuel as [|fuel IH]; intros slept w; [reflexivity|].
  simpl. unfold bind, gets. simpl.
  destruct ((slept <? poll_seconds) && negb (stop_flag (shared w)))%bool;
    [|reflexivity].
  apply IH.
Qed.

Lemma not_stopped_steady : steady (fun s => stop_flag s = false) ActivatorPage.nothing_pressed.
Proof.
  split.
  - intros t m s H. exact H.
  - intros t b s Hb. elim Hb.
Qed.

Lemma nothing_to_come (w : W) :
  ui_pending w = [] -> Forall (fun p => ActivatorPage.nothing_pressed (snd p)) (ui_pending w).
Proof. intros H. rewrite H. constructor. Qed.

Lemma nothing_left (w : W) :
  Forall (fun p => ActivatorPage.nothing_pressed (snd p)) (ui_pending w) -> ui_pending w = [].
Proof.
  intros H. destruct (ui_pending w) as [|p l]; [reflexivity|].
  inversion H as [|x y Hx Hy]. elim Hx.
Qed.

(** A pass in which the service lets the script launch. *)
Lemma launching_pass (w : W) (v : pyval) :
  ui_pending w = [] ->
  stop_flag (shared w) = false ->
  status_answer (net (length (http_log w))) = inr v ->
  py_is_none v = false ->
  policy_launches idle_only v = true ->
  launcher_ok (net (Datatypes.S (length (http_log w)))) = true ->
  let r := loop_body net api_key phantom_id run_count poll_seconds idle_only w in
  fst r = inr tt
  /\ activations_done (shared (snd r)) = activations_done (shared w) + 1
  /\ length (http_log (snd r)) = (length (http_log w) + 2)%nat
  /\ length (launches (snd r)) = Datatypes.S (length (launches w))
  /\ ui_pending (snd r) = []
  /\ stop_flag (shared (snd r)) = false.
Proof.
  intros Hui Hs Hv Hn Hpol Hok r.
  rewrite <- get_phantom_status_is_status_answer in Hv.
  assert (Hlaunches : launches (snd r)
                      = launches w
                          ++ [launch_call api_key phantom_id
                                (snd (get_phantom_status net api_key phantom_id w))]).
  { subst r. rewrite loop_body_launches. cbv zeta. rewrite Hv, Hn, Hpol.
    reflexivity. }
  assert (Hlog : http_log (snd r)
                 = http_log w
                     ++ [fetch_call api_key phantom_id w;
                         launch_call api_key phantom_id
                           (snd (get_phantom_status net api_key phantom_id w))]).
  { subst r. rewrite loop_body_http_log. cbv zeta. rewrite Hv, Hn, Hpol.
    reflexivity. }
  assert (Hquiet : holds (fun s => stop_flag s = false) ActivatorPage.nothing_pressed (snd r)).
  { subst r.
    apply (loop_body_holds net api_key phantom_id run_count poll_seconds idle_only
             (fun s => stop_flag s = false) (fun s => stop_flag s = false)
             ActivatorPage.nothing_pressed w not_stopped_steady not_stopped_steady).
    - intros s H. exact H.
    - intros s H. exact H.
    - split; [exact Hs | apply nothing_to_come; exact Hui]. }
  assert (Hnc : holds (fun s => activations_done s = activations_done (shared w))
                  not_clear w).
  { split; [reflexivity|]. rewrite Hui. constructor. }
  destruct (loop_body_counts net api_key phantom_id run_count poll_seconds idle_only
              _ w Hnc) as [_ Hcount].
  fold r in Hcount.
  split; [|split; [|split; [|split; [|split]]]].
  - subst r. rewrite loop_body_unfold. unfold bind at 1.
    pose proof (get_phantom_status_http_log net api_key phantom_id w) as Hg.
    destruct (get_phantom_status net api_key phantom_id w) as [res w1].
    simpl in Hv, Hg. subst res. rewrite Hn. unfold bind at 1.
    assert (Hpolicy : fst (apply_policy net api_key phantom_id run_count idle_only
                             v w1) = inr tt).
    { assert (Hlc : forall c : bool,
                 fst (launch_and_count net api_key phantom_id run_count v c w1)
                 = inr tt).
      { intros c. rewrite launch_and_count_unfold. unfold bind at 1.
        set (asked := snd (log _ w1)).
        assert (Ht : fst (launch_phantom net api_key phantom_id asked) = inr true).
        { apply launch_phantom_true.
          change (http_log asked) with (http_log w1).
          rewrite Hg, length_app. simpl.
          replace (length (http_log w) + 1)%nat
            with (Datatypes.S (length (http_log w))) by lia.
          exact Hok. }
        destruct (launch_phantom net api_key phantom_id asked) as [res w2].
        simpl in Ht. subst res. reflexivity. }
      unfold apply_policy. unfold policy_launches in Hpol.
      destruct idle_only; [|apply Hlc].
      rewrite Hpol. apply Hlc. }
    destruct (apply_policy net api_key phantom_id run_count idle_only v w1)
      as [res w2]. simpl in Hpolicy. subst res.
    apply sleep_ticks_returns.
  - rewrite Hcount; [rewrite Hok; reflexivity|].
    rewrite Hlaunches. apply snoc_neq.
  - rewrite Hlog, length_app. reflexivity.
  - rewrite Hlaunches, length_app. simpl. lia.
  - apply nothing_left. apply Hquiet.
  - apply Hquiet.
Qed.

Lemma idle_agent_loop (m : nat) :
  forall w : W,
    ui_pending w = [] ->
    stop_flag (shared w) = false ->
    activations_done (shared w) = run_count - Z.of_nat m ->
    (forall k : nat, (k < m)%nat ->
                     lets_launch net idle_only (length (http_log w)) k) ->
    exists w',
      while_loop net api_key phantom_id run_count poll_seconds idle_only
        (Datatypes.S m) w = (Exited, w')
      /\ activations_done (shared w') = run_count
      /\ length (launches w') = (length (launches w) + m)%nat
      /\ length (http_log w') = (length (http_log w) + 2 * m)%nat
      /\ stop_flag (shared w') = false.
Proof.
  induction m as [|m IH]; intros w Hui Hs Ha Hnet.
  - exists w. rewrite while_loop_unfold. unfold loop_test.
    destruct (Z.ltb_spec (activations_done (shared w)) run_count); [lia|].
    rewrite andb_false_r. repeat split; try lia. exact Hs.
  - rewrite while_loop_unfold. unfold loop_test at 1. rewrite Hs.
    destruct (Z.ltb_spec (activations_done (shared w)) run_count); [|lia].
    cbn [negb andb].
    destruct (Hnet 0%nat ltac:(lia)) as [(v & Hv & Hn & Hpol) Hok].
    rewrite Nat.mul_0_r, Nat.add_0_r in Hv, Hok.
    replace (length (http_log w) + 1)%nat with (Datatypes.S (length (http_log w)))
      in Hok by lia.
    destruct (launching_pass w v Hui Hs Hv Hn Hpol Hok)
      as (Hr & Hc & Hl & Hla & Hui1 & Hs1).
    destruct (loop_body net api_key phantom_id run_count poll_seconds idle_only w)
      as [res w1]. simpl in Hr, Hc, Hl, Hla, Hui1, Hs1. subst res.
    destruct (IH w1 Hui1 Hs1) as (w' & Hw & Ha' & Hla' & Hl' & Hs').
    + rewrite Hc, Ha. lia.
    + intros k Hk. specialize (Hnet (Datatypes.S k) ltac:(lia)).
      unfold lets_launch in *. rewrite Hl.
      replace (length (http_log w) + 2 + 2 * k)%nat
        with (length (http_log w) + 2 * Datatypes.S k)%nat by lia.
      exact Hnet.
    + exists w'. split; [exact Hw|]. split; [exact Ha'|].
      split; [lia|]. split; [lia | exact Hs'].
Qed.
End IdleAgent.

(** X14.  A run on an agent that is found idle and lets itself be launched
    completes.  Started with the counter at 0, the stop flag clear and
    nothing pressed, if in each of the first [run_count] passes the status
    request returns a status on which the policy launches and the launch
    request is acknowledged, then [automation_loop] returns after exactly
    [run_count] passes: the counter is [run_count], exactly [run_count]
    launch requests and [run_count] status requests were issued, and
    [is_running] is false. *)
Theorem run_on_idle_agent_completes
        (net : nat -> net_reply) (api_key phantom_id : string)
        (run_count poll_seconds : Z) (idle_only : bool) (w : Activator.W) :
  0 <= run_count ->
  ui_pending w = [] ->
  Activator.stop_flag (shared w) = false ->
  Activator.activations_done (shared w) = 0 ->
  (forall k : nat, (k < Z.to_nat run_count)%nat ->
                   lets_launch net idle_only (length (http_log w)) k) ->
  exists w',
    Activator.automation_loop net api_key phantom_id run_count poll_seconds
      idle_only (Datatypes.S (Z.to_nat run_count)) w = Some w'
    /\ Activator.activations_done (shared w') = run_count
    /\ length (launches w') = (length (launches w) + Z.to_nat run_count)%nat
    /\ length (polls w') = (length (polls w) + Z.to_nat run_count)%nat
    /\ Activator.is_running (shared w') = false.
Proof.
  intros Hrc Hui Hs Ha Hnet.
  destruct (idle_agent_loop net api_key phantom_id run_count poll_seconds idle_only
              (Z.to_nat run_count)
              (snd (Activator.log Activator.ThreadStarted w)) Hui Hs)
    as (w1 & Hw & Ha1 & Hla & Hl & Hs1).
  - simpl. rewrite Ha. lia.
  - exact Hnet.
  - unfold Activator.automation_loop. rewrite Hw.
    eexists. split; [reflexivity|]. simpl.
    split; [exact Ha1|]. split; [exact Hla|]. split; [|reflexivity].
    simpl in Hla, Hl.
    assert (Hsplit : forall l : list http_call,
               length l
               = (length (filter is_launch l)
                  + length (filter (fun c => negb (is_launch c)) l))%nat).
    { induction l as [|c l IHl]; [reflexivity|]. simpl.
      destruct (is_launch c); simpl; lia. }
    unfold polls, launches in *. cbn [http_log] in Hla |- *.
    pose proof (Hsplit (http_log w1)) as H1.
    pose proof (Hsplit (http_log w)) as H0. lia.
Qed.

Lemma run_on_idle_agent_completes_witness :
  exists w',
    Activator.automation_loop Runs.net_finished_ack "key" "id" 3 5 true 4
      (Runs.started []) = Some w'
    /\ Activator.activations_done (shared w') = 3
    /\ length (launches w') = 3%nat.
Proof.
  destruct (run_on_idle_agent_completes Runs.net_finished_ack "key" "id" 3 5 true
              (Runs.started []) ltac:(lia) eq_refl eq_refl eq_refl)
    as (w' & A & B & C & _).
  - intros k Hk. simpl in Hk.
    assert (Hcases : k = 0%nat \/ k = 1%nat \/ k = 2%nat) by lia.
    destruct Hcases as [H|[H|H]]; subst k;
      (split; [exists (PStr "finished"); repeat split | reflexivity]).
  - exists w'. split; [exact A|]. split; [exact B | exact C].
Defined.
